(** * Effective potentials in Schwarzschild spacetime

    A shallow embedding of the two Streamlit scripts
    [streamlit/schwarzschild_potential.py] (massive test particle) and
    [streamlit/schwarzschild_potential_photon.py] (photon), and the proofs of
    the properties their specification states.

    Numbers.  Both scripts compute with Python [float]s and NumPy [float64]s.
    The scripts are written once, over an interface [PyFloat] of the
    arithmetic they use, and read at these instances:
    - [Binary64.ieee libm_pow array_pow], IEEE 754 binary64 (Rocq's primitive
      floats) around the two power functions of the platform, which are left
      open: a statement for every [libm_pow] and [array_pow] holds whatever
      their last digits are;
    - [Binary64.b64_float], the same with both powers computed by products,
      in which the scripts run on concrete inputs;
    - [Exact.R_float], the real numbers: exact arithmetic, in which the
      algebraic properties (closed forms, orderings, roots) are proved.

    Exceptions.  True division of two Python floats raises
    [ZeroDivisionError] on a zero divisor ([truediv]), and a power of a
    Python float raises [OverflowError] when it overflows ([py_pow]); an
    operation in which a NumPy value takes part never raises ([fdiv],
    [fpow], [fpow_array]).

    Effects.  A run of a script returns the user-interface events it produced,
    in order, and how it ended.  Static text (titles, formulas, captions) and
    the formatting of legend labels are left out.

    Text.  A text is the sequence of bytes of its UTF-8 encoding, which is how
    the literals of this file are read.  [str.split(",")] and [str.strip()]
    are modelled on that encoding, [strip] with the white space of Unicode.
    The parser is written over an arbitrary conversion [py_float] standing
    for [float], and run with [Binary64.float_of_string]. *)

From Stdlib Require Import ZArith List String Ascii Bool Arith Lia.
From Stdlib Require Import Floats.
From Stdlib Require Import Reals Lra Psatz.
Import ListNotations.

Set Implicit Arguments.
Set Warnings "-inexact-float".

(** * Part I: the model *)

(** ** Exceptions *)

Inductive exn : Type :=
| ZeroDivisionError
| OverflowError.

Inductive result (A : Type) : Type :=
| Ok (a : A)
| Raise (e : exn).

Arguments Ok {A} a.
Arguments Raise {A} e.

Definition bind {A B : Type} (m : result A) (k : A -> result B) : result B :=
  match m with
  | Ok a => k a
  | Raise e => Raise e
  end.

Notation "x <- m ;; k" := (bind m (fun x => k))
  (at level 61, m at next level, right associativity).

(** ** The arithmetic of the scripts *)

Class PyFloat (F : Type) : Type := {
  of_Z : Z -> F;               (* an integer literal used as a float *)
  half : F;                    (* the literal 0.5 *)
  fadd : F -> F -> F;
  fsub : F -> F -> F;
  fmul : F -> F -> F;
  fdiv : F -> F -> F;          (* NumPy division: total *)
  fneg : F -> F;
  fsqrt : F -> F;              (* np.sqrt *)
  fpow : F -> nat -> F;        (* the C library's pow(x, n) *)
  fpow_array : F -> nat -> F;  (* one element of r ** n, r a NumPy array *)
  feqb : F -> F -> bool;
  fltb : F -> F -> bool;
  fleb : F -> F -> bool;
  fis_nan : F -> bool;
  fis_inf : F -> bool
}.

Declare Scope py_scope.
Delimit Scope py_scope with py.

Notation "# z" := (of_Z z%Z) (at level 1, format "# z") : py_scope.
Infix "+" := fadd : py_scope.
Infix "-" := fsub : py_scope.
Infix "*" := fmul : py_scope.
Infix "/" := fdiv : py_scope.
Notation "- x" := (fneg x) : py_scope.
Infix "**" := fpow (at level 30, right associativity) : py_scope.
Infix "==" := feqb (at level 70, no associativity) : py_scope.
Infix "<?" := fltb : py_scope.
Infix "<=?" := fleb : py_scope.
Notation "x >? y" := (fltb y x) (at level 70, no associativity) : py_scope.

(** [x ** n] by repeated multiplication, for the literal exponents 2 and 3 of
    the scripts. *)
Fixpoint pow_by_products {F : Type} (mul : F -> F -> F) (one x : F) (n : nat) : F :=
  match n with
  | O => one
  | S O => x
  | S n' => mul x (pow_by_products mul one x n')
  end.

Section Arithmetic.
Context {F : Type} {PF : PyFloat F}.
Local Open Scope py_scope.

(** [x ** n] on a Python float, for a literal exponent [n >= 1]: CPython's
    [float_pow].  NaN, the infinities, zero and (in absolute value) one are
    answered without the C library; otherwise the result is pow(|x|, n), with
    the sign put back for an odd [n], and [OverflowError] when it is
    infinite. *)
Definition py_pow (x : F) (n : nat) : result F :=
  let negative := x <? #0 in
  let a := if negative then - x else x in
  let signed (y : F) : F := if negative && Nat.odd n then - y else y in
  if fis_nan x then Ok x
  else if fis_inf x then Ok (if Nat.odd n then x else a)
  else if x == #0 then Ok (if Nat.odd n then x else #0)
  else if a == #1 then Ok (signed #1)
  else
    let y := signed (a ** n) in
    if fis_inf y then Raise OverflowError else Ok y.

(** [x / y] on two Python floats. *)
Definition truediv (x y : F) : result F :=
  if y == #0 then Raise ZeroDivisionError else Ok (x / y).

(** The chained comparison [a <= x <= b]. *)
Definition between (a x b : F) : bool := (a <=? x) && (x <=? b).

End Arithmetic.

(** ** Potential evaluators

    The evaluators are applied to the grid [r], a NumPy array, and to a single
    radius.  On the grid every operation is taken element by element and the
    powers of [r] are NumPy's; the powers of the Python floats [l] are
    computed (and may raise) once for the whole array. *)

Section Potentials.
Context {F : Type} {PF : PyFloat F}.
Local Open Scope py_scope.

(** schwarzschild_potential.py, [V_eff], at one radius (an [np.float64]). *)
Definition V_eff (r GM l : F) : result F :=
  l_sq <- py_pow l 2 ;;
  l_sq' <- py_pow l 2 ;;
  Ok (- GM / r
      + half * l_sq / r ** 2
      - GM * l_sq' / r ** 3).

(** [V_eff] on the grid. *)
Definition V_eff_grid (r : list F) (GM l : F) : result (list F) :=
  l_sq <- py_pow l 2 ;;
  l_sq' <- py_pow l 2 ;;
  Ok (map (fun x => - GM / x
                    + half * l_sq / fpow_array x 2
                    - GM * l_sq' / fpow_array x 3) r).

(** schwarzschild_potential.py, [V_eff_newton], at one radius. *)
Definition V_eff_newton (r GM l : F) : result F :=
  l_sq <- py_pow l 2 ;;
  Ok (- GM / r
      + half * l_sq / r ** 2).

(** [V_eff_newton] on the grid. *)
Definition V_eff_newton_grid (r : list F) (GM l : F) : result (list F) :=
  l_sq <- py_pow l 2 ;;
  Ok (map (fun x => - GM / x
                    + half * l_sq / fpow_array x 2) r).

(** schwarzschild_potential_photon.py, [V_eff_photon], at one radius.  The
    script calls it at the constant 3 GM = 3.0 only, where no operation
    raises. *)
Definition V_eff_photon (r GM : F) : F :=
  (#1 / r ** 2) * (#1 - #2 * GM / r).

(** [V_eff_photon] on the grid. *)
Definition V_eff_photon_grid (r : list F) (GM : F) : list F :=
  map (fun x => (#1 / fpow_array x 2) * (#1 - #2 * GM / x)) r.

(** schwarzschild_potential_photon.py, [V_eff_newton_photon], at one
    radius. *)
Definition V_eff_newton_photon (r : F) : F :=
  #1 / r ** 2.

(** [V_eff_newton_photon] on the grid. *)
Definition V_eff_newton_photon_grid (r : list F) : list F :=
  map (fun x => #1 / fpow_array x 2) r.

End Potentials.

(** ** Critical points of the massive-particle potential *)

(** The marker drawn: ['ro'] for a maximum, ['go'] for a minimum. *)
Inductive Kind : Type :=
| KMax
| KMin.

Record ExtremumPoint (F : Type) : Type := {
  radius : F;
  potential : F;
  kind : Kind
}.

Section Extrema.
Context {F : Type} {PF : PyFloat F}.
Local Open Scope py_scope.

(** schwarzschild_potential.py, the body of the loop over [l_list] from
    [l_critical] on: the extrema it marks for one value [l]. *)
Definition find_extrema (GM l r_min r_max : F) : result (list (ExtremumPoint F)) :=
  let l_critical := #2 * fsqrt #3 * GM in
  if l >? l_critical then
    q <- truediv GM l ;;
    q_sq <- py_pow q 2 ;;
    let discriminant := #1 - #12 * q_sq in
    if discriminant >? #0 then
      let sqrt_disc := fsqrt discriminant in
      let r_max_loc := #6 * GM / (#1 + sqrt_disc) in
      let r_min_loc := #6 * GM / (#1 - sqrt_disc) in
      maxima <-
        (if between r_min r_max_loc r_max then
           V_max <- V_eff r_max_loc GM l ;;
           Ok [ {| radius := r_max_loc; potential := V_max; kind := KMax |} ]
         else Ok []) ;;
      minima <-
        (if between r_min r_min_loc r_max then
           V_min <- V_eff r_min_loc GM l ;;
           Ok [ {| radius := r_min_loc; potential := V_min; kind := KMin |} ]
         else Ok []) ;;
      Ok (maxima ++ minima)
    else Ok []
  else Ok [].

End Extrema.

(** ** Classification of photon impact parameters *)

(** The three line styles of the energy levels: ['--'] red "(capturado)",
    ['-.'] green "(escapa)", [':'] purple "(critico)". *)
Inductive Regime : Type :=
| Captured
| Escapes
| Critical.

Record ImpactClassification (F : Type) : Type := {
  impact : F;
  E_eff : F;
  regime : Regime
}.

Section Classification.
Context {F : Type} {PF : PyFloat F}.
Local Open Scope py_scope.

(** The [if]/[elif]/[else] on [b * GM] and [b_critical]. *)
Definition regime_of (b GM : F) : Regime :=
  let b_critical := fsqrt #27 * GM in
  if b * GM <? b_critical then Captured
  else if b * GM >? b_critical then Escapes
  else Critical.

(** schwarzschild_potential_photon.py, the body of the loop over [b_list]. *)
Definition classify_impact_parameter (b GM : F) : result (ImpactClassification F) :=
  sq <- py_pow (b * GM) 2 ;;
  E <- truediv #1 sq ;;
  Ok {| impact := b; E_eff := E; regime := regime_of b GM |}.

End Classification.

(** ** User-interface events and script runs *)

Inductive Curve (F : Type) : Type :=
| Relativistic (l : F)          (* "l = ... (Schwarzschild)" *)
| Newtonian (l : F)             (* "l = ... (Newton)" *)
| PhotonRelativistic            (* "Potencial de Schwarzschild" *)
| PhotonNewtonian.              (* "Potencial Newtoniano" *)

Arguments PhotonRelativistic {F}.
Arguments PhotonNewtonian {F}.

Inductive Landmark : Type :=
| Horizon                       (* black dashed line, labelled "horizonte" *)
| PhotonOrbit.                  (* red dashed line at the photon sphere *)

Inductive Event (F : Type) : Type :=
| SidebarWarning (msg : string)                   (* st.sidebar.warning *)
| StError (msg : string)                          (* st.error *)
| PlotCurve (c : Curve F) (xs ys : list F)        (* ax.plot of a curve *)
| PlotMarker (k : Kind) (x y : F)                 (* ax.plot(x, y, 'ro' / 'go') *)
| AxVLine (lm : Landmark) (x : F)                 (* ax.axvline *)
| AxHLine (c : ImpactClassification F)            (* ax.axhline of an energy level *)
| SetYLim (lo hi : F)                             (* ax.set_ylim *)
| Pyplot                                          (* st.pyplot(fig) *)
| CriticalPointInfo (l : F) (k : Kind) (x : F).   (* a line of "Puntos Criticos" *)

Arguments SidebarWarning {F} msg.
Arguments StError {F} msg.
Arguments Pyplot {F}.

(** How a run ends: [Done] at the end of the script, [Crashed e] on an
    uncaught exception, [Stopped] at [st.stop()]. *)
Inductive ending (A : Type) : Type :=
| Done (a : A)
| Crashed (e : exn)
| Stopped.

Arguments Done {A} a.
Arguments Crashed {A} e.
Arguments Stopped {A}.

(** A piece of script: the events it produces and how it ends. *)
Definition script (F A : Type) : Type := (list (Event F) * ending A)%type.

Section ScriptMonad.
Context {F : Type}.

Definition ret {A : Type} (a : A) : script F A := ([], Done a).

Definition emit (e : Event F) : script F unit := ([e], Done tt).

Definition st_stop {A : Type} : script F A := ([], Stopped).

Definition lift {A : Type} (r : result A) : script F A :=
  match r with
  | Ok a => ([], Done a)
  | Raise e => ([], Crashed e)
  end.

Definition sbind {A B : Type} (m : script F A) (k : A -> script F B) : script F B :=
  match snd m with
  | Done a => (fst m ++ fst (k a), snd (k a))
  | Crashed e => (fst m, Crashed e)
  | Stopped => (fst m, Stopped)
  end.

End ScriptMonad.

Notation "x <~ m ;; k" := (sbind m (fun x => k))
  (at level 61, m at next level, right associativity).
Notation "m ;;; k" := (sbind m (fun _ => k))
  (at level 61, right associativity).

Section Loops.
Context {F : Type}.

(** [for x in xs: s = body(s, x)] *)
Fixpoint foldM {A S : Type} (body : S -> A -> script F S) (xs : list A) (s : S) : script F S :=
  match xs with
  | [] => ret s
  | x :: xs' => s' <~ body s x ;; foldM body xs' s'
  end.

(** [for x in xs: body(x)] *)
Definition for_each {A : Type} (xs : list A) (body : A -> script F unit) : script F unit :=
  foldM (fun _ x => body x) xs tt.

Definition when (b : bool) (s : script F unit) : script F unit :=
  if b then s else ret tt.

End Loops.

(** ** Strings: [str.split(",")] and [str.strip()] *)

Fixpoint split_on (sep : ascii) (s : string) : list string :=
  match s with
  | EmptyString => [EmptyString]
  | String c s' =>
      if Ascii.eqb c sep then EmptyString :: split_on sep s'
      else match split_on sep s' with
           | [] => [String c EmptyString]
           | t :: ts => String c t :: ts
           end
  end.

(** The characters [str.isspace] holds of, which are those [str.strip]
    removes, by the bytes of their UTF-8 encoding.  One byte: U+0009 to
    U+000D, U+001C to U+001F and the space U+0020. *)
Definition space1 (c : ascii) : bool :=
  let n := nat_of_ascii c in
  ((9 <=? n) && (n <=? 13) || (28 <=? n) && (n <=? 32))%nat.

(** Two bytes: U+0085 (C2 85) and U+00A0 (C2 A0). *)
Definition space2 (c1 c2 : ascii) : bool :=
  let n1 := nat_of_ascii c1 in
  let n2 := nat_of_ascii c2 in
  ((n1 =? 194) && ((n2 =? 133) || (n2 =? 160)))%nat.

(** Three bytes: U+1680 (E1 9A 80); U+2000 to U+200A, U+2028, U+2029 and
    U+202F (E2 80 80 to 8A, A8, A9, AF); U+205F (E2 81 9F); U+3000
    (E3 80 80). *)
Definition space3 (c1 c2 c3 : ascii) : bool :=
  let n1 := nat_of_ascii c1 in
  let n2 := nat_of_ascii c2 in
  let n3 := nat_of_ascii c3 in
  ((n1 =? 225) && (n2 =? 154) && (n3 =? 128)
   || (n1 =? 226) && (n2 =? 128)
      && ((128 <=? n3) && (n3 <=? 138) || (n3 =? 168) || (n3 =? 169) || (n3 =? 175))
   || (n1 =? 226) && (n2 =? 129) && (n3 =? 159)
   || (n1 =? 227) && (n2 =? 128) && (n3 =? 128))%nat.

(** The bytes [l] without the white space they start with.  With [back] the
    bytes are those of a text read from its end, so that each character
    comes last byte first. *)
Fixpoint drop_spaces (back : bool) (l : list ascii) {struct l} : list ascii :=
  match l with
  | [] => []
  | c1 :: l1 =>
      if space1 c1 then drop_spaces back l1
      else
        match l1 with
        | [] => l
        | c2 :: l2 =>
            if (if back then space2 c2 c1 else space2 c1 c2) then drop_spaces back l2
            else
              match l2 with
              | [] => l
              | c3 :: l3 =>
                  if (if back then space3 c3 c2 c1 else space3 c1 c2 c3)
                  then drop_spaces back l3
                  else l
              end
        end
  end.

Definition lstrip_bytes (l : list ascii) : list ascii := drop_spaces false l.

Definition rstrip_bytes (l : list ascii) : list ascii := rev (drop_spaces true (rev l)).

Definition strip (s : string) : string :=
  string_of_list_ascii (rstrip_bytes (lstrip_bytes (list_ascii_of_string s))).

Definition is_empty (s : string) : bool :=
  match s with
  | EmptyString => true
  | String _ _ => false
  end.

(** ** The parameter parser *)

(** The text of the sidebar warning for the token [part]. *)
Definition warning_text (part : string) : string :=
  ("No se pudo interpretar '" ++ part ++ "' como un número; se ignora.")%string.

Section Parser.
Context {F : Type}.

(** Python's [float(part)]: [None] stands for [ValueError]. *)
Variable py_float : string -> option F.

(** One turn of the parsing loop, on the list built so far. *)
Definition parse_part (values : list F) (part : string) : script F (list F) :=
  let part := strip part in
  if is_empty part then ret values
  else match py_float part with
       | Some x => ret (values ++ [x])
       | None => emit (SidebarWarning (warning_text part)) ;;; ret values
       end.

(** Both scripts, "Parse l values" / "Parse b values". *)
Definition parse_numbers (raw_text : string) : script F (list F) :=
  foldM parse_part (split_on "," raw_text) [].

End Parser.

(** ** The radial grid *)

Section Grid.
Context {F : Type} {PF : PyFloat F}.
Local Open Scope py_scope.

Definition num_points : nat := 3000.

(** The index [i] as a float. *)
Definition of_nat (i : nat) : F := #(Z.of_nat i).

(** The last element of [y] replaced by [stop]. *)
Definition set_last (y : list F) (stop : F) : list F :=
  match y with
  | [] => []
  | _ :: _ => removelast y ++ [stop]
  end.

(** NumPy's [np.linspace(start, stop, num)] (endpoint included): the indices
    0 .. num-1 scaled by the step and shifted by [start], the last one then
    set to [stop]. *)
Definition linspace (start stop : F) (num : nat) : list F :=
  let div := of_nat (num - 1) in
  let delta := stop - start in
  let y := map of_nat (seq 0 num) in
  let y :=
    if (0 <? num - 1)%nat then
      let step := delta / div in
      if step == #0
      then map (fun yi => yi / div * delta) y
      else map (fun yi => yi * step) y
    else map (fun yi => yi * delta) y in
  let y := map (fun yi => yi + start) y in
  if (1 <? num)%nat then set_last y stop else y.

End Grid.

(** ** The two scripts *)

(** The widget values of one render cycle. *)
Record Inputs (F : Type) : Type := {
  text : string;                 (* the comma-separated parameter list *)
  show_newtonian : bool;
  r_min_slider : F;              (* "Min r/GM" *)
  r_max_slider : F;              (* "Max r/GM" *)
  y_limits : option (F * F)      (* [None] when the automatic y scale is ticked *)
}.

Section Scripts.
Context {F : Type} {PF : PyFloat F}.
Variable py_float : string -> option F.
Local Open Scope py_scope.

Definition GM : F := #1.

Definition set_ylim (inp : Inputs F) : script F unit :=
  match y_limits inp with
  | Some (y_min, y_max) => emit (SetYLim y_min y_max)
  | None => ret tt
  end.

(** schwarzschild_potential.py: one turn of the loop over [l_list];
    [extrema_info] is the list of critical points found so far. *)
Definition plot_momentum (inp : Inputs F) (r_over_GM r : list F) (r_min r_max : F)
    (extrema_info : list (F * ExtremumPoint F)) (l : F)
    : script F (list (F * ExtremumPoint F)) :=
  V <~ lift (V_eff_grid r GM l) ;;
  emit (PlotCurve (Relativistic l) r_over_GM V) ;;;
  (if show_newtonian inp then
     V_newt <~ lift (V_eff_newton_grid r GM l) ;;
     emit (PlotCurve (Newtonian l) r_over_GM V_newt)
   else ret tt) ;;;
  points <~ lift (find_extrema GM l r_min r_max) ;;
  for_each points (fun p => emit (PlotMarker (kind p) (radius p / GM) (potential p))) ;;;
  ret (extrema_info ++ map (fun p => (l, p)) points).

(** schwarzschild_potential.py, from "Parse l values" to the end. *)
Definition massive_script (inp : Inputs F) : script F unit :=
  let r_min := r_min_slider inp * GM in
  let r_max := r_max_slider inp * GM in
  l_list <~ parse_numbers py_float (text inp) ;;
  match l_list with
  | [] => emit (StError "Por favor ingresa al menos un valor válido para $\ell$.") ;;; st_stop
  | _ :: _ =>
      let r_over_GM := linspace r_min r_max num_points in
      let r := map (fun x => x * GM) r_over_GM in
      extrema_info <~ foldM (plot_momentum inp r_over_GM r r_min r_max) l_list [] ;;
      let r_s := #2 * GM in
      when (between r_min r_s r_max) (emit (AxVLine Horizon #2)) ;;;
      set_ylim inp ;;;
      emit Pyplot ;;;
      for_each extrema_info
        (fun i => emit (CriticalPointInfo (fst i) (kind (snd i)) (radius (snd i) / GM)))
  end.

(** schwarzschild_potential_photon.py: the two landmarks. *)
Definition photon_landmarks (r_min r_max : F) : script F unit :=
  let r_photon_orbit := #3 * GM in
  when (between r_min r_photon_orbit r_max)
    (let V_max := V_eff_photon r_photon_orbit GM in
     emit (PlotMarker KMax (r_photon_orbit / GM) V_max) ;;;
     emit (AxVLine PhotonOrbit (r_photon_orbit / GM))) ;;;
  let r_horizon := #2 * GM in
  when (between r_min r_horizon r_max) (emit (AxVLine Horizon (r_horizon / GM))).

(** schwarzschild_potential_photon.py: one turn of the loop over [b_list]. *)
Definition plot_energy_level (b : F) : script F unit :=
  c <~ lift (classify_impact_parameter b GM) ;;
  emit (AxHLine c).

(** schwarzschild_potential_photon.py, from "Parse b values" to the end. *)
Definition photon_script (inp : Inputs F) : script F unit :=
  let r_min := r_min_slider inp * GM in
  let r_max := r_max_slider inp * GM in
  b_list <~ parse_numbers py_float (text inp) ;;
  match b_list with
  | [] => emit (StError "Por favor ingresa al menos un valor válido para $b$.") ;;; st_stop
  | _ :: _ =>
      let r_over_GM := linspace r_min r_max num_points in
      let r := map (fun x => x * GM) r_over_GM in
      emit (PlotCurve PhotonRelativistic r_over_GM (V_eff_photon_grid r GM)) ;;;
      when (show_newtonian inp)
        (emit (PlotCurve PhotonNewtonian r_over_GM (V_eff_newton_photon_grid r))) ;;;
      photon_landmarks r_min r_max ;;;
      for_each b_list plot_energy_level ;;;
      set_ylim inp ;;;
      emit Pyplot
  end.

End Scripts.

(** ** Exact arithmetic: the real numbers *)

Module Exact.

Definition Reqb (x y : R) : bool := if Req_dec_T x y then true else false.
Definition Rltb (x y : R) : bool := if Rlt_dec x y then true else false.
Definition Rleb (x y : R) : bool := if Rle_dec x y then true else false.

#[export] Instance R_float : PyFloat R := {|
  of_Z := IZR;
  half := (/ 2)%R;
  fadd := Rplus;
  fsub := Rminus;
  fmul := Rmult;
  fdiv := Rdiv;
  fneg := Ropp;
  fsqrt := sqrt;
  fpow := pow_by_products Rmult 1%R;
  fpow_array := pow_by_products Rmult 1%R;
  feqb := Reqb;
  fltb := Rltb;
  fleb := Rleb;
  fis_nan := fun _ => false;
  fis_inf := fun _ => false
|}.

End Exact.

(** ** IEEE 754 binary64 *)

Module Binary64.

(** The integer [z] as a binary64 value, rounded to nearest even. *)
Definition Z2F (z : Z) : float := SF2Prim (binary_normalize prec emax z 0 false).

(** Binary64 arithmetic around the power of the C library, [libm_pow], and
    the power NumPy applies to the elements of an array, [array_pow]. *)
Definition ieee (libm_pow array_pow : float -> nat -> float) : PyFloat float := {|
  of_Z := Z2F;
  half := 0.5%float;
  fadd := PrimFloat.add;
  fsub := PrimFloat.sub;
  fmul := PrimFloat.mul;
  fdiv := PrimFloat.div;
  fneg := PrimFloat.opp;
  fsqrt := PrimFloat.sqrt;
  fpow := libm_pow;
  fpow_array := array_pow;
  feqb := PrimFloat.eqb;
  fltb := PrimFloat.ltb;
  fleb := PrimFloat.leb;
  fis_nan := PrimFloat.is_nan;
  fis_inf := PrimFloat.is_infinity
|}.

(** [x ** n] as a product of binary64 numbers: the power a platform returns
    whenever the product is exact. *)
Definition product_pow : float -> nat -> float :=
  pow_by_products PrimFloat.mul 1%float.

#[export] Instance b64_float : PyFloat float := ieee product_pow product_pow.

(** *** Python's [float] on a token

    [float(s)] strips white space and reads an optional sign followed by
    [inf], [infinity] or [nan] in any case, or by a decimal number: ASCII
    digits (single underscores allowed between digits) with an optional point
    and an optional exponent.  The value is the binary64 number nearest to
    the decimal one (ties to even). *)

Definition digit_of (c : ascii) : option Z :=
  let n := nat_of_ascii c in
  if ((48 <=? n) && (n <=? 57))%nat then Some (Z.of_nat (n - 48)) else None.

(** Reads [digit (["_"] digit)*] as far as it goes, on top of the digits
    [acc] read before: the number read, how many digits it took, the rest. *)
Fixpoint read_digits (s : string) (acc cnt : Z) : Z * Z * string :=
  match s with
  | EmptyString => (acc, cnt, s)
  | String c s' =>
      match digit_of c with
      | Some d => read_digits s' (10 * acc + d)%Z (cnt + 1)%Z
      | None =>
          if (Ascii.eqb c "_" && (0 <? cnt)%Z)%bool then
            match s' with
            | String c' _ =>
                match digit_of c' with
                | Some _ => read_digits s' acc cnt
                | None => (acc, cnt, s)
                end
            | EmptyString => (acc, cnt, s)
            end
          else (acc, cnt, s)
      end
  end.

(** An optional sign: whether it is a minus, and the rest. *)
Definition read_sign (s : string) : bool * string :=
  match s with
  | String "+" s' => (false, s')
  | String "-" s' => (true, s')
  | _ => (false, s)
  end.

(** A decimal number [m * 10 ^ e], as the pair [(m, e)]. *)
Definition read_decimal (s : string) : option (Z * Z) :=
  let '(ip, ni, s1) := read_digits s 0 0 in
  let '(m, nf, s2) :=
    match s1 with
    | String "." s1' =>
        (* an underscore may not follow the point *)
        let '(m, nf, s2) := read_digits s1' 0 0 in
        ((ip * 10 ^ nf + m)%Z, nf, s2)
    | _ => (ip, 0%Z, s1)
    end in
  if (ni + nf =? 0)%Z then None
  else
    match s2 with
    | EmptyString => Some (m, (- nf)%Z)
    | String c s3 =>
        if (Ascii.eqb c "e" || Ascii.eqb c "E")%bool then
          let (neg, s4) := read_sign s3 in
          let '(e, ne, s5) := read_digits s4 0 0 in
          if ((ne =? 0)%Z || negb (is_empty s5))%bool then None
          else Some (m, ((if neg then - e else e) - nf)%Z)
        else None
    end.

(** The binary64 number nearest to [m * 10 ^ e], for [0 <= m]. *)
Definition of_decimal (m e : Z) : float :=
  if (0 <=? e)%Z then Z2F (m * 10 ^ e)
  else
    let d := (10 ^ (- e))%Z in
    let s := Z.max 0 (Z.log2 d - Z.log2 m + 64) in
    let n := (m * 2 ^ s)%Z in
    let sticky := if (n mod d =? 0)%Z then 0%Z else 1%Z in
    SF2Prim (binary_normalize prec emax (2 * (n / d) + sticky) (- s - 1) false).

Definition lower (c : ascii) : ascii :=
  let n := nat_of_ascii c in
  if ((65 <=? n) && (n <=? 90))%nat then ascii_of_nat (n + 32) else c.

Fixpoint lowercase (s : string) : string :=
  match s with
  | EmptyString => EmptyString
  | String c s' => String (lower c) (lowercase s')
  end.

Definition float_of_string (s : string) : option float :=
  let (neg, body) := read_sign (strip s) in
  let signed (x : float) : float := if neg then PrimFloat.opp x else x in
  let name := lowercase body in
  if (String.eqb name "inf" || String.eqb name "infinity")%bool then Some (signed infinity)
  else if String.eqb name "nan" then Some nan
  else
    match read_decimal body with
    | Some (m, e) => Some (signed (of_decimal m e))
    | None => None
    end.

(** Every element is below the next one. *)
Fixpoint strictly_increasing (xs : list float) : bool :=
  match xs with
  | x :: (y :: _) as rest => PrimFloat.ltb x y && strictly_increasing rest
  | _ => true
  end.

(** The widget values each script starts with, around a parameter text. *)
Definition massive_defaults (t : string) : Inputs float := {|
  text := t;
  show_newtonian := false;
  r_min_slider := 2.5%float;
  r_max_slider := 500%float;
  y_limits := Some ((-0.05)%float, 0.02%float)
|}.

Definition photon_defaults (t : string) : Inputs float := {|
  text := t;
  show_newtonian := false;
  r_min_slider := 1.5%float;
  r_max_slider := 15%float;
  y_limits := Some (0%float, 0.07%float)
|}.

End Binary64.

Import Exact Binary64.

(** Reads the interface at the instance [R_float]. *)
Ltac exact_arith :=
  cbn [of_Z half fadd fsub fmul fdiv fneg fsqrt fpow fpow_array feqb fltb fleb
       fis_nan fis_inf R_float pow_by_products] in *.

(** ** What the parser is specified to return *)

(** The trimmed tokens of a list of parts that are not the empty string, in
    order. *)
Definition tokens_of (parts : list string) : list string :=
  filter (fun t => negb (String.eqb t EmptyString)) (map strip parts).

(** The tokens of a comma-separated text. *)
Definition tokens (raw_text : string) : list string :=
  tokens_of (split_on "," raw_text).

Section ParserSpec.
Context {F : Type}.
Variable py_float : string -> option F.

(** The values of the tokens that convert, in the order of the tokens. *)
Definition converted (ts : list string) : list F :=
  flat_map (fun t => match py_float t with Some x => [x] | None => [] end) ts.

(** The tokens that do not convert, in the order of the tokens. *)
Definition rejected (ts : list string) : list string :=
  filter (fun t => match py_float t with Some _ => false | None => true end) ts.

End ParserSpec.

(** [sep.join(parts)] *)
Fixpoint join (sep : ascii) (parts : list string) : string :=
  match parts with
  | [] => EmptyString
  | [p] => p
  | p :: ps => (p ++ String sep (join sep ps))%string
  end.

(** Every character of [s] satisfies [p]. *)
Fixpoint all_chars (p : ascii -> bool) (s : string) : bool :=
  match s with
  | EmptyString => true
  | String c s' => p c && all_chars p s'
  end.

(** A sequence of white space characters, read forwards or ([back]) from the
    end. *)
Inductive spaces_from (back : bool) : list ascii -> Prop :=
| spaces_none : spaces_from back []
| spaces_one (c : ascii) (l : list ascii) :
    space1 c = true -> spaces_from back l -> spaces_from back (c :: l)
| spaces_two (c1 c2 : ascii) (l : list ascii) :
    (if back then space2 c2 c1 else space2 c1 c2) = true ->
    spaces_from back l -> spaces_from back (c1 :: c2 :: l)
| spaces_three (c1 c2 c3 : ascii) (l : list ascii) :
    (if back then space3 c3 c2 c1 else space3 c1 c2 c3) = true ->
    spaces_from back l -> spaces_from back (c1 :: c2 :: c3 :: l).

(** The text [s] consists of white space characters only. *)
Definition spaces (s : string) : Prop := spaces_from false (list_ascii_of_string s).

(** What is left of [l] behind the white space character it starts with, if
    it starts with one. *)
Definition behind_space (back : bool) (l : list ascii) : option (list ascii) :=
  match l with
  | [] => None
  | c1 :: l1 =>
      if space1 c1 then Some l1
      else
        match l1 with
        | [] => None
        | c2 :: l2 =>
            if (if back then space2 c2 c1 else space2 c1 c2) then Some l2
            else
              match l2 with
              | [] => None
              | c3 :: l3 =>
                  if (if back then space3 c3 c2 c1 else space3 c1 c2 c3)
                  then Some l3 else None
              end
        end
  end.

(** The text starts, resp. ends, with a white space character. *)
Definition starts_with_space (s : string) : bool :=
  match behind_space false (list_ascii_of_string s) with
  | Some _ => true
  | None => false
  end.

Definition ends_with_space (s : string) : bool :=
  match behind_space true (rev (list_ascii_of_string s)) with
  | Some _ => true
  | None => false
  end.

(** The UTF-8 encoding of the no-break space U+00A0, of the em space U+2003
    and of the ideographic space U+3000. *)
Definition nbsp : string :=
  String (ascii_of_nat 194) (String (ascii_of_nat 160) EmptyString).

Definition em_space : string :=
  String (ascii_of_nat 226) (String (ascii_of_nat 128)
    (String (ascii_of_nat 131) EmptyString)).

Definition ideographic_space : string :=
  String (ascii_of_nat 227) (String (ascii_of_nat 128)
    (String (ascii_of_nat 128) EmptyString)).

(** ** Reading a run *)

Section Traces.
Context {F : Type}.

(** The parameter of each relativistic massive-particle curve, in order. *)
Definition relativistic_curves (evs : list (Event F)) : list F :=
  flat_map (fun e => match e with
                     | PlotCurve (Relativistic l) _ _ => [l]
                     | _ => []
                     end) evs.

(** The parameter of each Newtonian massive-particle curve, in order. *)
Definition newtonian_curves (evs : list (Event F)) : list F :=
  flat_map (fun e => match e with
                     | PlotCurve (Newtonian l) _ _ => [l]
                     | _ => []
                     end) evs.

(** Kind and abscissa of each marker, in order. *)
Definition markers (evs : list (Event F)) : list (Kind * F) :=
  flat_map (fun e => match e with
                     | PlotMarker k x _ => [(k, x)]
                     | _ => []
                     end) evs.

(** Kind and abscissa of each line of "Puntos Criticos", in order. *)
Definition info_lines (evs : list (Event F)) : list (Kind * F) :=
  flat_map (fun e => match e with
                     | CriticalPointInfo _ k x => [(k, x)]
                     | _ => []
                     end) evs.

(** The vertical lines, in order. *)
Definition vertical_lines (evs : list (Event F)) : list (Landmark * F) :=
  flat_map (fun e => match e with
                     | AxVLine lm x => [(lm, x)]
                     | _ => []
                     end) evs.

(** The energy levels, in order. *)
Definition energy_levels (evs : list (Event F)) : list (ImpactClassification F) :=
  flat_map (fun e => match e with
                     | AxHLine c => [c]
                     | _ => []
                     end) evs.

End Traces.

Section LevelsSpec.
Context {F : Type} {PF : PyFloat F}.

(** The classifications of the impact parameters in front of the first one
    whose energy cannot be computed. *)
Fixpoint classified (b_list : list F) : list (ImpactClassification F) :=
  match b_list with
  | [] => []
  | b :: rest =>
      match classify_impact_parameter b GM with
      | Ok c => c :: classified rest
      | Raise _ => []
      end
  end.

(** The exception of the first impact parameter whose energy cannot be
    computed, if there is one. *)
Fixpoint first_failure (b_list : list F) : option exn :=
  match b_list with
  | [] => None
  | b :: rest =>
      match classify_impact_parameter b GM with
      | Ok _ => first_failure rest
      | Raise e => Some e
      end
  end.

End LevelsSpec.

(** ** Widget ranges *)

(** schwarzschild_potential.py: [min_value] and [max_value] of the sliders
    "Min r/GM" and "Max r/GM". *)
Definition massive_slider_ranges (inp : Inputs R) : Prop :=
  (0.01 <= r_min_slider inp <= 10)%R /\ (10 <= r_max_slider inp <= 1000)%R.

(** schwarzschild_potential_photon.py: the same two sliders. *)
Definition photon_slider_ranges (inp : Inputs R) : Prop :=
  (0.1 <= r_min_slider inp <= 5)%R /\ (5 <= r_max_slider inp <= 50)%R.

(** ** Auxiliary notions of the proofs *)

(** The closed form of [V_eff] in exact arithmetic. *)
Definition V_exact (GM l r : R) : R :=
  (- GM / r + / 2 * (l * l) / (r * r) - GM * (l * l) / (r * (r * r)))%R.

(** A binary64 value that is zero, NaN, or has the sign of a positive
    number. *)
Definition not_negative (f : spec_float) : bool :=
  match f with
  | S754_zero _ => true
  | S754_infinity s => negb s
  | S754_nan => true
  | S754_finite s _ _ => negb s
  end.

(** Turns the boolean tests on byte values in [H] into propositions. *)
Ltac bool_to_prop H :=
  repeat (progress rewrite ?orb_true_iff, ?andb_true_iff, ?Nat.eqb_eq, ?Nat.leb_le in H).

(** * Part II: properties *)

(** ** Comparisons and arithmetic at the exact instance *)

Lemma Rltb_true (x y : R) : Rltb x y = true <-> (x < y)%R.
Proof. unfold Rltb. destruct (Rlt_dec x y); split; intros; try easy. Qed.

Lemma Rltb_false (x y : R) : Rltb x y = false <-> (y <= x)%R.
Proof.
  unfold Rltb. destruct (Rlt_dec x y); split; intros; try easy; lra.
Qed.

Lemma Rleb_true (x y : R) : Rleb x y = true <-> (x <= y)%R.
Proof. unfold Rleb. destruct (Rle_dec x y); split; intros; try easy. Qed.

Lemma Rleb_false (x y : R) : Rleb x y = false <-> (y < x)%R.
Proof.
  unfold Rleb. destruct (Rle_dec x y); split; intros; try easy; lra.
Qed.

Lemma Reqb_true (x y : R) : Reqb x y = true <-> x = y.
Proof. unfold Reqb. destruct (Req_dec_T x y); split; intros; try easy. Qed.

Lemma Reqb_false (x y : R) : Reqb x y = false <-> x <> y.
Proof. unfold Reqb. destruct (Req_dec_T x y); split; intros; try easy. Qed.

Lemma between_true (a x b : R) : between a x b = true <-> (a <= x <= b)%R.
Proof.
  unfold between. cbn [fleb R_float].
  rewrite andb_true_iff, !Rleb_true. tauto.
Qed.

Lemma between_false (a x b : R) : between a x b = false <-> ~ (a <= x <= b)%R.
Proof.
  rewrite <- between_true. destruct (between a x b); split; intros Hb; easy.
Qed.

Lemma truediv_exact (x y : R) : y <> 0%R -> truediv x y = Ok (x / y)%R.
Proof.
  intros Hy. unfold truediv. exact_arith.
  apply Reqb_false in Hy. now rewrite Hy.
Qed.

Lemma truediv_by_zero (x : R) : truediv x 0%R = Raise ZeroDivisionError.
Proof.
  unfold truediv. exact_arith.
  assert (E : Reqb 0 0 = true) by now apply Reqb_true.
  now rewrite E.
Qed.

(** In exact arithmetic a square never overflows. *)
Lemma py_pow_exact (x : R) : py_pow x 2 = Ok (x * x)%R.
Proof.
  unfold py_pow. exact_arith. change (Nat.odd 2) with false.
  rewrite andb_false_r.
  destruct (Reqb x 0) eqn:E0.
  { apply Reqb_true in E0. subst x. f_equal. ring. }
  destruct (Rltb x 0) eqn:En;
    [destruct (Reqb (- x) 1) eqn:E1 | destruct (Reqb x 1) eqn:E1];
    try apply Reqb_true in E1; f_equal; nra.
Qed.

(** ** The potential evaluators *)

Section ExactPotentials.
Local Open Scope R_scope.

Lemma V_eff_exact (r GM l : R) :
  V_eff r GM l =
    Ok (- GM / r + / 2 * (l * l) / (r * r) - GM * (l * l) / (r * (r * r))).
Proof. unfold V_eff. rewrite py_pow_exact. reflexivity. Qed.

Lemma V_eff_newton_exact (r GM l : R) :
  V_eff_newton r GM l = Ok (- GM / r + / 2 * (l * l) / (r * r)).
Proof. unfold V_eff_newton. rewrite py_pow_exact. reflexivity. Qed.

Lemma V_eff_photon_exact (r GM : R) :
  V_eff_photon r GM = 1 / (r * r) * (1 - 2 * GM / r).
Proof. reflexivity. Qed.


End ExactPotentials.




(** *** The relativistic correction *)

Section Correction.
Context {F : Type} {PF : PyFloat F}.
Local Open Scope py_scope.



End Correction.




(** ** Critical points of the massive-particle potential *)

Section GenericExtrema.
Context {F : Type} {PF : PyFloat F}.
Local Open Scope py_scope.

(** Whatever the arithmetic, nothing is marked when the first guard fails. *)
Lemma find_extrema_guard (GM l r_min r_max : F) :
  (l >? #2 * fsqrt #3 * GM) = false ->
  find_extrema GM l r_min r_max = Ok [].
Proof. intros Hg. unfold find_extrema. now rewrite Hg. Qed.

(** The value of the relativistic evaluator once [l ** 2] is known. *)
Lemma V_eff_value (r GM l l_sq : F) :
  py_pow l 2 = Ok l_sq ->
  V_eff r GM l = Ok (- GM / r + half * l_sq / r ** 2 - GM * l_sq / r ** 3).
Proof. intros Hl. unfold V_eff. now rewrite Hl. Qed.

Lemma V_eff_raises (r GM l : F) (e : exn) :
  py_pow l 2 = Raise e -> V_eff r GM l = Raise e.
Proof. intros Hl. unfold V_eff. now rewrite Hl. Qed.

(** A power raises nothing but [OverflowError]. *)
Lemma py_pow_raises (x : F) (n : nat) (e : exn) :
  py_pow x n = Raise e -> e = OverflowError.
Proof.
  unfold py_pow.
  destruct (fis_nan x); [discriminate |].
  destruct (fis_inf x); [discriminate |].
  destruct (x == #0); [discriminate |].
  destruct ((if x <? #0 then - x else x) == #1); [discriminate |].
  destruct (fis_inf _); [| discriminate].
  now intros [= <-].
Qed.

(** One candidate radius: it is reported when it lies in the window, with
    the potential evaluated there. *)
Lemma candidate_reported (r_min r_max r GM l : F) (k : Kind)
    (found : list (ExtremumPoint F)) (p : ExtremumPoint F) :
  (if between r_min r r_max then
     V_r <- V_eff r GM l ;;
     Ok [ {| radius := r; potential := V_r; kind := k |} ]
   else Ok []) = Ok found ->
  In p found ->
  (r_min <=? r) = true /\ (r <=? r_max) = true /\
  V_eff r GM l = Ok (potential p) /\ radius p = r /\ kind p = k.
Proof.
  unfold between. destruct (r_min <=? r); cbn [andb].
  - destruct (r <=? r_max).
    + destruct (V_eff r GM l) as [v | e]; cbn [bind]; [| discriminate].
      intros [= <-] [<- | []]. cbn. auto.
    + intros [= <-] [].
  - intros [= <-] [].
Qed.

(** What is marked, whatever the arithmetic: only candidates that passed both
    guards and the window test, with their label and the potential evaluated
    at their radius. *)
Lemma find_extrema_reported (GM l r_min r_max : F)
    (points : list (ExtremumPoint F)) (p : ExtremumPoint F) :
  find_extrema GM l r_min r_max = Ok points -> In p points ->
  (l >? #2 * fsqrt #3 * GM) = true /\
  exists q_sq,
    py_pow (GM / l) 2 = Ok q_sq /\
    (#1 - #12 * q_sq >? #0) = true /\
    (r_min <=? radius p) = true /\ (radius p <=? r_max) = true /\
    V_eff (radius p) GM l = Ok (potential p) /\
    (kind p = KMax /\ radius p = #6 * GM / (#1 + fsqrt (#1 - #12 * q_sq)) \/
     kind p = KMin /\ radius p = #6 * GM / (#1 - fsqrt (#1 - #12 * q_sq))).
Proof.
  unfold find_extrema, truediv.
  destruct (l >? #2 * fsqrt #3 * GM); [| intros [= <-] []].
  destruct (l == #0); cbn [bind]; [discriminate |].
  destruct (py_pow (GM / l) 2) as [q_sq | e]; cbn [bind]; [| discriminate].
  destruct (#1 - #12 * q_sq >? #0) eqn:HD; [| intros [= <-] []].
  match goal with
  | |- bind ?A _ = _ -> _ => destruct A as [maxima | e] eqn:EA; cbn [bind]; [| discriminate]
  end.
  match goal with
  | |- bind ?B _ = _ -> _ => destruct B as [minima | e] eqn:EB; cbn [bind]; [| discriminate]
  end.
  intros [= <-] Hin. split; [reflexivity |]. exists q_sq.
  split; [reflexivity |]. split; [exact HD |].
  apply in_app_or in Hin. destruct Hin as [Hin | Hin].
  - destruct (@candidate_reported _ _ _ _ _ _ _ _ EA Hin) as [H1 [H2 [H3 [H4 H5]]]].
    rewrite H4. auto 7.
  - destruct (@candidate_reported _ _ _ _ _ _ _ _ EB Hin) as [H1 [H2 [H3 [H4 H5]]]].
    rewrite H4. auto 7.
Qed.

(** What is marked when both guards pass and no power overflows. *)
Lemma find_extrema_emits (GM l r_min r_max q_sq l_sq : F) :
  (l >? #2 * fsqrt #3 * GM) = true ->
  (l == #0) = false ->
  py_pow (GM / l) 2 = Ok q_sq ->
  py_pow l 2 = Ok l_sq ->
  let D := #1 - #12 * q_sq in
  let r_max_loc := #6 * GM / (#1 + fsqrt D) in
  let r_min_loc := #6 * GM / (#1 - fsqrt D) in
  let V := fun r => - GM / r + half * l_sq / r ** 2 - GM * l_sq / r ** 3 in
  find_extrema GM l r_min r_max =
    if D >? #0 then
      Ok ((if (r_min <=? r_max_loc) && (r_max_loc <=? r_max)
           then [ {| radius := r_max_loc; potential := V r_max_loc; kind := KMax |} ]
           else [])
          ++
          (if (r_min <=? r_min_loc) && (r_min_loc <=? r_max)
           then [ {| radius := r_min_loc; potential := V r_min_loc; kind := KMin |} ]
           else []))
    else Ok [].
Proof.
  intros Hg Hz Hq Hl D r_max_loc r_min_loc V.
  unfold find_extrema, truediv. rewrite Hg, Hz. cbn [bind]. rewrite Hq. cbn [bind].
  fold D. destruct (D >? #0); [| reflexivity].
  fold r_max_loc r_min_loc. unfold between.
  rewrite !(V_eff_value _ _ _ Hl). fold (V r_max_loc) (V r_min_loc).
  destruct ((r_min <=? r_max_loc) && (r_max_loc <=? r_max)),
    ((r_min <=? r_min_loc) && (r_min_loc <=? r_max)); reflexivity.
Qed.

(** When [l ** 2] overflows, a candidate inside the window raises. *)
Lemma find_extrema_overflows (GM l r_min r_max q_sq : F) (e : exn) :
  (l >? #2 * fsqrt #3 * GM) = true ->
  (l == #0) = false ->
  py_pow (GM / l) 2 = Ok q_sq ->
  py_pow l 2 = Raise e ->
  let D := #1 - #12 * q_sq in
  let r_max_loc := #6 * GM / (#1 + fsqrt D) in
  let r_min_loc := #6 * GM / (#1 - fsqrt D) in
  find_extrema GM l r_min r_max =
    if (D >? #0)
       && ((r_min <=? r_max_loc) && (r_max_loc <=? r_max)
           || (r_min <=? r_min_loc) && (r_min_loc <=? r_max))
    then Raise e else Ok [].
Proof.
  intros Hg Hz Hq Hl D r_max_loc r_min_loc.
  unfold find_extrema, truediv. rewrite Hg, Hz. cbn [bind]. rewrite Hq. cbn [bind].
  fold D. destruct (D >? #0); [| reflexivity].
  fold r_max_loc r_min_loc. unfold between.
  rewrite !(V_eff_raises _ _ _ Hl).
  destruct ((r_min <=? r_max_loc) && (r_max_loc <=? r_max)),
    ((r_min <=? r_min_loc) && (r_min_loc <=? r_max)); reflexivity.
Qed.

End GenericExtrema.

Section ExactExtrema.
Local Open Scope R_scope.

Lemma sqrt3_bounds : 0 < sqrt 3 < 2 /\ sqrt 3 * sqrt 3 = 3.
Proof.
  assert (H3 : sqrt 3 * sqrt 3 = 3) by (apply sqrt_sqrt; lra).
  assert (Hp : 0 < sqrt 3) by (apply sqrt_lt_R0; lra).
  repeat split; try assumption. nra.
Qed.

(** Above the critical angular momentum the discriminant lies in (0, 1). *)
Lemma discriminant_range (GM l : R) :
  0 < GM -> 2 * sqrt 3 * GM < l ->
  0 < l /\ 0 < 1 - 12 * (GM / l * (GM / l)) < 1.
Proof.
  intros HGM Hl.
  destruct sqrt3_bounds as [[Hs0 Hs2] Hs].
  assert (Hl0 : 0 < l) by nra.
  assert (Hq : 0 < GM / l) by (apply Rdiv_lt_0_compat; lra).
  assert (Ha : 0 < 2 * sqrt 3 * GM) by nra.
  assert (Haa : 2 * sqrt 3 * GM * (2 * sqrt 3 * GM) = 12 * (GM * GM)).
  { replace (2 * sqrt 3 * GM * (2 * sqrt 3 * GM))
      with (4 * (sqrt 3 * sqrt 3) * (GM * GM)) by ring.
    rewrite Hs. ring. }
  assert (Hsq : 12 * (GM * GM) < l * l).
  { rewrite <- Haa. apply Rmult_le_0_lt_compat; lra. }
  assert (E : GM / l * (GM / l) = GM * GM / (l * l)) by (field; lra).
  assert (Hll : 0 < l * l) by nra.
  assert (Hlt : GM * GM / (l * l) < / 12).
  { apply (Rmult_lt_reg_r (l * l)); [lra |].
    replace (GM * GM / (l * l) * (l * l)) with (GM * GM) by (field; lra). lra. }
  split; [exact Hl0 |]. rewrite E. split; [lra |].
  assert (0 < GM * GM / (l * l)) by (apply Rdiv_lt_0_compat; nra). lra.
Qed.

Lemma find_extrema_exact (GM l r_min r_max : R) :
  0 < GM -> 2 * sqrt 3 * GM < l ->
  let D := 1 - 12 * (GM / l * (GM / l)) in
  let r_max_loc := 6 * GM / (1 + sqrt D) in
  let r_min_loc := 6 * GM / (1 - sqrt D) in
  find_extrema GM l r_min r_max =
    Ok ((if between r_min r_max_loc r_max
         then [ {| radius := r_max_loc; potential := V_exact GM l r_max_loc; kind := KMax |} ]
         else [])
        ++
        (if between r_min r_min_loc r_max
         then [ {| radius := r_min_loc; potential := V_exact GM l r_min_loc; kind := KMin |} ]
         else [])).
Proof.
  intros HGM Hl D r_max_loc r_min_loc.
  destruct (discriminant_range HGM Hl) as [Hl0 [HD0 HD1]].
  assert (G1 : Rltb (2 * sqrt 3 * GM) l = true) by now apply Rltb_true.
  assert (G2 : Rltb 0 (1 - 12 * (GM / l * (GM / l))) = true) by now apply Rltb_true.
  assert (Hz : Reqb l 0 = false) by (apply Reqb_false; lra).
  rewrite (@find_extrema_emits R _ GM l r_min r_max (GM / l * (GM / l)) (l * l));
    [| exact G1 | exact Hz | apply py_pow_exact | apply py_pow_exact].
  exact_arith. rewrite G2. reflexivity.
Qed.

(** The radius labelled "max" is the smaller of the two candidates. *)
Lemma candidate_radii_ordered (GM l : R) :
  0 < GM -> 2 * sqrt 3 * GM < l ->
  let D := 1 - 12 * (GM / l * (GM / l)) in
  0 < 6 * GM / (1 + sqrt D) < 6 * GM / (1 - sqrt D).
Proof.
  intros HGM Hl D.
  destruct (discriminant_range HGM Hl) as [Hl0 [HD0 HD1]]. fold D in HD0, HD1.
  assert (Hs0 : 0 < sqrt D) by now apply sqrt_lt_R0.
  assert (Hs1 : sqrt D < 1).
  { rewrite <- sqrt_1. apply sqrt_lt_1; lra. }
  split.
  - apply Rdiv_lt_0_compat; lra.
  - unfold Rdiv. apply Rmult_lt_compat_l; [lra |].
    apply Rinv_lt_contravar; [nra | lra].
Qed.

End ExactExtrema.

(** ** Comparisons in binary64 *)

Lemma SFcompare_antisym (x y : spec_float) :
  SFcompare y x = option_map CompOpp (SFcompare x y).
Proof.
  destruct x as [sx | sx | | sx mx ex], y as [sy | sy | | sy my ey]; cbn;
    try reflexivity;
    try (destruct sx; reflexivity); try (destruct sy; reflexivity);
    try (destruct sx, sy; reflexivity).
  destruct sx, sy; cbn; try reflexivity;
    rewrite (Z.compare_antisym ex ey); destruct (ex ?= ey)%Z; cbn; try reflexivity.
  - do 2 f_equal. symmetry. exact (Pos.compare_cont_antisym mx my Eq).
  - f_equal. symmetry. exact (Pos.compare_cont_antisym mx my Eq).
Qed.

(** [x <= y] excludes [x > y], NaN included. *)
Lemma leb_not_gtb (x y : float) :
  PrimFloat.leb x y = true -> PrimFloat.ltb y x = false.
Proof.
  rewrite leb_spec, ltb_spec. unfold SFleb, SFltb.
  rewrite (SFcompare_antisym (Prim2SF x) (Prim2SF y)).
  destruct (SFcompare (Prim2SF x) (Prim2SF y)) as [[ | | ] | ]; cbn; congruence.
Qed.

Lemma ltb_asym (x y : float) :
  PrimFloat.ltb x y = true -> PrimFloat.ltb y x = false.
Proof.
  rewrite !ltb_spec. unfold SFltb.
  rewrite (SFcompare_antisym (Prim2SF x) (Prim2SF y)).
  destruct (SFcompare (Prim2SF x) (Prim2SF y)) as [[ | | ] | ]; cbn; congruence.
Qed.

Lemma eqb_not_ltb (x y : float) :
  PrimFloat.eqb x y = true -> PrimFloat.ltb x y = false /\ PrimFloat.ltb y x = false.
Proof.
  rewrite FloatAxioms.eqb_spec, !ltb_spec. unfold SFeqb, SFltb.
  rewrite (SFcompare_antisym (Prim2SF x) (Prim2SF y)).
  destruct (SFcompare (Prim2SF x) (Prim2SF y)) as [[ | | ] | ]; cbn; split; congruence.
Qed.

Lemma SFcompare_defined (x y : spec_float) :
  SFcompare x y = None -> x = S754_nan \/ y = S754_nan.
Proof.
  destruct x, y; cbn; intros Hc; try discriminate; auto.
Qed.

Lemma SFcompare_refl (x : spec_float) : x <> S754_nan -> SFcompare x x = Some Eq.
Proof.
  destruct x as [s | s | | s m e]; cbn; intros Hx; try reflexivity.
  - now destruct s.
  - contradiction.
  - rewrite Z.compare_refl.
    assert (Hm : Pos.compare_cont Eq m m = Eq) by apply Pos.compare_cont_refl.
    destruct s; f_equal; [| exact Hm].
    change (CompOpp (Pos.compare_cont Eq m m) = Eq). now rewrite Hm.
Qed.

Lemma not_nan_spec (x : float) : PrimFloat.is_nan x = false -> Prim2SF x <> S754_nan.
Proof.
  unfold PrimFloat.is_nan. rewrite FloatAxioms.eqb_spec. intros Hn E.
  rewrite E in Hn. discriminate.
Qed.

Lemma is_nan_spec (x : float) : PrimFloat.is_nan x = true -> Prim2SF x = S754_nan.
Proof.
  unfold PrimFloat.is_nan. rewrite FloatAxioms.eqb_spec. unfold SFeqb. intros Hn.
  destruct (Prim2SF x) as [s | s | | s m e] eqn:Ex; try reflexivity;
    rewrite SFcompare_refl in Hn by discriminate; discriminate.
Qed.

Lemma spec_not_nan (x : float) : Prim2SF x <> S754_nan -> PrimFloat.is_nan x = false.
Proof.
  intros Hx. destruct (PrimFloat.is_nan x) eqn:E; [| reflexivity].
  apply is_nan_spec in E. contradiction.
Qed.

(** Two numbers (no NaN) neither of which is below the other are equal. *)
Lemma float_trichotomy (x y : float) :
  PrimFloat.is_nan x = false -> PrimFloat.is_nan y = false ->
  PrimFloat.ltb x y = false -> PrimFloat.ltb y x = false ->
  PrimFloat.eqb x y = true.
Proof.
  intros Hx Hy. apply not_nan_spec in Hx, Hy.
  rewrite FloatAxioms.eqb_spec, !ltb_spec. unfold SFeqb, SFltb.
  rewrite (SFcompare_antisym (Prim2SF x) (Prim2SF y)).
  destruct (SFcompare (Prim2SF x) (Prim2SF y)) as [[ | | ] | ] eqn:Hc;
    cbn; try congruence.
  destruct (SFcompare_defined _ _ Hc); contradiction.
Qed.

(** *** Signs of products *)

Lemma binary_round_aux_sign (s : bool) (m e : Z) (loc : location) :
  match binary_round_aux prec emax s m e loc with
  | S754_nan => True
  | S754_zero s' | S754_infinity s' | S754_finite s' _ _ => s' = s
  end.
Proof.
  unfold binary_round_aux.
  destruct (shr_fexp prec emax m e loc) as [mrs' e'].
  destruct (shr_fexp prec emax _ e' loc_Exact) as [mrs'' e''].
  destruct (shr_m mrs''); [reflexivity | | exact I].
  destruct (e'' <=? emax - prec)%Z; reflexivity.
Qed.

Lemma SFmul_not_negative (x y : spec_float) :
  not_negative x = true -> not_negative y = true ->
  not_negative (SFmul prec emax x y) = true.
Proof.
  destruct x as [sx | sx | | sx mx ex], y as [sy | sy | | sy my ey];
    cbn [SFmul not_negative]; intros Hx Hy; try reflexivity;
    try (apply negb_true_iff in Hx; subst sx);
    try (apply negb_true_iff in Hy; subst sy); try reflexivity.
  cbn [xorb].
  pose proof (binary_round_aux_sign false (Z.pos (mx * my)) (ex + ey) loc_Exact) as Hs.
  destruct (binary_round_aux prec emax false (Z.pos (mx * my)) (ex + ey) loc_Exact);
    cbn; try reflexivity; now subst.
Qed.

Lemma positive_not_negative (x : float) :
  PrimFloat.ltb 0 x = true -> not_negative (Prim2SF x) = true.
Proof.
  rewrite ltb_spec. unfold SFltb.
  change (Prim2SF 0) with (S754_zero false).
  destruct (Prim2SF x) as [s | s | | s m e]; cbn; try reflexivity;
    destruct s; cbn; congruence.
Qed.

(** A number above one that is not negative is not zero. *)
Lemma above_not_negative (x y : float) :
  not_negative (Prim2SF x) = true -> PrimFloat.ltb x y = true ->
  PrimFloat.eqb y 0 = false.
Proof.
  rewrite ltb_spec, FloatAxioms.eqb_spec. unfold SFltb, SFeqb.
  change (Prim2SF 0) with (S754_zero false).
  destruct (Prim2SF x) as [sx | sx | | sx mx ex], (Prim2SF y) as [sy | sy | | sy my ey];
    cbn; intros Hx Hlt; try discriminate; try reflexivity;
    try (destruct sy; reflexivity);
    try (destruct sx; discriminate).
Qed.

(** Above the critical angular momentum of a positive GM, [l] is not zero:
    the division GM / l does not raise. *)
Lemma guard_nonzero (GM l : float) :
  PrimFloat.ltb 0 GM = true ->
  PrimFloat.ltb (2 * PrimFloat.sqrt 3 * GM) l = true ->
  PrimFloat.eqb l 0 = false.
Proof.
  intros HGM Hl.
  apply (above_not_negative (x := (2 * PrimFloat.sqrt 3 * GM)%float)); [| exact Hl].
  rewrite mul_spec. apply SFmul_not_negative.
  - vm_compute. reflexivity.
  - now apply positive_not_negative.
Qed.

(** *** The extrema of the specification's examples *)

Section ExtremaExamples.
Local Open Scope R_scope.

Lemma find_extrema_example_exact :
  find_extrema 1 4 0 1000 =
    Ok [ {| radius := 4; potential := 0; kind := KMax |};
         {| radius := 12; potential := - / 27; kind := KMin |} ].
Proof.
  assert (H4 : 2 * sqrt 3 * 1 < 4) by (destruct sqrt3_bounds; lra).
  rewrite (@find_extrema_exact 1 4 0 1000 ltac:(lra) H4). cbv zeta.
  replace (1 - 12 * (1 / 4 * (1 / 4))) with (/ 2 * / 2) by field.
  rewrite sqrt_square by lra.
  replace (6 * 1 / (1 + / 2)) with 4 by field.
  replace (6 * 1 / (1 - / 2)) with 12 by field.
  assert (B1 : between 0 4 1000 = true) by (apply between_true; lra).
  assert (B2 : between 0 12 1000 = true) by (apply between_true; lra).
  rewrite B1, B2. unfold V_exact. cbn [app]. do 2 f_equal.
  - f_equal. field.
  - do 2 f_equal. field.
Qed.

Lemma V_eff_at_extrema_exact :
  V_eff 4 1 4 = Ok 0 /\ V_eff 12 1 4 = Ok (- / 27).
Proof. split; rewrite V_eff_exact; f_equal; field. Qed.

End ExtremaExamples.

Lemma find_extrema_example_binary64 :
  (find_extrema 1%float 4%float 0%float 1000%float =
     Ok [ {| radius := 4%float; potential := 0%float; kind := KMax |};
          {| radius := 12%float;
             potential := (- 1 / 12 + 0.5 * 16 / 144 - 1 * 16 / 1728)%float;
             kind := KMin |} ]
   /\ V_eff 4%float 1%float 4%float = Ok 0%float
   /\ V_eff 12%float 1%float 4%float
      = Ok (- 1 / 12 + 0.5 * 16 / 144 - 1 * 16 / 1728)%float)
  /\ find_extrema 1%float 3%float 0%float 1000%float = Ok []
  /\ find_extrema 1%float (2 * PrimFloat.sqrt 3)%float 0%float 1000%float = Ok [].
Proof.
  split; [split; [| split] | split]; vm_compute; reflexivity.
Qed.

(** C1: for every GM > 0 and angular momentum l, no extremum is reported
    whenever l <= 2 sqrt(3) GM, the boundary included, in exact arithmetic and
    in binary64; for GM = 1, r_min = 0, r_max = 1000 the value l = 4 yields
    exactly two extremum points (with the potential evaluated at their
    radii), l = 3 and l = 2 sqrt(3) none. *)
Theorem find_extrema_below_critical :
  (forall GM l r_min r_max : R,
     (0 < GM)%R -> (l <= 2 * sqrt 3 * GM)%R ->
     find_extrema GM l r_min r_max = Ok [])
  /\ (forall GM l r_min r_max : float,
        PrimFloat.leb l (2 * PrimFloat.sqrt 3 * GM)%float = true ->
        find_extrema GM l r_min r_max = Ok [])
  /\ ((find_extrema (F:=R) 1 4 0 1000 =
         Ok [ {| radius := 4; potential := 0; kind := KMax |};
              {| radius := 12; potential := - / 27; kind := KMin |} ]
       /\ V_eff (F:=R) 4 1 4 = Ok 0
       /\ V_eff (F:=R) 12 1 4 = Ok (- / 27))
      /\ find_extrema (F:=R) 1 3 0 1000 = Ok []
      /\ find_extrema (F:=R) 1 (2 * sqrt 3) 0 1000 = Ok [])%R
  /\ ((find_extrema 1%float 4%float 0%float 1000%float =
         Ok [ {| radius := 4%float; potential := 0%float; kind := KMax |};
              {| radius := 12%float;
                 potential := (- 1 / 12 + 0.5 * 16 / 144 - 1 * 16 / 1728)%float;
                 kind := KMin |} ]
       /\ V_eff 4%float 1%float 4%float = Ok 0%float
       /\ V_eff 12%float 1%float 4%float
          = Ok (- 1 / 12 + 0.5 * 16 / 144 - 1 * 16 / 1728)%float)
      /\ find_extrema 1%float 3%float 0%float 1000%float = Ok []
      /\ find_extrema 1%float (2 * PrimFloat.sqrt 3)%float 0%float 1000%float = Ok []).
Proof.
  assert (G : forall GM l r_min r_max : R,
             (l <= 2 * sqrt 3 * GM)%R -> find_extrema GM l r_min r_max = Ok []).
  { intros GM l r_min r_max Hl. apply find_extrema_guard. exact_arith.
    now apply Rltb_false. }
  split; [| split; [| split]].
  - intros GM l r_min r_max _ Hl. now apply G.
  - intros GM l r_min r_max Hl. apply find_extrema_guard.
    apply leb_not_gtb. exact Hl.
  - split; [| split; apply G].
    + split; [exact find_extrema_example_exact | exact V_eff_at_extrema_exact].
    + destruct sqrt3_bounds as [[Hs0 Hs2] Hs].
      assert (H32 : (3 * 3 <= 4 * (sqrt 3 * sqrt 3))%R) by lra. nra.
    + lra.
  - exact find_extrema_example_binary64.
Qed.

Lemma find_extrema_below_critical_witness :
  (0 < 1)%R /\ (3 <= 2 * sqrt 3 * 1)%R /\ (find_extrema (F:=R) 1 3 0 1000 = Ok [])%R.
Proof.
  assert (H3 : (3 <= 2 * sqrt 3 * 1)%R).
  { destruct sqrt3_bounds as [[Hs0 Hs2] Hs]. nra. }
  split; [lra | split; [exact H3 |]].
  apply (proj1 find_extrema_below_critical 1%R 3%R 0%R 1000%R); [lra | exact H3].
Defined.

(** *** Above the critical angular momentum *)

(** The extrema in binary64, whatever the powers of the platform return. *)
Lemma find_extrema_binary64 (libm_pow array_pow : float -> nat -> float)
    (GM l r_min r_max q_sq : float) :
  PrimFloat.ltb 0 GM = true ->
  PrimFloat.ltb (2 * PrimFloat.sqrt 3 * GM) l = true ->
  py_pow (PF := ieee libm_pow array_pow) (GM / l)%float 2 = Ok q_sq ->
  let D := (1 - 12 * q_sq)%float in
  let r_max_loc := (6 * GM / (1 + PrimFloat.sqrt D))%float in
  let r_min_loc := (6 * GM / (1 - PrimFloat.sqrt D))%float in
  (PrimFloat.ltb 0 D = false ->
     find_extrema (PF := ieee libm_pow array_pow) GM l r_min r_max = Ok []) /\
  (forall l_sq : float,
     py_pow (PF := ieee libm_pow array_pow) l 2 = Ok l_sq ->
     PrimFloat.ltb 0 D = true ->
     let V := fun r : float =>
       (- GM / r + 0.5 * l_sq / libm_pow r 2%nat - GM * l_sq / libm_pow r 3%nat)%float in
     (forall r : float, V_eff (PF := ieee libm_pow array_pow) r GM l = Ok (V r)) /\
     find_extrema (PF := ieee libm_pow array_pow) GM l r_min r_max =
       Ok ((if PrimFloat.leb r_min r_max_loc && PrimFloat.leb r_max_loc r_max
            then [ {| radius := r_max_loc; potential := V r_max_loc; kind := KMax |} ]
            else [])
           ++
           (if PrimFloat.leb r_min r_min_loc && PrimFloat.leb r_min_loc r_max
            then [ {| radius := r_min_loc; potential := V r_min_loc; kind := KMin |} ]
            else []))) /\
  (forall e : exn,
     py_pow (PF := ieee libm_pow array_pow) l 2 = Raise e ->
     PrimFloat.ltb 0 D = true ->
     e = OverflowError /\
     find_extrema (PF := ieee libm_pow array_pow) GM l r_min r_max =
       if PrimFloat.leb r_min r_max_loc && PrimFloat.leb r_max_loc r_max
          || PrimFloat.leb r_min r_min_loc && PrimFloat.leb r_min_loc r_max
       then Raise OverflowError else Ok []).
Proof.
  intros HGM Hg Hq D r_max_loc r_min_loc.
  pose proof (guard_nonzero HGM Hg) as Hz.
  split; [| split].
  - intros HD.
    destruct (py_pow (PF := ieee libm_pow array_pow) l 2) as [l_sq | e] eqn:Hl.
    + rewrite (@find_extrema_emits float (ieee libm_pow array_pow)
                 GM l r_min r_max q_sq l_sq Hg Hz Hq Hl).
      cbv zeta.
      match goal with
      | |- (if ?c then _ else _) = _ =>
          replace c with (PrimFloat.ltb 0 D) by reflexivity
      end.
      now rewrite HD.
    + rewrite (@find_extrema_overflows float (ieee libm_pow array_pow)
                 GM l r_min r_max q_sq e Hg Hz Hq Hl).
      cbv zeta.
      match goal with
      | |- (if ?c && _ then _ else _) = _ =>
          replace c with (PrimFloat.ltb 0 D) by reflexivity
      end.
      now rewrite HD.
  - intros l_sq Hl HD V. split.
    + intros r. exact (V_eff_value (PF := ieee libm_pow array_pow) r GM l Hl).
    + rewrite (@find_extrema_emits float (ieee libm_pow array_pow)
                 GM l r_min r_max q_sq l_sq Hg Hz Hq Hl).
      cbv zeta.
      match goal with
      | |- (if ?c then _ else _) = _ =>
          replace c with (PrimFloat.ltb 0 D) by reflexivity
      end.
      rewrite HD. reflexivity.
  - intros e Hl HD.
    pose proof (py_pow_raises (PF := ieee libm_pow array_pow) _ _ Hl) as He.
    subst e. split; [reflexivity |].
    rewrite (@find_extrema_overflows float (ieee libm_pow array_pow)
               GM l r_min r_max q_sq OverflowError Hg Hz Hq Hl).
    cbv zeta.
    match goal with
    | |- (if ?c && _ then _ else _) = _ =>
        replace c with (PrimFloat.ltb 0 D) by reflexivity
    end.
    rewrite HD. reflexivity.
Qed.

(** What is marked in binary64, whatever the powers of the platform return. *)
Lemma find_extrema_reported_binary64 (libm_pow array_pow : float -> nat -> float)
    (GM l r_min r_max : float) (points : list (ExtremumPoint float))
    (p : ExtremumPoint float) :
  find_extrema (PF := ieee libm_pow array_pow) GM l r_min r_max = Ok points ->
  In p points ->
  PrimFloat.ltb (2 * PrimFloat.sqrt 3 * GM) l = true /\
  exists q_sq : float,
    py_pow (PF := ieee libm_pow array_pow) (GM / l)%float 2 = Ok q_sq /\
    PrimFloat.ltb 0 (1 - 12 * q_sq) = true /\
    PrimFloat.leb r_min (radius p) = true /\
    PrimFloat.leb (radius p) r_max = true /\
    V_eff (PF := ieee libm_pow array_pow) (radius p) GM l = Ok (potential p) /\
    (kind p = KMax /\
     radius p = (6 * GM / (1 + PrimFloat.sqrt (1 - 12 * q_sq)))%float \/
     kind p = KMin /\
     radius p = (6 * GM / (1 - PrimFloat.sqrt (1 - 12 * q_sq)))%float).
Proof.
  intros Hfe Hin.
  exact (find_extrema_reported (PF := ieee libm_pow array_pow) _ _ _ _ _ Hfe Hin).
Qed.

Section ExactAboveCritical.
Local Open Scope R_scope.

Lemma find_extrema_exact_points (GM l r_min r_max : R) :
  0 < GM -> 2 * sqrt 3 * GM < l ->
  let D := 1 - 12 * (GM / l) ^ 2 in
  let r_max_loc := 6 * GM / (1 + sqrt D) in
  let r_min_loc := 6 * GM / (1 - sqrt D) in
  0 < D /\
  exists (v_max v_min : R) (points : list (ExtremumPoint R)),
    V_eff r_max_loc GM l = Ok v_max /\
    V_eff r_min_loc GM l = Ok v_min /\
    find_extrema GM l r_min r_max = Ok points /\
    (forall p : ExtremumPoint R,
       In p points <->
       p = {| radius := r_max_loc; potential := v_max; kind := KMax |}
       /\ r_min <= r_max_loc <= r_max
       \/
       p = {| radius := r_min_loc; potential := v_min; kind := KMin |}
       /\ r_min <= r_min_loc <= r_max).
Proof.
  intros HGM Hl D r_max_loc r_min_loc.
  assert (ED : D = 1 - 12 * (GM / l * (GM / l))) by (unfold D; ring).
  destruct (discriminant_range HGM Hl) as [Hl0 [HD0 HD1]].
  assert (Hfe := @find_extrema_exact GM l r_min r_max HGM Hl).
  cbv zeta in Hfe. rewrite <- ED in Hfe. fold r_max_loc r_min_loc in Hfe.
  split; [rewrite ED; exact HD0 |].
  exists (V_exact GM l r_max_loc), (V_exact GM l r_min_loc).
  eexists. split; [apply V_eff_exact | split; [apply V_eff_exact |]].
  split; [exact Hfe |].
  intros p. rewrite in_app_iff.
  destruct (between r_min r_max_loc r_max) eqn:B1;
    [apply between_true in B1 | apply between_false in B1];
    (destruct (between r_min r_min_loc r_max) eqn:B2;
     [apply between_true in B2 | apply between_false in B2]);
    cbn [In]; split; intros H;
    repeat match goal with
           | H : _ \/ _ |- _ => destruct H
           | H : _ /\ _ |- _ => destruct H
           | H : False |- _ => contradiction
           end; subst; auto; try contradiction.
Qed.

End ExactAboveCritical.

Lemma find_extrema_windows_binary64 :
  let p_max := {| radius := 4%float; potential := 0%float; kind := KMax |} in
  let p_min := {| radius := 12%float;
                  potential := (- 1 / 12 + 0.5 * 16 / 144 - 1 * 16 / 1728)%float;
                  kind := KMin |} in
  find_extrema 1%float 4%float 4%float 12%float = Ok [p_max; p_min]
  /\ find_extrema 1%float 4%float 4%float 11.5%float = Ok [p_max]
  /\ find_extrema 1%float 4%float 4.5%float 12%float = Ok [p_min]
  /\ find_extrema 1%float 4%float 4.5%float 11.5%float = Ok []
  /\ (PrimFloat.ltb (2 * PrimFloat.sqrt 3 * 1) 3.4641016151377548 = true
      /\ py_pow (1 / 3.4641016151377548)%float 2 = Ok 0.083333333333333329%float
      /\ (1 - 12 * 0.083333333333333329)%float = 0%float
      /\ find_extrema 1%float 3.4641016151377548%float 2.5%float 500%float = Ok [])
  /\ (float_of_string "1e200" = Some 1e200%float
      /\ py_pow 1e200%float 2 = Raise OverflowError
      /\ find_extrema 1%float 1e200%float 2.5%float 500%float = Raise OverflowError).
Proof.
  cbv zeta.
  split; [vm_compute; reflexivity |].
  split; [vm_compute; reflexivity |].
  split; [vm_compute; reflexivity |].
  split; [vm_compute; reflexivity |].
  split; [split; [| split; [| split]]; vm_compute; reflexivity |].
  split; [| split]; vm_compute; reflexivity.
Qed.

(** C2: for every GM > 0 and l > 2 sqrt(3) GM with D = 1 - 12 (GM/l)^2 > 0
    exactly two candidate radii are computed, r_max_loc = 6GM/(1 + sqrt D),
    labelled max, and r_min_loc = 6GM/(1 - sqrt D), labelled min; each is
    reported only if it lies in [r_min, r_max], bounds included, with the
    potential V_eff evaluated at that radius.  In binary64, whatever the
    powers of the platform return: every point reported is one of the two
    candidates, lies in the window and carries V_eff at its radius; when
    l ** 2 does not overflow each candidate in the window is reported; the
    computed D may fail to be positive, and then nothing is reported.  In
    exact arithmetic D > 0 always holds above the critical value. *)
Theorem find_extrema_above_critical :
  (forall (libm_pow array_pow : float -> nat -> float)
          (GM l r_min r_max : float) (points : list (ExtremumPoint float))
          (p : ExtremumPoint float),
     find_extrema (PF := ieee libm_pow array_pow) GM l r_min r_max = Ok points ->
     In p points ->
     PrimFloat.ltb (2 * PrimFloat.sqrt 3 * GM) l = true /\
     exists q_sq : float,
       py_pow (PF := ieee libm_pow array_pow) (GM / l)%float 2 = Ok q_sq /\
       PrimFloat.ltb 0 (1 - 12 * q_sq) = true /\
       PrimFloat.leb r_min (radius p) = true /\
       PrimFloat.leb (radius p) r_max = true /\
       V_eff (PF := ieee libm_pow array_pow) (radius p) GM l = Ok (potential p) /\
       (kind p = KMax /\
        radius p = (6 * GM / (1 + PrimFloat.sqrt (1 - 12 * q_sq)))%float \/
        kind p = KMin /\
        radius p = (6 * GM / (1 - PrimFloat.sqrt (1 - 12 * q_sq)))%float))
  /\ (forall (libm_pow array_pow : float -> nat -> float)
             (GM l r_min r_max q_sq : float),
        PrimFloat.ltb 0 GM = true ->
        PrimFloat.ltb (2 * PrimFloat.sqrt 3 * GM) l = true ->
        py_pow (PF := ieee libm_pow array_pow) (GM / l)%float 2 = Ok q_sq ->
        let D := (1 - 12 * q_sq)%float in
        let r_max_loc := (6 * GM / (1 + PrimFloat.sqrt D))%float in
        let r_min_loc := (6 * GM / (1 - PrimFloat.sqrt D))%float in
        (PrimFloat.ltb 0 D = false ->
           find_extrema (PF := ieee libm_pow array_pow) GM l r_min r_max = Ok []) /\
        (forall l_sq : float,
           py_pow (PF := ieee libm_pow array_pow) l 2 = Ok l_sq ->
           PrimFloat.ltb 0 D = true ->
           let V := fun r : float =>
             (- GM / r + 0.5 * l_sq / libm_pow r 2%nat
              - GM * l_sq / libm_pow r 3%nat)%float in
           (forall r : float, V_eff (PF := ieee libm_pow array_pow) r GM l = Ok (V r)) /\
           find_extrema (PF := ieee libm_pow array_pow) GM l r_min r_max =
             Ok ((if PrimFloat.leb r_min r_max_loc && PrimFloat.leb r_max_loc r_max
                  then [ {| radius := r_max_loc; potential := V r_max_loc; kind := KMax |} ]
                  else [])
                 ++
                 (if PrimFloat.leb r_min r_min_loc && PrimFloat.leb r_min_loc r_max
                  then [ {| radius := r_min_loc; potential := V r_min_loc; kind := KMin |} ]
                  else []))) /\
        (forall e : exn,
           py_pow (PF := ieee libm_pow array_pow) l 2 = Raise e ->
           PrimFloat.ltb 0 D = true ->
           e = OverflowError /\
           find_extrema (PF := ieee libm_pow array_pow) GM l r_min r_max =
             if PrimFloat.leb r_min r_max_loc && PrimFloat.leb r_max_loc r_max
                || PrimFloat.leb r_min r_min_loc && PrimFloat.leb r_min_loc r_max
             then Raise OverflowError else Ok []))
  /\ (forall GM l r_min r_max : R,
        (0 < GM)%R -> (2 * sqrt 3 * GM < l)%R ->
        let D := (1 - 12 * (GM / l) ^ 2)%R in
        let r_max_loc := (6 * GM / (1 + sqrt D))%R in
        let r_min_loc := (6 * GM / (1 - sqrt D))%R in
        (0 < D)%R /\
        exists (v_max v_min : R) (points : list (ExtremumPoint R)),
          V_eff r_max_loc GM l = Ok v_max /\
          V_eff r_min_loc GM l = Ok v_min /\
          find_extrema GM l r_min r_max = Ok points /\
          (forall p : ExtremumPoint R,
             In p points <->
             p = {| radius := r_max_loc; potential := v_max; kind := KMax |}
             /\ (r_min <= r_max_loc <= r_max)%R
             \/
             p = {| radius := r_min_loc; potential := v_min; kind := KMin |}
             /\ (r_min <= r_min_loc <= r_max)%R))
  /\ (let p_max := {| radius := 4%float; potential := 0%float; kind := KMax |} in
      let p_min := {| radius := 12%float;
                      potential := (- 1 / 12 + 0.5 * 16 / 144 - 1 * 16 / 1728)%float;
                      kind := KMin |} in
      find_extrema 1%float 4%float 4%float 12%float = Ok [p_max; p_min]
      /\ find_extrema 1%float 4%float 4%float 11.5%float = Ok [p_max]
      /\ find_extrema 1%float 4%float 4.5%float 12%float = Ok [p_min]
      /\ find_extrema 1%float 4%float 4.5%float 11.5%float = Ok []
      /\ (PrimFloat.ltb (2 * PrimFloat.sqrt 3 * 1) 3.4641016151377548 = true
          /\ py_pow (1 / 3.4641016151377548)%float 2 = Ok 0.083333333333333329%float
          /\ (1 - 12 * 0.083333333333333329)%float = 0%float
          /\ find_extrema 1%float 3.4641016151377548%float 2.5%float 500%float = Ok [])
      /\ (float_of_string "1e200" = Some 1e200%float
          /\ py_pow 1e200%float 2 = Raise OverflowError
          /\ find_extrema 1%float 1e200%float 2.5%float 500%float = Raise OverflowError)).
Proof.
  split; [| split; [| split]].
  - exact find_extrema_reported_binary64.
  - exact find_extrema_binary64.
  - exact find_extrema_exact_points.
  - exact find_extrema_windows_binary64.
Qed.

Lemma find_extrema_above_critical_witness :
  PrimFloat.ltb 0 1 = true /\
  PrimFloat.ltb (2 * PrimFloat.sqrt 3 * 1) 4 = true /\
  py_pow (1 / 4)%float 2 = Ok 0.0625%float /\
  py_pow 4%float 2 = Ok 16%float /\
  PrimFloat.ltb 0 (1 - 12 * 0.0625) = true /\
  exists points : list (ExtremumPoint float),
    find_extrema 1%float 4%float 0%float 1000%float = Ok points.
Proof.
  assert (H1 : PrimFloat.ltb 0 1 = true) by (vm_compute; reflexivity).
  assert (H2 : PrimFloat.ltb (2 * PrimFloat.sqrt 3 * 1) 4 = true)
    by (vm_compute; reflexivity).
  assert (H3 : py_pow (PF := ieee product_pow product_pow) (1 / 4)%float 2
               = Ok 0.0625%float) by (vm_compute; reflexivity).
  assert (H4 : py_pow (PF := ieee product_pow product_pow) 4%float 2 = Ok 16%float)
    by (vm_compute; reflexivity).
  assert (H5 : PrimFloat.ltb 0 (1 - 12 * 0.0625) = true) by (vm_compute; reflexivity).
  split; [exact H1 | split; [exact H2 | split; [exact H3 | split; [exact H4 |]]]].
  split; [exact H5 |].
  eexists.
  exact (proj2 (proj1 (proj2 (proj1 (proj2 find_extrema_above_critical)
                                product_pow product_pow
                                1%float 4%float 0%float 1000%float 0.0625%float
                                H1 H2 H3))
                        16%float H4 H5)).
Defined.

(** ** Classification of photon impact parameters *)

Section GenericClassification.
Context {F : Type} {PF : PyFloat F}.
Local Open Scope py_scope.

(** The three outcomes of the loop body, whatever the arithmetic. *)
Lemma classify_outcomes (b GM : F) :
  classify_impact_parameter b GM =
    match py_pow (b * GM) 2 with
    | Raise e => Raise e
    | Ok sq =>
        if sq == #0 then Raise ZeroDivisionError
        else Ok {| impact := b; E_eff := #1 / sq; regime := regime_of b GM |}
    end.
Proof.
  unfold classify_impact_parameter, truediv.
  destruct (py_pow (b * GM) 2) as [sq | e]; cbn [bind]; [| reflexivity].
  destruct (sq == #0); reflexivity.
Qed.

(** A classification comes with the energy 1 / (b GM) ** 2 of a square that
    is neither zero nor overflowing, and with the regime the comparisons
    choose. *)
Lemma classify_ok (b GM : F) (c : ImpactClassification F) :
  classify_impact_parameter b GM = Ok c ->
  impact c = b /\ regime c = regime_of b GM /\
  exists sq, py_pow (b * GM) 2 = Ok sq /\ (sq == #0) = false /\ E_eff c = #1 / sq.
Proof.
  rewrite classify_outcomes.
  destruct (py_pow (b * GM) 2) as [sq | e]; [| discriminate].
  destruct (sq == #0) eqn:Hz; [discriminate |].
  intros [= <-]. cbn [impact regime E_eff].
  split; [reflexivity | split; [reflexivity |]].
  exists sq. split; [reflexivity | split; [exact Hz | reflexivity]].
Qed.

End GenericClassification.

Section ExactClassification.
Local Open Scope R_scope.

Lemma regime_of_exact (b GM : R) :
  (regime_of b GM = Captured <-> b * GM < sqrt 27 * GM) /\
  (regime_of b GM = Escapes <-> b * GM > sqrt 27 * GM) /\
  (regime_of b GM = Critical <-> b * GM = sqrt 27 * GM).
Proof.
  unfold regime_of. exact_arith.
  destruct (Rltb (b * GM) (sqrt 27 * GM)) eqn:L1;
    [apply Rltb_true in L1 | apply Rltb_false in L1];
    [| destruct (Rltb (sqrt 27 * GM) (b * GM)) eqn:L2;
       [apply Rltb_true in L2 | apply Rltb_false in L2]];
    repeat split; intros; try discriminate; try reflexivity; lra.
Qed.

Lemma classify_exact (b GM : R) :
  b * GM <> 0 ->
  classify_impact_parameter b GM =
    Ok {| impact := b; E_eff := 1 / (b * GM) ^ 2; regime := regime_of b GM |}.
Proof.
  intros Hb. rewrite classify_outcomes, py_pow_exact. exact_arith.
  assert (Hsq : b * GM * (b * GM) <> 0) by nra.
  apply Reqb_false in Hsq. rewrite Hsq. do 2 f_equal. field.
  split; intros E; apply Hb; rewrite E; ring.
Qed.

Lemma classify_zero_exact (GM : R) :
  classify_impact_parameter 0 GM = Raise ZeroDivisionError.
Proof.
  rewrite classify_outcomes, py_pow_exact. exact_arith.
  assert (E : Reqb (0 * GM * (0 * GM)) 0 = true) by (apply Reqb_true; ring).
  now rewrite E.
Qed.

Lemma sqrt27_bounds : 5 < sqrt 27 < 6.
Proof.
  assert (H : sqrt 27 * sqrt 27 = 27) by (apply sqrt_sqrt; lra).
  assert (Hp : 0 < sqrt 27) by (apply sqrt_lt_R0; lra).
  split; nra.
Qed.

Lemma classify_examples_exact :
  classify_impact_parameter (sqrt 27) 1 =
    Ok {| impact := sqrt 27; E_eff := 1 / (sqrt 27 * 1) ^ 2; regime := Critical |}
  /\ classify_impact_parameter 6 1 =
       Ok {| impact := 6; E_eff := 1 / (6 * 1) ^ 2; regime := Escapes |}
  /\ classify_impact_parameter 4 1 =
       Ok {| impact := 4; E_eff := 1 / (4 * 1) ^ 2; regime := Captured |}.
Proof.
  pose proof sqrt27_bounds as [H5 H6].
  repeat split; rewrite classify_exact by lra; do 2 f_equal;
    apply regime_of_exact; lra.
Qed.

End ExactClassification.

(** *** Products of finite numbers *)

Lemma shr_1_nonneg (mrs : shr_record) :
  (0 <= shr_m mrs)%Z -> (0 <= shr_m (shr_1 mrs))%Z.
Proof.
  destruct mrs as [m r s]. cbn [shr_m]. intros Hm. unfold shr_1.
  destruct m as [| p | p]; [cbn; lia | | lia].
  destruct p; cbn; lia.
Qed.

Lemma iter_shr_1_nonneg (n : positive) (mrs : shr_record) :
  (0 <= shr_m mrs)%Z -> (0 <= shr_m (SpecFloat.iter_pos shr_1 n mrs))%Z.
Proof.
  revert mrs. induction n as [n IH | n IH |]; intros mrs Hm; cbn [SpecFloat.iter_pos].
  - apply IH, IH, shr_1_nonneg, Hm.
  - apply IH, IH, Hm.
  - apply shr_1_nonneg, Hm.
Qed.

Lemma shr_fexp_nonneg (m e : Z) (l : location) :
  (0 <= m)%Z -> (0 <= shr_m (fst (shr_fexp prec emax m e l)))%Z.
Proof.
  intros Hm. unfold shr_fexp, shr.
  assert (H0 : (0 <= shr_m (shr_record_of_loc m l))%Z).
  { destruct l as [| []]; cbn; exact Hm. }
  destruct (fexp prec emax (Zdigits2 m + e) - e)%Z; cbn [fst]; try exact H0.
  now apply iter_shr_1_nonneg.
Qed.

Lemma round_nearest_even_nonneg (m : Z) (l : location) :
  (0 <= m)%Z -> (0 <= round_nearest_even m l)%Z.
Proof.
  intros Hm. unfold round_nearest_even.
  destruct l as [| []]; try lia. destruct (Z.even m); lia.
Qed.

(** Rounding a non-negative mantissa never gives NaN. *)
Lemma binary_round_aux_not_nan (s : bool) (m e : Z) (l : location) :
  (0 <= m)%Z -> binary_round_aux prec emax s m e l <> S754_nan.
Proof.
  intros Hm. unfold binary_round_aux.
  pose proof (@shr_fexp_nonneg m e l Hm) as H1.
  destruct (shr_fexp prec emax m e l) as [mrs' e']. cbn [fst] in H1.
  pose proof (@shr_fexp_nonneg _ e' loc_Exact
                (@round_nearest_even_nonneg _ (loc_of_shr_record mrs') H1)) as H2.
  destruct (shr_fexp prec emax _ e' loc_Exact) as [mrs'' e'']. cbn [fst] in H2.
  destruct (shr_m mrs''); [discriminate | | lia].
  destruct (e'' <=? emax - prec)%Z; discriminate.
Qed.

(** A finite binary64 value is a zero or a finite number. *)
Lemma finite_spec (x : float) :
  PrimFloat.is_finite x = true ->
  match Prim2SF x with
  | S754_zero _ | S754_finite _ _ _ => True
  | _ => False
  end.
Proof.
  unfold PrimFloat.is_finite. rewrite negb_true_iff, orb_false_iff.
  intros [Hn Hi]. apply not_nan_spec in Hn.
  unfold PrimFloat.is_infinity in Hi.
  rewrite FloatAxioms.eqb_spec, abs_spec in Hi.
  change (Prim2SF infinity) with (S754_infinity false) in Hi.
  destruct (Prim2SF x) as [s | s | | s m e]; try exact I.
  - cbn in Hi. discriminate.
  - contradiction.
Qed.

(** The product of two finite numbers is a number. *)
Lemma finite_mul_not_nan (x y : float) :
  PrimFloat.is_finite x = true -> PrimFloat.is_finite y = true ->
  PrimFloat.is_nan (x * y)%float = false.
Proof.
  intros Hx Hy. apply finite_spec in Hx, Hy.
  apply spec_not_nan. rewrite mul_spec. unfold SF64mul.
  destruct (Prim2SF x) as [sx | sx | | sx mx ex]; try contradiction;
    destruct (Prim2SF y) as [sy | sy | | sy my ey]; try contradiction;
    cbn [SFmul]; try discriminate.
  apply binary_round_aux_not_nan. lia.
Qed.

(** *** The regimes in binary64 *)

Lemma regime_of_binary64 (libm_pow array_pow : float -> nat -> float) (b GM : float) :
  PrimFloat.is_nan (b * GM)%float = false ->
  PrimFloat.is_nan (PrimFloat.sqrt 27 * GM)%float = false ->
  (regime_of (PF := ieee libm_pow array_pow) b GM = Captured <->
     PrimFloat.ltb (b * GM)%float (PrimFloat.sqrt 27 * GM)%float = true) /\
  (regime_of (PF := ieee libm_pow array_pow) b GM = Escapes <->
     PrimFloat.ltb (PrimFloat.sqrt 27 * GM)%float (b * GM)%float = true) /\
  (regime_of (PF := ieee libm_pow array_pow) b GM = Critical <->
     PrimFloat.eqb (b * GM)%float (PrimFloat.sqrt 27 * GM)%float = true).
Proof.
  intros Nx Ny. unfold regime_of.
  change (fltb (fmul b GM) (fmul (fsqrt (of_Z 27)) GM))
    with (PrimFloat.ltb (b * GM)%float (PrimFloat.sqrt 27 * GM)%float).
  change (fltb (fmul (fsqrt (of_Z 27)) GM) (fmul b GM))
    with (PrimFloat.ltb (PrimFloat.sqrt 27 * GM)%float (b * GM)%float).
  set (x := (b * GM)%float) in *. set (y := (PrimFloat.sqrt 27 * GM)%float) in *.
  destruct (PrimFloat.ltb x y) eqn:L1.
  - pose proof (@ltb_asym _ _ L1) as L2. rewrite L2.
    repeat split; intros He; try discriminate; try reflexivity.
    apply eqb_not_ltb in He. destruct He; congruence.
  - destruct (PrimFloat.ltb y x) eqn:L2.
    + repeat split; intros He; try discriminate; try reflexivity.
      apply eqb_not_ltb in He. destruct He; congruence.
    + repeat split; intros He; try discriminate; try reflexivity.
      now apply float_trichotomy.
Qed.

(** For a finite impact parameter and a finite GM > 0 both sides of the
    comparison are numbers. *)
Lemma comparison_sides_are_numbers (b GM : float) :
  PrimFloat.is_finite b = true -> PrimFloat.is_finite GM = true ->
  PrimFloat.is_nan (b * GM)%float = false /\
  PrimFloat.is_nan (PrimFloat.sqrt 27 * GM)%float = false.
Proof.
  intros Hb HGM. split; apply finite_mul_not_nan; try assumption.
  vm_compute. reflexivity.
Qed.

(** The loop body in binary64, whatever the powers of the platform return. *)
Lemma classify_binary64 (libm_pow array_pow : float -> nat -> float) (b GM : float) :
  PrimFloat.is_finite b = true ->
  PrimFloat.is_finite GM = true ->
  PrimFloat.ltb 0 GM = true ->
  ((regime_of (PF := ieee libm_pow array_pow) b GM = Captured <->
      PrimFloat.ltb (b * GM)%float (PrimFloat.sqrt 27 * GM)%float = true) /\
   (regime_of (PF := ieee libm_pow array_pow) b GM = Escapes <->
      PrimFloat.ltb (PrimFloat.sqrt 27 * GM)%float (b * GM)%float = true) /\
   (regime_of (PF := ieee libm_pow array_pow) b GM = Critical <->
      PrimFloat.eqb (b * GM)%float (PrimFloat.sqrt 27 * GM)%float = true)) /\
  (forall sq : float,
     py_pow (PF := ieee libm_pow array_pow) (b * GM)%float 2 = Ok sq ->
     PrimFloat.eqb sq 0 = false ->
     classify_impact_parameter (PF := ieee libm_pow array_pow) b GM =
       Ok {| impact := b; E_eff := (1 / sq)%float;
             regime := regime_of (PF := ieee libm_pow array_pow) b GM |}) /\
  (forall sq : float,
     py_pow (PF := ieee libm_pow array_pow) (b * GM)%float 2 = Ok sq ->
     PrimFloat.eqb sq 0 = true ->
     classify_impact_parameter (PF := ieee libm_pow array_pow) b GM =
       Raise ZeroDivisionError) /\
  (forall e : exn,
     py_pow (PF := ieee libm_pow array_pow) (b * GM)%float 2 = Raise e ->
     e = OverflowError /\
     classify_impact_parameter (PF := ieee libm_pow array_pow) b GM =
       Raise OverflowError) /\
  (forall c : ImpactClassification float,
     classify_impact_parameter (PF := ieee libm_pow array_pow) b GM = Ok c ->
     impact c = b /\
     regime c = regime_of (PF := ieee libm_pow array_pow) b GM /\
     exists sq : float,
       py_pow (PF := ieee libm_pow array_pow) (b * GM)%float 2 = Ok sq /\
       PrimFloat.eqb sq 0 = false /\ E_eff c = (1 / sq)%float).
Proof.
  intros Hb HGM _.
  destruct (comparison_sides_are_numbers b GM Hb HGM) as [Nx Ny].
  split; [exact (regime_of_binary64 libm_pow array_pow b GM Nx Ny) |].
  split; [| split; [| split]].
  - intros sq Hsq Hz.
    change (b * GM)%float with (@fmul float (ieee libm_pow array_pow) b GM) in Hsq.
    rewrite (classify_outcomes (PF := ieee libm_pow array_pow)), Hsq.
    change (@feqb float (ieee libm_pow array_pow) sq
              (@of_Z float (ieee libm_pow array_pow) 0))
      with (PrimFloat.eqb sq 0).
    rewrite Hz. reflexivity.
  - intros sq Hsq Hz.
    change (b * GM)%float with (@fmul float (ieee libm_pow array_pow) b GM) in Hsq.
    rewrite (classify_outcomes (PF := ieee libm_pow array_pow)), Hsq.
    change (@feqb float (ieee libm_pow array_pow) sq
              (@of_Z float (ieee libm_pow array_pow) 0))
      with (PrimFloat.eqb sq 0).
    rewrite Hz. reflexivity.
  - intros e He.
    pose proof (py_pow_raises (PF := ieee libm_pow array_pow) _ _ He) as E.
    subst e. split; [reflexivity |].
    change (b * GM)%float with (@fmul float (ieee libm_pow array_pow) b GM) in He.
    rewrite (classify_outcomes (PF := ieee libm_pow array_pow)), He. reflexivity.
  - intros c Hc.
    exact (classify_ok (PF := ieee libm_pow array_pow) _ _ Hc).
Qed.

Lemma classify_examples_binary64 :
  (forall libm_pow array_pow : float -> nat -> float,
     regime_of (PF := ieee libm_pow array_pow) (PrimFloat.sqrt 27) 1%float = Critical
     /\ regime_of (PF := ieee libm_pow array_pow) 6%float 1%float = Escapes
     /\ regime_of (PF := ieee libm_pow array_pow) 4%float 1%float = Captured)
  /\ (exists E : float,
        classify_impact_parameter (PrimFloat.sqrt 27) 1%float =
          Ok {| impact := PrimFloat.sqrt 27; E_eff := E; regime := Critical |})
  /\ classify_impact_parameter 6%float 1%float =
       Ok {| impact := 6%float; E_eff := (1 / 36)%float; regime := Escapes |}
  /\ classify_impact_parameter 4%float 1%float =
       Ok {| impact := 4%float; E_eff := (1 / 16)%float; regime := Captured |}
  /\ (float_of_string "1e-200" = Some 1e-200%float
      /\ PrimFloat.eqb (1e-200 * 1) 0 = false
      /\ py_pow (1e-200 * 1)%float 2 = Ok 0%float
      /\ classify_impact_parameter 1e-200%float 1%float = Raise ZeroDivisionError)
  /\ (float_of_string "1e200" = Some 1e200%float
      /\ py_pow (1e200 * 1)%float 2 = Raise OverflowError
      /\ classify_impact_parameter 1e200%float 1%float = Raise OverflowError).
Proof.
  split; [intros libm_pow array_pow; split; [| split]; vm_compute; reflexivity |].
  split; [eexists; vm_compute; reflexivity |].
  split; [vm_compute; reflexivity |].
  split; [vm_compute; reflexivity |].
  split; [split; [| split; [| split]]; vm_compute; reflexivity |].
  split; [| split]; vm_compute; reflexivity.
Qed.

(** C3 as stated fails at b = 0, GM = 1: the loop body raises
    ZeroDivisionError before it reaches the comparison, so no regime is
    assigned. *)
Lemma classify_zero_impact_raises :
  (classify_impact_parameter (F:=R) 0 1 = Raise ZeroDivisionError)%R
  /\ classify_impact_parameter 0%float 1%float = Raise ZeroDivisionError
  /\ PrimFloat.is_finite 0 = true
  /\ PrimFloat.ltb 0 1 = true
  /\ ~ (exists c, classify_impact_parameter (F:=R) 0 1 = Ok c)%R
  /\ ~ (exists c, classify_impact_parameter 0%float 1%float = Ok c).
Proof.
  assert (He : (classify_impact_parameter (F:=R) 0 1 = Raise ZeroDivisionError)%R)
    by apply classify_zero_exact.
  assert (Hb : classify_impact_parameter 0%float 1%float = Raise ZeroDivisionError)
    by (vm_compute; reflexivity).
  split; [exact He | split; [exact Hb |]].
  split; [vm_compute; reflexivity |].
  split; [vm_compute; reflexivity |].
  split; intros [c Hc]; congruence.
Qed.

(** C3, amended: for every finite b and finite GM > 0 in binary64, whatever
    the powers of the platform return, the regime the loop body chooses is
    captured iff b GM < sqrt(27) GM, escapes iff b GM > sqrt(27) GM and
    critical iff b GM == sqrt(27) GM; the body yields that one
    classification, with energy 1 / (b GM) ** 2, exactly when the square
    (b GM) ** 2 is computed and is not zero; it raises ZeroDivisionError
    when the square is zero (b = 0, b = 1e-200) and OverflowError when the
    square overflows (b = 1e200).  For GM = 1, b = sqrt(27) is critical,
    b = 6 escapes and b = 4 is captured.  In exact arithmetic the body
    yields a classification whenever b GM <> 0. *)
Theorem classify_impact_parameter_partition :
  (forall (libm_pow array_pow : float -> nat -> float) (b GM : float),
     PrimFloat.is_finite b = true ->
     PrimFloat.is_finite GM = true ->
     PrimFloat.ltb 0 GM = true ->
     ((regime_of (PF := ieee libm_pow array_pow) b GM = Captured <->
         PrimFloat.ltb (b * GM)%float (PrimFloat.sqrt 27 * GM)%float = true) /\
      (regime_of (PF := ieee libm_pow array_pow) b GM = Escapes <->
         PrimFloat.ltb (PrimFloat.sqrt 27 * GM)%float (b * GM)%float = true) /\
      (regime_of (PF := ieee libm_pow array_pow) b GM = Critical <->
         PrimFloat.eqb (b * GM)%float (PrimFloat.sqrt 27 * GM)%float = true)) /\
     (forall sq : float,
        py_pow (PF := ieee libm_pow array_pow) (b * GM)%float 2 = Ok sq ->
        PrimFloat.eqb sq 0 = false ->
        classify_impact_parameter (PF := ieee libm_pow array_pow) b GM =
          Ok {| impact := b; E_eff := (1 / sq)%float;
                regime := regime_of (PF := ieee libm_pow array_pow) b GM |}) /\
     (forall sq : float,
        py_pow (PF := ieee libm_pow array_pow) (b * GM)%float 2 = Ok sq ->
        PrimFloat.eqb sq 0 = true ->
        classify_impact_parameter (PF := ieee libm_pow array_pow) b GM =
          Raise ZeroDivisionError) /\
     (forall e : exn,
        py_pow (PF := ieee libm_pow array_pow) (b * GM)%float 2 = Raise e ->
        e = OverflowError /\
        classify_impact_parameter (PF := ieee libm_pow array_pow) b GM =
          Raise OverflowError) /\
     (forall c : ImpactClassification float,
        classify_impact_parameter (PF := ieee libm_pow array_pow) b GM = Ok c ->
        impact c = b /\
        regime c = regime_of (PF := ieee libm_pow array_pow) b GM /\
        exists sq : float,
          py_pow (PF := ieee libm_pow array_pow) (b * GM)%float 2 = Ok sq /\
          PrimFloat.eqb sq 0 = false /\ E_eff c = (1 / sq)%float))
  /\ (forall b GM : R, (0 < GM)%R -> (b * GM <> 0)%R ->
        classify_impact_parameter b GM =
          Ok {| impact := b; E_eff := (1 / (b * GM) ^ 2)%R; regime := regime_of b GM |} /\
        (regime_of b GM = Captured <-> (b * GM < sqrt 27 * GM)%R) /\
        (regime_of b GM = Escapes <-> (b * GM > sqrt 27 * GM)%R) /\
        (regime_of b GM = Critical <-> (b * GM = sqrt 27 * GM)%R))
  /\ (classify_impact_parameter (F:=R) (sqrt 27) 1 =
        Ok {| impact := sqrt 27; E_eff := 1 / (sqrt 27 * 1) ^ 2; regime := Critical |}
      /\ classify_impact_parameter (F:=R) 6 1 =
           Ok {| impact := 6; E_eff := 1 / (6 * 1) ^ 2; regime := Escapes |}
      /\ classify_impact_parameter (F:=R) 4 1 =
           Ok {| impact := 4; E_eff := 1 / (4 * 1) ^ 2; regime := Captured |})%R
  /\ ((forall libm_pow array_pow : float -> nat -> float,
         regime_of (PF := ieee libm_pow array_pow) (PrimFloat.sqrt 27) 1%float = Critical
         /\ regime_of (PF := ieee libm_pow array_pow) 6%float 1%float = Escapes
         /\ regime_of (PF := ieee libm_pow array_pow) 4%float 1%float = Captured)
      /\ (exists E : float,
            classify_impact_parameter (PrimFloat.sqrt 27) 1%float =
              Ok {| impact := PrimFloat.sqrt 27; E_eff := E; regime := Critical |})
      /\ classify_impact_parameter 6%float 1%float =
           Ok {| impact := 6%float; E_eff := (1 / 36)%float; regime := Escapes |}
      /\ classify_impact_parameter 4%float 1%float =
           Ok {| impact := 4%float; E_eff := (1 / 16)%float; regime := Captured |}
      /\ (float_of_string "1e-200" = Some 1e-200%float
          /\ PrimFloat.eqb (1e-200 * 1) 0 = false
          /\ py_pow (1e-200 * 1)%float 2 = Ok 0%float
          /\ classify_impact_parameter 1e-200%float 1%float = Raise ZeroDivisionError)
      /\ (float_of_string "1e200" = Some 1e200%float
          /\ py_pow (1e200 * 1)%float 2 = Raise OverflowError
          /\ classify_impact_parameter 1e200%float 1%float = Raise OverflowError)).
Proof.
  split; [| split; [| split]].
  - exact classify_binary64.
  - intros b GM _ Hb. split; [now apply classify_exact | apply regime_of_exact].
  - exact classify_examples_exact.
  - exact classify_examples_binary64.
Qed.

Lemma classify_impact_parameter_partition_witness :
  PrimFloat.is_finite 6 = true /\
  PrimFloat.is_finite 1 = true /\
  PrimFloat.ltb 0 1 = true /\
  py_pow (6 * 1)%float 2 = Ok 36%float /\
  PrimFloat.eqb 36 0 = false /\
  classify_impact_parameter 6%float 1%float =
    Ok {| impact := 6%float; E_eff := (1 / 36)%float; regime := regime_of 6%float 1%float |}.
Proof.
  assert (H1 : PrimFloat.is_finite 6 = true) by (vm_compute; reflexivity).
  assert (H2 : PrimFloat.is_finite 1 = true) by (vm_compute; reflexivity).
  assert (H3 : PrimFloat.ltb 0 1 = true) by (vm_compute; reflexivity).
  assert (H4 : py_pow (PF := ieee product_pow product_pow) (6 * 1)%float 2 = Ok 36%float)
    by (vm_compute; reflexivity).
  assert (H5 : PrimFloat.eqb 36 0 = false) by (vm_compute; reflexivity).
  split; [exact H1 | split; [exact H2 | split; [exact H3 |]]].
  split; [exact H4 | split; [exact H5 |]].
  exact (proj1 (proj2 (proj1 classify_impact_parameter_partition
                         product_pow product_pow 6%float 1%float H1 H2 H3))
           36%float H4 H5).
Defined.

(** ** The parameter parser *)

Lemma is_empty_eqb (t : string) : is_empty t = String.eqb t EmptyString.
Proof. now destruct t. Qed.

Section ParserFacts.
Context {F : Type}.
Variable py_float : string -> option F.

Lemma parse_from (parts : list string) (values : list F) :
  foldM (parse_part py_float) parts values =
    (map (fun t => SidebarWarning (warning_text t)) (rejected py_float (tokens_of parts)),
     Done (values ++ converted py_float (tokens_of parts))).
Proof.
  revert values. induction parts as [| part parts IH]; intros values.
  - cbn. now rewrite app_nil_r.
  - cbn [foldM]. unfold parse_part at 1, tokens_of. cbn [map filter].
    fold (tokens_of parts). rewrite is_empty_eqb.
    destruct (String.eqb (strip part) EmptyString) eqn:He; cbn [negb].
    + unfold sbind, ret. cbn [fst snd app]. rewrite IH. reflexivity.
    + unfold converted, rejected. cbn [flat_map filter].
      fold (converted py_float (tokens_of parts)).
      fold (rejected py_float (tokens_of parts)).
      destruct (py_float (strip part)) as [x |].
      * unfold sbind, ret. cbn [fst snd app]. rewrite IH.
        cbn [fst snd]. now rewrite <- app_assoc.
      * unfold sbind, ret, emit. cbn [fst snd app]. rewrite IH.
        reflexivity.
Qed.

Lemma parse_numbers_run (raw_text : string) :
  parse_numbers py_float raw_text =
    (map (fun t => SidebarWarning (warning_text t)) (rejected py_float (tokens raw_text)),
     Done (converted py_float (tokens raw_text))).
Proof. unfold parse_numbers, tokens. now rewrite parse_from. Qed.

(** Every token is either converted or rejected, never both. *)
Lemma converted_rejected_length (ts : list string) :
  (List.length (converted py_float ts) + List.length (rejected py_float ts)
   = List.length ts)%nat.
Proof.
  induction ts as [| t ts IH]; [reflexivity |].
  unfold converted, rejected in *. cbn [flat_map filter].
  destruct (py_float t); cbn [app List.length]; lia.
Qed.

End ParserFacts.

(** *** Splitting *)

Lemma split_on_nonempty (sep : ascii) (s : string) : split_on sep s <> [].
Proof.
  destruct s as [| c s]; cbn; [discriminate |].
  destruct (Ascii.eqb c sep); [discriminate |].
  destruct (split_on sep s); discriminate.
Qed.

(** Joining the parts with the separator gives the text back. *)
Lemma join_split_on (sep : ascii) (s : string) : join sep (split_on sep s) = s.
Proof.
  induction s as [| c s IH]; [reflexivity |].
  cbn [split_on]. destruct (Ascii.eqb c sep) eqn:Ec.
  - apply Ascii.eqb_eq in Ec. subst c.
    pose proof (split_on_nonempty sep s) as Hne.
    destruct (split_on sep s) as [| t ts]; [contradiction |].
    cbn [join] in *. cbn. now rewrite IH.
  - pose proof (split_on_nonempty sep s) as Hne.
    destruct (split_on sep s) as [| t ts]; [contradiction |].
    destruct ts as [| t' ts]; cbn [join] in *; cbn; now rewrite IH.
Qed.

(** No part contains the separator. *)
Lemma split_on_no_sep (sep : ascii) (s : string) :
  Forall (fun t => all_chars (fun c => negb (Ascii.eqb c sep)) t = true) (split_on sep s).
Proof.
  induction s as [| c s IH]; cbn [split_on].
  - now repeat constructor.
  - destruct (Ascii.eqb c sep) eqn:Ec.
    + constructor; [reflexivity | exact IH].
    + destruct (split_on sep s) as [| t ts]; [now repeat constructor; cbn; rewrite Ec |].
      inversion IH as [| ? ? Ht Hts]; subst.
      constructor; [| exact Hts]. cbn. now rewrite Ec, Ht.
Qed.

Lemma split_on_app (sep : ascii) (s1 s2 : string) :
  split_on sep (s1 ++ String sep s2) = split_on sep s1 ++ split_on sep s2.
Proof.
  induction s1 as [| c s1 IH]; cbn [String.append split_on].
  - now rewrite Ascii.eqb_refl.
  - rewrite IH. destruct (Ascii.eqb c sep); [reflexivity |].
    pose proof (split_on_nonempty sep s1) as Hne.
    destruct (split_on sep s1) as [| t ts]; [contradiction | reflexivity].
Qed.

Lemma all_chars_app (p : ascii -> bool) (s1 s2 : string) :
  all_chars p (s1 ++ s2) = all_chars p s1 && all_chars p s2.
Proof.
  induction s1 as [| c s1 IH]; [reflexivity |].
  cbn. now rewrite IH, andb_assoc.
Qed.

(** *** Texts and their bytes *)

Lemma bytes_app (s1 s2 : string) :
  list_ascii_of_string (s1 ++ s2) = list_ascii_of_string s1 ++ list_ascii_of_string s2.
Proof. induction s1 as [| c s1 IH]; cbn; [reflexivity | now rewrite IH]. Qed.

Lemma text_app (l1 l2 : list ascii) :
  string_of_list_ascii (l1 ++ l2)
  = (string_of_list_ascii l1 ++ string_of_list_ascii l2)%string.
Proof. induction l1 as [| c l1 IH]; cbn; [reflexivity | now rewrite IH]. Qed.

(** *** White space *)

Lemma space2_bytes (c1 c2 : ascii) :
  space2 c1 c2 = true ->
  space1 c1 = false /\ space1 c2 = false /\ (forall c, space2 c2 c = false).
Proof.
  unfold space1, space2. cbv zeta. intros H. bool_to_prop H.
  split; [| split; [| intros c]]; apply not_true_is_false; intros H';
    bool_to_prop H'; lia.
Qed.

Lemma space3_bytes (c1 c2 c3 : ascii) :
  space3 c1 c2 c3 = true ->
  space1 c1 = false /\ space1 c3 = false /\
  (forall c, space2 c1 c = false) /\ (forall c, space2 c2 c = false).
Proof.
  unfold space1, space2, space3. cbv zeta. intros H. bool_to_prop H.
  split; [| split; [| split; intros c]]; apply not_true_is_false; intros H';
    bool_to_prop H'; lia.
Qed.

Lemma drop_spaces_unfold (back : bool) (l : list ascii) :
  drop_spaces back l =
    match behind_space back l with
    | Some rest => drop_spaces back rest
    | None => l
    end.
Proof.
  destruct l as [| c1 l1]; [reflexivity |].
  cbn [drop_spaces behind_space].
  destruct (space1 c1); [reflexivity |].
  destruct l1 as [| c2 l2]; [reflexivity |]. cbv beta iota.
  destruct (if back then space2 c2 c1 else space2 c1 c2); [reflexivity |].
  destruct l2 as [| c3 l3]; [reflexivity |]. cbv beta iota.
  destruct (if back then space3 c3 c2 c1 else space3 c1 c2 c3); reflexivity.
Qed.

Lemma spaces_from_app (back : bool) (l1 l2 : list ascii) :
  spaces_from back l1 -> spaces_from back l2 -> spaces_from back (l1 ++ l2).
Proof.
  intros H1 H2. induction H1; cbn [app]; try assumption; now constructor.
Qed.

(** What a leading white space character looks like. *)
Lemma behind_space_spec (back : bool) (l rest : list ascii) :
  behind_space back l = Some rest ->
  exists w, l = w ++ rest /\ spaces_from back w /\ (List.length rest < List.length l)%nat.
Proof.
  destruct l as [| c1 l1]; cbn [behind_space]; [discriminate |].
  destruct (space1 c1) eqn:S1.
  { intros [= <-]. exists [c1]. split; [reflexivity | split; [| cbn; lia]].
    now repeat constructor. }
  destruct l1 as [| c2 l2]; [discriminate |].
  destruct (if back then space2 c2 c1 else space2 c1 c2) eqn:S2.
  { intros [= <-]. exists [c1; c2]. split; [reflexivity | split; [| cbn; lia]].
    apply spaces_two; [exact S2 | constructor]. }
  destruct l2 as [| c3 l3]; [discriminate |].
  destruct (if back then space3 c3 c2 c1 else space3 c1 c2 c3) eqn:S3; [| discriminate].
  intros [= <-]. exists [c1; c2; c3]. split; [reflexivity | split; [| cbn; lia]].
  apply spaces_three; [exact S3 | constructor].
Qed.

(** A text that starts with white space still does when it is extended. *)
Lemma behind_space_app (back : bool) (l p : list ascii) :
  behind_space back (l ++ p) = None -> behind_space back l = None.
Proof.
  destruct l as [| c1 l1]; [reflexivity |].
  cbn [behind_space app].
  destruct (space1 c1); [discriminate |].
  destruct l1 as [| c2 l2]; [reflexivity |]. cbn [app]. cbv beta iota.
  destruct (if back then space2 c2 c1 else space2 c1 c2); [discriminate |].
  destruct l2 as [| c3 l3]; [reflexivity |]. cbn [app]. cbv beta iota.
  destruct (if back then space3 c3 c2 c1 else space3 c1 c2 c3);
    [discriminate | reflexivity].
Qed.

(** [drop_spaces] removes white space, and all of it. *)
Lemma drop_spaces_spec (back : bool) (l : list ascii) :
  exists pre,
    l = pre ++ drop_spaces back l /\ spaces_from back pre /\
    behind_space back (drop_spaces back l) = None.
Proof.
  assert (H : forall n l, (List.length l <= n)%nat ->
            exists pre,
              l = pre ++ drop_spaces back l /\ spaces_from back pre /\
              behind_space back (drop_spaces back l) = None).
  { clear l. induction n as [| n IH]; intros l Hl; rewrite drop_spaces_unfold;
      destruct (behind_space back l) as [rest |] eqn:E.
    - apply behind_space_spec in E. destruct E as [w [_ [_ Hlt]]]. lia.
    - exists []. split; [reflexivity | split; [constructor | exact E]].
    - apply behind_space_spec in E. destruct E as [w [El [Hw Hlt]]].
      destruct (IH rest) as [pre [Er [Hp Hb]]]; [lia |].
      exists (w ++ pre). split; [| split; [now apply spaces_from_app | exact Hb]].
      rewrite <- app_assoc, <- Er. exact El.
    - exists []. split; [reflexivity | split; [constructor | exact E]]. }
  exact (H (List.length l) l (le_n _)).
Qed.

Lemma drop_spaces_fixed (back : bool) (l : list ascii) :
  behind_space back l = None -> drop_spaces back l = l.
Proof. intros H. now rewrite drop_spaces_unfold, H. Qed.

(** White space read from the end is white space. *)
Lemma spaces_from_rev (l : list ascii) :
  spaces_from true l -> spaces_from false (rev l).
Proof.
  induction 1 as [| c l Hc _ IH | c1 c2 l Hc _ IH | c1 c2 c3 l Hc _ IH];
    cbn [rev]; rewrite <- ?app_assoc; cbn [app].
  - constructor.
  - apply spaces_from_app; [exact IH |]. now repeat constructor.
  - apply spaces_from_app; [exact IH |]. apply spaces_two; [exact Hc | constructor].
  - apply spaces_from_app; [exact IH |]. apply spaces_three; [exact Hc | constructor].
Qed.

(** A text of white space only is dropped altogether. *)
Lemma drop_spaces_blank (l : list ascii) :
  spaces_from false l -> drop_spaces false l = [].
Proof.
  induction 1 as [| c l Hc _ IH | c1 c2 l Hc _ IH | c1 c2 c3 l Hc _ IH].
  - reflexivity.
  - cbn [drop_spaces]. now rewrite Hc.
  - destruct (space2_bytes _ _ Hc) as [H1 _].
    cbn [drop_spaces]. now rewrite H1, Hc.
  - destruct (space3_bytes _ _ _ Hc) as [H1 [_ [H2 _]]].
    cbn [drop_spaces]. now rewrite H1, H2, Hc.
Qed.

(** *** Trimming *)

(** [strip] on the bytes of a text. *)
Lemma strip_bytes (s : string) :
  list_ascii_of_string (strip s)
  = rstrip_bytes (lstrip_bytes (list_ascii_of_string s)).
Proof. unfold strip. apply list_ascii_of_string_of_list_ascii. Qed.

Lemma strip_bytes_spec (l : list ascii) :
  exists pre post,
    l = pre ++ rstrip_bytes (lstrip_bytes l) ++ post /\
    spaces_from false pre /\ spaces_from false post /\
    behind_space false (rstrip_bytes (lstrip_bytes l)) = None /\
    behind_space true (rev (rstrip_bytes (lstrip_bytes l))) = None.
Proof.
  unfold lstrip_bytes, rstrip_bytes.
  destruct (drop_spaces_spec false l) as [pre [E1 [H1 B1]]].
  set (t := drop_spaces false l) in *.
  destruct (drop_spaces_spec true (rev t)) as [post' [E2 [H2 B2]]].
  set (u' := drop_spaces true (rev t)) in *.
  assert (Et : t = rev u' ++ rev post').
  { rewrite <- rev_app_distr, <- E2. symmetry. apply rev_involutive. }
  exists pre, (rev post'). split; [now rewrite <- Et |].
  split; [exact H1 | split; [now apply spaces_from_rev | split]].
  - apply (behind_space_app false (rev u') (rev post')). now rewrite <- Et.
  - now rewrite rev_involutive.
Qed.

(** [strip] removes white space at both ends, and nothing else. *)
Lemma strip_spec (s : string) :
  (exists pre post, s = (pre ++ strip s ++ post)%string /\ spaces pre /\ spaces post) /\
  starts_with_space (strip s) = false /\
  ends_with_space (strip s) = false.
Proof.
  destruct (strip_bytes_spec (list_ascii_of_string s))
    as [pre [post [E [H1 [H2 [B1 B2]]]]]].
  rewrite <- strip_bytes in E, B1, B2.
  split; [| split].
  - exists (string_of_list_ascii pre), (string_of_list_ascii post).
    split; [| split].
    + apply (f_equal string_of_list_ascii) in E.
      rewrite !text_app, !string_of_list_ascii_of_string in E. exact E.
    + unfold spaces. now rewrite list_ascii_of_string_of_list_ascii.
    + unfold spaces. now rewrite list_ascii_of_string_of_list_ascii.
  - unfold starts_with_space. now rewrite B1.
  - unfold ends_with_space. now rewrite B2.
Qed.

(** Trimming twice is trimming once. *)
Lemma strip_idempotent (s : string) : strip (strip s) = strip s.
Proof.
  destruct (strip_bytes_spec (list_ascii_of_string s)) as [_ [_ [_ [_ [_ [B1 B2]]]]]].
  rewrite <- strip_bytes in B1, B2.
  unfold strip at 1. unfold lstrip_bytes, rstrip_bytes.
  rewrite (drop_spaces_fixed _ _ B1), (drop_spaces_fixed _ _ B2), rev_involutive.
  apply string_of_list_ascii_of_string.
Qed.

(** A text is trimmed to nothing exactly when it is white space only. *)
Lemma strip_blank (s : string) : spaces s <-> strip s = EmptyString.
Proof.
  split.
  - intros H. unfold strip, lstrip_bytes. now rewrite (drop_spaces_blank H).
  - intros E. destruct (strip_spec s) as [[pre [post [Es [Hpre Hpost]]]] _].
    rewrite E in Es. rewrite Es. unfold spaces in *. rewrite bytes_app.
    cbn [String.append]. now apply spaces_from_app.
Qed.

Lemma all_chars_strip (p : ascii -> bool) (s : string) :
  all_chars p s = true -> all_chars p (strip s) = true.
Proof.
  intros H. destruct (strip_spec s) as [[pre [post [Es _]]] _].
  rewrite Es, !all_chars_app in H.
  apply andb_true_iff in H. destruct H as [_ H].
  apply andb_true_iff in H. now destruct H.
Qed.

(** *** Tokens *)

Lemma tokens_app (s1 s2 : string) :
  tokens (s1 ++ String "," s2) = tokens s1 ++ tokens s2.
Proof.
  unfold tokens, tokens_of. now rewrite split_on_app, map_app, filter_app.
Qed.

(** Every token is clean: not empty, trimmed, and free of commas. *)
Lemma tokens_clean (s : string) :
  Forall (fun t => t <> EmptyString /\ strip t = t /\
                   all_chars (fun c => negb (Ascii.eqb c ",")) t = true)
         (tokens s).
Proof.
  unfold tokens, tokens_of. apply Forall_forall. intros t Ht.
  apply filter_In in Ht. destruct Ht as [Ht Hne].
  apply in_map_iff in Ht. destruct Ht as [part [<- Hpart]].
  split; [| split].
  - intros E. now rewrite E in Hne.
  - apply strip_idempotent.
  - apply all_chars_strip.
    pose proof (split_on_no_sep "," s) as Hns.
    rewrite Forall_forall in Hns. now apply Hns.
Qed.

Lemma tokens_of_nil (parts : list string) :
  tokens_of parts = [] <-> Forall spaces parts.
Proof.
  unfold tokens_of. induction parts as [| t ts IH]; cbn [map filter].
  - split; intros; [constructor | reflexivity].
  - destruct (String.eqb (strip t) EmptyString) eqn:He; cbn [negb].
    + apply String.eqb_eq in He. rewrite IH. split; intros H.
      * constructor; [now apply strip_blank | exact H].
      * now inversion H.
    + split; [discriminate |]. intros H. inversion H as [| ? ? Ht Hts]; subst.
      apply strip_blank in Ht. rewrite Ht in He. discriminate.
Qed.

(** The warning names the token it is about. *)
Lemma warning_names_token (part : string) :
  exists pre post, warning_text part = (pre ++ part ++ post)%string.
Proof. unfold warning_text. eauto. Qed.

Lemma parse_examples_binary64 :
  parse_numbers float_of_string "4, abc, 7" =
    ([SidebarWarning (warning_text "abc")], Done [4%float; 7%float])
  /\ parse_numbers float_of_string "4,, ,7," = ([], Done [4%float; 7%float])
  /\ parse_numbers float_of_string ("4," ++ nbsp ++ ",7") = ([], Done [4%float; 7%float])
  /\ parse_numbers float_of_string "x, 1, y y, 2,z" =
       ([SidebarWarning (warning_text "x"); SidebarWarning (warning_text "y y");
         SidebarWarning (warning_text "z")],
        Done [1%float; 2%float])
  /\ strip (String (ascii_of_nat 9) " " ++ nbsp ++ "4 7" ++ ideographic_space
            ++ em_space ++ String (ascii_of_nat 10) EmptyString) = "4 7"%string
  /\ tokens ("4," ++ nbsp ++ ", abc ,,7") = ["4"; "abc"; "7"]%string.
Proof.
  split; [| split; [| split; [| split; [| split]]]]; vm_compute; reflexivity.
Qed.

(** C4: for every input text, whatever [float] accepts, the parser splits the
    text on commas, trims white space (that of Unicode), drops the tokens
    that are empty without a word, and returns the values of the tokens that
    convert in the order of the tokens; it emits exactly one warning, naming
    the token, for each token that does not convert, and goes on with the
    remaining tokens.  Parsing "4, abc, 7" yields [4.0, 7.0] and one warning
    naming "abc". *)
Theorem parse_numbers_spec :
  (forall (F : Type) (py_float : string -> option F) (raw_text : string),
     parse_numbers py_float raw_text =
       (map (fun t => SidebarWarning (warning_text t))
            (rejected py_float (tokens raw_text)),
        Done (converted py_float (tokens raw_text)))
     /\ (List.length (converted py_float (tokens raw_text))
         + List.length (rejected py_float (tokens raw_text))
         = List.length (tokens raw_text))%nat)
  /\ (forall raw_text : string,
        tokens raw_text =
          filter (fun t => negb (String.eqb t EmptyString))
                 (map strip (split_on "," raw_text))
        /\ Forall (fun t => t <> EmptyString /\ strip t = t /\
                            all_chars (fun c => negb (Ascii.eqb c ",")) t = true)
                  (tokens raw_text)
        /\ join "," (split_on "," raw_text) = raw_text
        /\ Forall (fun t => all_chars (fun c => negb (Ascii.eqb c ",")) t = true)
                  (split_on "," raw_text))
  /\ (forall s : string,
        (exists pre post,
           s = (pre ++ strip s ++ post)%string /\ spaces pre /\ spaces post) /\
        starts_with_space (strip s) = false /\
        ends_with_space (strip s) = false)
  /\ (forall part : string, exists pre post, warning_text part = (pre ++ part ++ post)%string)
  /\ (parse_numbers float_of_string "4, abc, 7" =
        ([SidebarWarning (warning_text "abc")], Done [4%float; 7%float])
      /\ parse_numbers float_of_string "4,, ,7," = ([], Done [4%float; 7%float])
      /\ parse_numbers float_of_string ("4," ++ nbsp ++ ",7") = ([], Done [4%float; 7%float])
      /\ parse_numbers float_of_string "x, 1, y y, 2,z" =
           ([SidebarWarning (warning_text "x"); SidebarWarning (warning_text "y y");
             SidebarWarning (warning_text "z")],
            Done [1%float; 2%float])
      /\ strip (String (ascii_of_nat 9) " " ++ nbsp ++ "4 7" ++ ideographic_space
                ++ em_space ++ String (ascii_of_nat 10) EmptyString) = "4 7"%string
      /\ tokens ("4," ++ nbsp ++ ", abc ,,7") = ["4"; "abc"; "7"]%string).
Proof.
  split; [| split; [| split; [| split]]].
  - intros F py_float raw_text. split.
    + apply parse_numbers_run.
    + apply converted_rejected_length.
  - intros raw_text. split; [reflexivity | split; [| split]].
    + apply tokens_clean.
    + apply join_split_on.
    + apply split_on_no_sep.
  - exact strip_spec.
  - exact warning_names_token.
  - exact parse_examples_binary64.
Qed.

(** ** The radial grid *)

Section ExactGrid.
Local Open Scope R_scope.

(** In exact arithmetic the grid is the arithmetic progression from [start]
    with step (stop - start) / (num - 1): the last point needs no fixing. *)
Lemma linspace_exact (start stop : R) (num : nat) :
  (2 <= num)%nat ->
  linspace start stop num =
    map (fun i => start + INR i * ((stop - start) / INR (num - 1))) (seq 0 num).
Proof.
  intros Hn. unfold linspace, of_nat. exact_arith.
  assert (Hlt : (0 <? num - 1)%nat = true) by (apply Nat.ltb_lt; lia).
  assert (Hlt1 : (1 <? num)%nat = true) by (apply Nat.ltb_lt; lia).
  rewrite Hlt, Hlt1.
  assert (Hd : INR (num - 1) <> 0) by (apply not_0_INR; lia).
  set (step := (stop - start) / INR (num - 1)).
  assert (Ey : (if Reqb ((stop - start) / IZR (Z.of_nat (num - 1))) 0
                then map (fun yi => yi / IZR (Z.of_nat (num - 1)) * (stop - start))
                       (map (fun i => IZR (Z.of_nat i)) (seq 0 num))
                else map (fun yi => yi * ((stop - start) / IZR (Z.of_nat (num - 1))))
                       (map (fun i => IZR (Z.of_nat i)) (seq 0 num)))
               = map (fun i => INR i * step) (seq 0 num)).
  { rewrite <- !INR_IZR_INZ. fold step.
    destruct (Reqb step 0); rewrite map_map; apply map_ext; intros i;
      rewrite <- INR_IZR_INZ; unfold step; field; exact Hd. }
  rewrite Ey, map_map. clear Ey.
  destruct num as [| [| m]]; [lia | lia |].
  rewrite (seq_S (S m) 0), !map_app. cbn [map Nat.add].
  unfold set_last.
  destruct (map (fun x => INR x * step + start) (seq 0 (S m)) ++
            [INR (S m) * step + start]) eqn:El.
  { destruct (map (fun x => INR x * step + start) (seq 0 (S m))); discriminate. }
  rewrite <- El, removelast_last. f_equal.
  - apply map_ext. intros i. ring.
  - f_equal. unfold step. replace (S (S m) - 1)%nat with (S m) by lia.
    field. apply not_0_INR. lia.
Qed.

Lemma linspace_nth (start stop : R) (num i : nat) :
  (2 <= num)%nat -> (i < num)%nat ->
  nth i (linspace start stop num) 0 = start + INR i * ((stop - start) / INR (num - 1)).
Proof.
  intros Hn Hi. rewrite linspace_exact by exact Hn.
  set (f := fun i => start + INR i * ((stop - start) / INR (num - 1))).
  rewrite (nth_indep _ 0 (f 0%nat)) by (rewrite length_map, length_seq; exact Hi).
  rewrite map_nth, seq_nth by exact Hi. reflexivity.
Qed.

Lemma linspace_length (start stop : R) (num : nat) :
  (2 <= num)%nat -> List.length (linspace start stop num) = num.
Proof.
  intros Hn. rewrite linspace_exact by exact Hn.
  now rewrite length_map, length_seq.
Qed.

End ExactGrid.

Section ExactGridInvariants.
Local Open Scope R_scope.

Lemma num_points_ge_2 : (2 <= num_points)%nat.
Proof. unfold num_points. lia. Qed.

Lemma INR_num_points_pred : INR (num_points - 1) = 2999.
Proof. rewrite INR_IZR_INZ. reflexivity. Qed.

Lemma grid_nth (r_min r_max : R) (i : nat) :
  (i < 3000)%nat ->
  nth i (linspace r_min r_max num_points) 0 = r_min + INR i * ((r_max - r_min) / 2999).
Proof.
  intros Hi. rewrite linspace_nth by (try apply num_points_ge_2; exact Hi).
  now rewrite INR_num_points_pred.
Qed.

Lemma grid_last (r_min r_max : R) :
  last (linspace r_min r_max num_points) 0 = r_max.
Proof.
  rewrite linspace_exact by apply num_points_ge_2.
  rewrite INR_num_points_pred.
  change num_points with (S 2999). rewrite seq_S, map_app. cbn [map].
  rewrite last_last. cbn [Nat.add].
  replace (INR 2999) with 2999 by (rewrite INR_IZR_INZ; reflexivity).
  field.
Qed.

End ExactGridInvariants.

Lemma grid_invariants_exact (r_min r_max : R) :
  (0 < r_min)%R -> (r_min < r_max)%R ->
  let r_over_GM := linspace r_min r_max num_points in
  let r := map (fun x => x * GM)%py r_over_GM in
  let step := ((r_max - r_min) / 2999)%R in
  List.length r_over_GM = 3000%nat /\
  nth 0 r_over_GM 0%R = r_min /\
  last r_over_GM 0%R = r_max /\
  (0 < step)%R /\
  (forall i, (i < 2999)%nat ->
     (nth (S i) r_over_GM 0 - nth i r_over_GM 0 = step)%R) /\
  (forall i j, (i < j < 3000)%nat ->
     (nth i r_over_GM 0 < nth j r_over_GM 0)%R) /\
  r = r_over_GM /\
  Forall (fun x => (0 < x)%R /\ (x ** 1)%py <> 0%R /\
                   (x ** 2)%py <> 0%R /\ (x ** 3)%py <> 0%R) r.
Proof.
  intros Hmin Hlt r_over_GM r step.
  assert (Hstep : (0 < step)%R) by (apply Rdiv_lt_0_compat; lra).
  assert (Hlen : List.length r_over_GM = 3000%nat)
    by (apply linspace_length, num_points_ge_2).
  assert (Hr : r = r_over_GM).
  { unfold r. rewrite <- (map_id r_over_GM) at 2. apply map_ext.
    intros x. unfold GM. exact_arith. ring. }
  assert (Hpos : forall i, (i < 3000)%nat -> (0 < nth i r_over_GM 0)%R).
  { intros i Hi. unfold r_over_GM. rewrite grid_nth by exact Hi. fold step.
    pose proof (pos_INR i). nra. }
  split; [exact Hlen |]. split.
  { unfold r_over_GM. rewrite grid_nth by lia. cbn [INR]. lra. }
  split; [apply grid_last |]. split; [exact Hstep |]. split.
  { intros i Hi. unfold r_over_GM. rewrite !grid_nth by lia. fold step.
    rewrite S_INR. ring. }
  split.
  { intros i j [Hij Hj]. unfold r_over_GM. rewrite !grid_nth by lia. fold step.
    apply lt_INR in Hij. nra. }
  split; [exact Hr |]. rewrite Hr. apply Forall_forall. intros x Hx.
  destruct (In_nth _ _ 0%R Hx) as [i [Hi <-]]. rewrite Hlen in Hi.
  specialize (Hpos i Hi). exact_arith.
  set (y := nth i r_over_GM 0%R) in *.
  assert (H2 : (0 < y * y)%R) by nra.
  assert (H3 : (0 < y * (y * y))%R) by nra.
  repeat split; lra.
Qed.

Lemma default_grids_binary64 :
  (let g := linspace 2.5%float 500%float num_points in
   List.length g = 3000%nat /\ hd_error g = Some 2.5%float /\
   last g 0%float = 500%float /\ strictly_increasing g = true /\
   forallb (fun x => PrimFloat.ltb 0 x) (map (fun x => x * GM)%py g) = true)
  /\ (let g := linspace 1.5%float 15%float num_points in
      List.length g = 3000%nat /\ hd_error g = Some 1.5%float /\
      last g 0%float = 15%float /\ strictly_increasing g = true /\
      forallb (fun x => PrimFloat.ltb 0 x) (map (fun x => x * GM)%py g) = true).
Proof. vm_compute. repeat split. Qed.

(** C9: for every r_min and r_max with 0 < r_min < r_max the radial grid has
    exactly N = 3000 points, starts at r_min, ends at r_max, is evenly spaced
    (consecutive points differ by (r_max - r_min) / 2999 > 0) and strictly
    increasing; every radius the evaluators receive is positive, so r, r^2 and
    r^3 are never zero.  In binary64 the grids of the two default windows have
    3000 points, the stated end points, and are strictly increasing and
    positive. *)
Theorem radial_grid_invariants :
  (forall r_min r_max : R,
     (0 < r_min)%R -> (r_min < r_max)%R ->
     let r_over_GM := linspace r_min r_max num_points in
     let r := map (fun x => x * GM)%py r_over_GM in
     let step := ((r_max - r_min) / 2999)%R in
     List.length r_over_GM = 3000%nat /\
     nth 0 r_over_GM 0%R = r_min /\
     last r_over_GM 0%R = r_max /\
     (0 < step)%R /\
     (forall i, (i < 2999)%nat ->
        (nth (S i) r_over_GM 0 - nth i r_over_GM 0 = step)%R) /\
     (forall i j, (i < j < 3000)%nat ->
        (nth i r_over_GM 0 < nth j r_over_GM 0)%R) /\
     r = r_over_GM /\
     Forall (fun x => (0 < x)%R /\ (x ** 1)%py <> 0%R /\
                      (x ** 2)%py <> 0%R /\ (x ** 3)%py <> 0%R) r)
  /\ (let g := linspace 2.5%float 500%float num_points in
      List.length g = 3000%nat /\ hd_error g = Some 2.5%float /\
      last g 0%float = 500%float /\ strictly_increasing g = true /\
      forallb (fun x => PrimFloat.ltb 0 x) (map (fun x => x * GM)%py g) = true)
  /\ (let g := linspace 1.5%float 15%float num_points in
      List.length g = 3000%nat /\ hd_error g = Some 1.5%float /\
      last g 0%float = 15%float /\ strictly_increasing g = true /\
      forallb (fun x => PrimFloat.ltb 0 x) (map (fun x => x * GM)%py g) = true).
Proof.
  split; [exact grid_invariants_exact | exact default_grids_binary64].
Qed.

Lemma radial_grid_invariants_witness :
  (0 < 1)%R /\ (1 < 2)%R /\
  List.length (linspace (F:=R) 1%R 2%R num_points) = 3000%nat.
Proof.
  split; [lra | split; [lra |]].
  apply (proj1 radial_grid_invariants 1%R 2%R); lra.
Defined.

(** ** Script runs *)

Section ScriptFacts.
Context {F : Type}.

Lemma sbind_done {A B : Type} (es : list (Event F)) (a : A) (k : A -> script F B) :
  sbind (es, Done a) k = (es ++ fst (k a), snd (k a)).
Proof. reflexivity. Qed.

Lemma sbind_crashed {A B : Type} (es : list (Event F)) (e : exn) (k : A -> script F B) :
  sbind (es, Crashed e) k = (es, Crashed e).
Proof. reflexivity. Qed.

Lemma for_each_emit {A : Type} (f : A -> Event F) (xs : list A) :
  for_each xs (fun x => emit (f x)) = (map f xs, Done tt).
Proof.
  unfold for_each. induction xs as [| x xs IH]; [reflexivity |].
  cbn [foldM]. unfold emit at 1. rewrite sbind_done, IH. reflexivity.
Qed.

Lemma for_each_events {A : Type} (f : A -> Event F) (xs : list A) :
  for_each xs (fun x => ([f x], Done tt)) = (map f xs, Done tt).
Proof. exact (for_each_emit f xs). Qed.

(** A loop whose body never calls [st.stop()] does not stop. *)
Lemma foldM_not_stopped {A S : Type} (body : S -> A -> script F S) (xs : list A) (s : S) :
  (forall s x, snd (body s x) <> Stopped) -> snd (foldM body xs s) <> Stopped.
Proof.
  intros Hb. revert s. induction xs as [| x xs IH]; intros s; [discriminate |].
  cbn [foldM]. unfold sbind. specialize (Hb s x).
  destruct (body s x) as [es [s' | e |]]; cbn [fst snd] in *;
    [apply IH | discriminate | contradiction].
Qed.

(** The events of a loop are events of its turns. *)
Lemma foldM_events {A S : Type} (P : Event F -> Prop)
    (body : S -> A -> script F S) (xs : list A) (s : S) :
  (forall s x ev, In ev (fst (body s x)) -> P ev) ->
  forall ev, In ev (fst (foldM body xs s)) -> P ev.
Proof.
  intros Hb. revert s. induction xs as [| x xs IH]; intros s ev; [contradiction |].
  cbn [foldM]. unfold sbind. specialize (Hb s x).
  destruct (body s x) as [es [s' | e |]]; cbn [fst snd] in *;
    [| now apply Hb | now apply Hb].
  intros Hin. apply in_app_or in Hin. destruct Hin as [Hin | Hin];
    [now apply Hb | now apply (IH s')].
Qed.

End ScriptFacts.

Section ScriptRuns.
Context {F : Type} {PF : PyFloat F}.
Variable py_float : string -> option F.
Local Open Scope py_scope.

Lemma set_ylim_done (inp : Inputs F) : snd (set_ylim inp) = Done tt.
Proof. unfold set_ylim. destruct (y_limits inp) as [[lo hi] |]; reflexivity. Qed.

Lemma when_emit (b : bool) (e : Event F) :
  when b (emit e) = ((if b then [e] else []), Done tt).
Proof. now destruct b. Qed.

(** The curves on the grid once [l ** 2] is known. *)
Lemma V_eff_grid_value (r : list F) (GM l l_sq : F) :
  py_pow l 2 = Ok l_sq ->
  V_eff_grid r GM l =
    Ok (map (fun x => - GM / x + half * l_sq / fpow_array x 2
                      - GM * l_sq / fpow_array x 3) r) /\
  V_eff_newton_grid r GM l =
    Ok (map (fun x => - GM / x + half * l_sq / fpow_array x 2) r).
Proof. intros Hl. unfold V_eff_grid, V_eff_newton_grid. now rewrite Hl. Qed.

Lemma V_eff_grid_raises (r : list F) (GM l : F) (e : exn) :
  py_pow l 2 = Raise e ->
  V_eff_grid r GM l = Raise e /\ V_eff_newton_grid r GM l = Raise e.
Proof. intros Hl. unfold V_eff_grid, V_eff_newton_grid. now rewrite Hl. Qed.

(** One turn of the loop over [l_list]: nothing when [l ** 2] overflows;
    otherwise the curve(s), then either the markers of the extrema or the
    exception of [find_extrema]. *)
Lemma plot_momentum_run (inp : Inputs F) (r_over_GM r : list F) (r_min r_max : F)
    (extrema_info : list (F * ExtremumPoint F)) (l : F) :
  plot_momentum inp r_over_GM r r_min r_max extrema_info l =
    match V_eff_grid r GM l, V_eff_newton_grid r GM l with
    | Ok V, Ok V_newt =>
        (PlotCurve (Relativistic l) r_over_GM V
           :: (if show_newtonian inp then [PlotCurve (Newtonian l) r_over_GM V_newt] else [])
           ++ match find_extrema GM l r_min r_max with
              | Ok points =>
                  map (fun p => PlotMarker (kind p) (radius p / GM) (potential p)) points
              | Raise _ => []
              end,
         match find_extrema GM l r_min r_max with
         | Ok points => Done (extrema_info ++ map (fun p => (l, p)) points)
         | Raise e => Crashed e
         end)
    | Raise e, _ => ([], Crashed e)
    | Ok V, Raise e => ([], Crashed e)
    end.
Proof.
  unfold plot_momentum.
  destruct (py_pow l 2) as [l_sq | e] eqn:Hl.
  - destruct (V_eff_grid_value r GM l Hl) as [-> ->].
    destruct (show_newtonian inp), (find_extrema GM l r_min r_max) as [points | e];
      unfold sbind, lift, emit, ret; cbn [fst snd app];
      rewrite ?for_each_events; cbn [fst snd app];
      rewrite ?app_nil_r; reflexivity.
  - destruct (V_eff_grid_raises r GM l Hl) as [-> ->]. reflexivity.
Qed.

(** The last case above does not occur: the Newtonian curve raises only when
    the relativistic one does. *)
Lemma grids_raise_together (r : list F) (GM l : F) :
  match V_eff_grid r GM l, V_eff_newton_grid r GM l with
  | Ok _, Ok _ => True
  | Raise e, Raise e' => e = e'
  | _, _ => False
  end.
Proof.
  destruct (py_pow l 2) as [l_sq | e] eqn:Hl.
  - now destruct (V_eff_grid_value r GM l Hl) as [-> ->].
  - now destruct (V_eff_grid_raises r GM l Hl) as [-> ->].
Qed.

Lemma plot_momentum_not_stopped (inp : Inputs F) (r_over_GM r : list F) (r_min r_max : F)
    (extrema_info : list (F * ExtremumPoint F)) (l : F) :
  snd (plot_momentum inp r_over_GM r r_min r_max extrema_info l) <> Stopped.
Proof.
  rewrite plot_momentum_run.
  destruct (V_eff_grid r GM l), (V_eff_newton_grid r GM l); cbn [snd];
    try discriminate.
  destruct (find_extrema GM l r_min r_max); discriminate.
Qed.

(** A turn of the loop plots curves and markers, nothing else. *)
Lemma plot_momentum_events (inp : Inputs F) (r_over_GM r : list F) (r_min r_max : F)
    (extrema_info : list (F * ExtremumPoint F)) (l : F) (ev : Event F) :
  In ev (fst (plot_momentum inp r_over_GM r r_min r_max extrema_info l)) ->
  (exists c xs ys, ev = PlotCurve c xs ys) \/ (exists k x y, ev = PlotMarker k x y).
Proof.
  rewrite plot_momentum_run.
  destruct (V_eff_grid r GM l), (V_eff_newton_grid r GM l); cbn [fst];
    try contradiction.
  intros [<- | Hin]; [left; eauto |].
  apply in_app_or in Hin. destruct Hin as [Hin | Hin].
  - destruct (show_newtonian inp); [| contradiction].
    destruct Hin as [<- | []]. left; eauto.
  - destruct (find_extrema GM l r_min r_max); [| contradiction].
    apply in_map_iff in Hin. destruct Hin as [p [<- _]]. right; eauto.
Qed.

Lemma plot_energy_level_run (b : F) :
  plot_energy_level b =
    match classify_impact_parameter b GM with
    | Ok c => ([AxHLine c], Done tt)
    | Raise e => ([], Crashed e)
    end.
Proof.
  unfold plot_energy_level.
  destruct (classify_impact_parameter b GM) as [c | e]; reflexivity.
Qed.

Lemma plot_energy_level_not_stopped (u : unit) (b : F) :
  snd (plot_energy_level b) <> Stopped.
Proof.
  rewrite plot_energy_level_run.
  destruct (classify_impact_parameter b GM); discriminate.
Qed.

Lemma photon_landmarks_run (r_min r_max : F) :
  photon_landmarks r_min r_max =
    ((if between r_min (#3 * GM) r_max
      then [PlotMarker KMax (#3 * GM / GM) (V_eff_photon (#3 * GM) GM);
            AxVLine PhotonOrbit (#3 * GM / GM)]
      else [])
     ++ (if between r_min (#2 * GM) r_max then [AxVLine Horizon (#2 * GM / GM)] else []),
     Done tt).
Proof.
  unfold photon_landmarks.
  destruct (between r_min (#3 * GM) r_max), (between r_min (#2 * GM) r_max); reflexivity.
Qed.

(** The run of the photon script, stage by stage. *)
Lemma photon_script_run (inp : Inputs F) :
  let r_min := r_min_slider inp * GM in
  let r_max := r_max_slider inp * GM in
  let r_over_GM := linspace r_min r_max num_points in
  let r := map (fun x => x * GM) r_over_GM in
  let warnings :=
    map (fun t => SidebarWarning (warning_text t))
        (rejected py_float (tokens (text inp))) in
  let b_list := converted py_float (tokens (text inp)) in
  let levels := for_each b_list plot_energy_level in
  photon_script py_float inp =
    match b_list with
    | [] =>
        (warnings ++ [StError "Por favor ingresa al menos un valor válido para $b$."],
         Stopped)
    | _ :: _ =>
        (warnings
           ++ PlotCurve PhotonRelativistic r_over_GM (V_eff_photon_grid r GM)
           :: (if show_newtonian inp
               then [PlotCurve PhotonNewtonian r_over_GM (V_eff_newton_photon_grid r)]
               else [])
           ++ fst (photon_landmarks r_min r_max)
           ++ fst levels
           ++ match snd levels with
              | Done _ => fst (set_ylim inp) ++ [Pyplot]
              | _ => []
              end,
         match snd levels with
         | Done _ => Done tt
         | Crashed e => Crashed e
         | Stopped => Stopped
         end)
    end.
Proof.
  intros r_min r_max r_over_GM r warnings b_list levels.
  unfold photon_script. rewrite parse_numbers_run, sbind_done.
  fold r_min r_max r_over_GM r. subst warnings levels b_list. cbn [fst snd].
  destruct (converted py_float (tokens (text inp))) as [| b bs] eqn:Eb;
    [reflexivity |].
  rewrite <- Eb. clear Eb.
  set (levels := for_each (converted py_float (tokens (text inp))) plot_energy_level).
  unfold emit at 1. rewrite when_emit, photon_landmarks_run.
  pose proof (set_ylim_done inp) as Hy.
  destruct (set_ylim inp) as [ys yend]. cbn [snd] in Hy. subst yend.
  destruct levels as [evs [[] | e |]];
    repeat (rewrite ?sbind_done, ?sbind_crashed; cbn [fst snd emit sbind]);
    now rewrite ?app_nil_r, <- ?app_assoc.
Qed.

End ScriptRuns.

Section MassiveRun.
Context {F : Type} {PF : PyFloat F}.
Variable py_float : string -> option F.
Local Open Scope py_scope.

(** The run of the massive-particle script, stage by stage. *)
Lemma massive_script_run (inp : Inputs F) :
  let r_min := r_min_slider inp * GM in
  let r_max := r_max_slider inp * GM in
  let r_over_GM := linspace r_min r_max num_points in
  let r := map (fun x => x * GM) r_over_GM in
  let warnings :=
    map (fun t => SidebarWarning (warning_text t))
        (rejected py_float (tokens (text inp))) in
  let l_list := converted py_float (tokens (text inp)) in
  let curves := foldM (plot_momentum inp r_over_GM r r_min r_max) l_list [] in
  massive_script py_float inp =
    match l_list with
    | [] =>
        (warnings ++ [StError "Por favor ingresa al menos un valor válido para $\ell$."],
         Stopped)
    | _ :: _ =>
        (warnings
           ++ fst curves
           ++ match snd curves with
              | Done extrema_info =>
                  (if between r_min (#2 * GM) r_max then [AxVLine Horizon #2] else [])
                  ++ fst (set_ylim inp)
                  ++ Pyplot
                  :: map (fun i => CriticalPointInfo (fst i) (kind (snd i))
                                     (radius (snd i) / GM)) extrema_info
              | _ => []
              end,
         match snd curves with
         | Done _ => Done tt
         | Crashed e => Crashed e
         | Stopped => Stopped
         end)
    end.
Proof.
  intros r_min r_max r_over_GM r warnings l_list curves.
  unfold massive_script. rewrite parse_numbers_run, sbind_done.
  fold r_min r_max r_over_GM r. subst warnings curves l_list. cbn [fst snd].
  destruct (converted py_float (tokens (text inp))) as [| l ls] eqn:El;
    [reflexivity |].
  rewrite <- El. clear El.
  set (curves := foldM (plot_momentum inp r_over_GM r r_min r_max)
                   (converted py_float (tokens (text inp))) []).
  rewrite when_emit.
  pose proof (set_ylim_done inp) as Hy.
  destruct (set_ylim inp) as [ys yend]. cbn [snd] in Hy. subst yend.
  destruct curves as [evs [info | e |]];
    repeat (rewrite ?sbind_done, ?sbind_crashed, ?for_each_emit;
            cbn [fst snd emit sbind]);
    now rewrite ?app_nil_r, <- ?app_assoc.
Qed.

(** The loop over a non-empty [l_list] starts with the curve of its first
    value, unless the square of that value overflows: then the loop raises
    at once. *)
Lemma momenta_loop_head (inp : Inputs F) (r_over_GM r : list F) (r_min r_max : F)
    (l : F) (ls : list F) (info : list (F * ExtremumPoint F)) :
  match V_eff_grid r GM l with
  | Ok V =>
      exists evs,
        fst (foldM (plot_momentum inp r_over_GM r r_min r_max) (l :: ls) info) =
          PlotCurve (Relativistic l) r_over_GM V :: evs
  | Raise e =>
      foldM (plot_momentum inp r_over_GM r r_min r_max) (l :: ls) info
      = ([], Crashed e)
  end.
Proof.
  cbn [foldM]. rewrite plot_momentum_run.
  pose proof (grids_raise_together r GM l) as Hg.
  destruct (V_eff_grid r GM l) as [V | e], (V_eff_newton_grid r GM l) as [V_newt | e'];
    try contradiction; [| reflexivity].
  unfold sbind. cbn [fst snd].
  destruct (find_extrema GM l r_min r_max); cbn [fst snd app]; eauto.
Qed.

(** The loop plots curves and markers only. *)
Lemma momenta_loop_events (inp : Inputs F) (r_over_GM r : list F) (r_min r_max : F)
    (l_list : list F) (info : list (F * ExtremumPoint F)) (ev : Event F) :
  In ev (fst (foldM (plot_momentum inp r_over_GM r r_min r_max) l_list info)) ->
  (exists c xs ys, ev = PlotCurve c xs ys) \/ (exists k x y, ev = PlotMarker k x y).
Proof.
  apply (foldM_events
           (fun ev => (exists c xs ys, ev = PlotCurve c xs ys)
                      \/ (exists k x y, ev = PlotMarker k x y))).
  intros s x ev'. apply plot_momentum_events.
Qed.

End MassiveRun.

(** Whatever the arithmetic and whatever [float] accepts, a text none of
    whose tokens converts makes both scripts show the warnings and one error
    message and stop there: nothing is plotted.  When a value converts, the
    scripts do not stop: the warnings are followed, in the massive-particle
    script, by the curve of the first value on the grid, or by the
    OverflowError of its square; in the photon script, by the curve of the
    potential. *)
Lemma render_cycle_branches (F : Type) (PF : PyFloat F)
    (py_float : string -> option F) (inp : Inputs F) :
  let r_min := (r_min_slider inp * GM)%py in
  let r_max := (r_max_slider inp * GM)%py in
  let r_over_GM := linspace r_min r_max num_points in
  let r := map (fun x => x * GM)%py r_over_GM in
  let warnings :=
    map (fun t => SidebarWarning (warning_text t))
        (rejected py_float (tokens (text inp))) in
  match converted py_float (tokens (text inp)) with
  | [] =>
      massive_script py_float inp =
        (warnings ++ [StError "Por favor ingresa al menos un valor válido para $\ell$."],
         Stopped) /\
      photon_script py_float inp =
        (warnings ++ [StError "Por favor ingresa al menos un valor válido para $b$."],
         Stopped)
  | x :: _ =>
      (exists evs e,
         massive_script py_float inp = (warnings ++ evs, e) /\ e <> Stopped /\
         match V_eff_grid r GM x with
         | Ok V => exists evs', evs = PlotCurve (Relativistic x) r_over_GM V :: evs'
         | Raise ex => evs = [] /\ e = Crashed ex
         end) /\
      (exists evs e,
         photon_script py_float inp =
           (warnings
              ++ PlotCurve PhotonRelativistic r_over_GM (V_eff_photon_grid r GM)
              :: evs, e) /\ e <> Stopped)
  end.
Proof.
  intros r_min r_max r_over_GM r warnings.
  pose proof (massive_script_run py_float inp) as Hm.
  pose proof (photon_script_run py_float inp) as Hp.
  cbv zeta in Hm, Hp. fold r_min r_max r_over_GM r warnings in Hm, Hp.
  destruct (converted py_float (tokens (text inp))) as [| x xs] eqn:Ex.
  - now split.
  - split.
    + pose proof (momenta_loop_head inp r_over_GM r r_min r_max x xs []) as Hh.
      pose proof (@foldM_not_stopped F _ _
                    (plot_momentum inp r_over_GM r r_min r_max) (x :: xs) []
                    (plot_momentum_not_stopped inp r_over_GM r r_min r_max)) as Hns.
      rewrite Hm. do 2 eexists. split; [reflexivity |]. split.
      * destruct (snd (foldM _ (x :: xs) [])); [discriminate | discriminate |].
        now contradiction Hns.
      * destruct (V_eff_grid r GM x) as [V | ex].
        -- destruct Hh as [evs Hevs]. rewrite Hevs.
           eexists. rewrite <- app_comm_cons. reflexivity.
        -- rewrite Hh. cbn [fst snd]. now split.
    + pose proof (@foldM_not_stopped F _ _ (fun _ b => plot_energy_level b)
                    (x :: xs) tt plot_energy_level_not_stopped) as Hns.
      fold (for_each (x :: xs) plot_energy_level) in Hns.
      rewrite Hp. do 2 eexists. split; [reflexivity |].
      destruct (snd (for_each (x :: xs) plot_energy_level));
        [discriminate | discriminate | now contradiction Hns].
Qed.

Section RunOutcomes.
Context {F : Type} {PF : PyFloat F}.
Variable py_float : string -> option F.
Local Open Scope py_scope.

(** The loop over [b_list] draws energy levels and nothing else. *)
Lemma energy_levels_events (b_list : list F) (ev : Event F) :
  In ev (fst (for_each b_list plot_energy_level)) -> exists c, ev = AxHLine c.
Proof.
  unfold for_each. induction b_list as [| b bs IH]; [contradiction |].
  cbn [foldM]. rewrite plot_energy_level_run.
  destruct (classify_impact_parameter b GM) as [c | e].
  - rewrite sbind_done. cbn [fst app]. intros [<- | Hin]; eauto.
  - rewrite sbind_crashed. contradiction.
Qed.

Lemma set_ylim_events (inp : Inputs F) (ev : Event F) :
  In ev (fst (set_ylim inp)) -> exists lo hi, ev = SetYLim lo hi.
Proof.
  unfold set_ylim. destruct (y_limits inp) as [[lo hi] |]; cbn.
  - intros [<- | []]; eauto.
  - contradiction.
Qed.

Lemma warnings_no_pyplot (ts : list string) :
  ~ In (@Pyplot F) (map (fun t => SidebarWarning (warning_text t)) ts).
Proof. intros Hin. apply in_map_iff in Hin. destruct Hin as [t [E _]]. discriminate. Qed.

(** Each warning is shown, however the run goes on; [st.pyplot] is reached
    exactly when the run ends normally; and the run stops exactly when no
    value converted. *)
Lemma massive_run_outcome (inp : Inputs F) :
  (forall t, In t (rejected py_float (tokens (text inp))) ->
     In (SidebarWarning (warning_text t)) (fst (massive_script py_float inp))) /\
  (In Pyplot (fst (massive_script py_float inp))
   <-> snd (massive_script py_float inp) = Done tt) /\
  (snd (massive_script py_float inp) = Stopped
   <-> converted py_float (tokens (text inp)) = []).
Proof.
  rewrite massive_script_run. cbv zeta.
  set (r_min := r_min_slider inp * GM). set (r_max := r_max_slider inp * GM).
  set (r_over_GM := linspace r_min r_max num_points).
  set (r := map (fun x => x * GM) r_over_GM).
  pose proof (fun l_list =>
                @foldM_not_stopped F _ _
                  (plot_momentum inp r_over_GM r r_min r_max) l_list []
                  (plot_momentum_not_stopped inp r_over_GM r r_min r_max)) as Hns.
  pose proof (fun l_list =>
                @momenta_loop_events F PF inp r_over_GM r r_min r_max l_list []) as Hev.
  destruct (converted py_float (tokens (text inp))) as [| l ls];
    cbn [fst snd]; (split; [| split]).
  - intros t Ht. apply in_or_app. left.
    apply (in_map (fun t => SidebarWarning (warning_text t))). exact Ht.
  - split; [| discriminate]. intros Hin. apply in_app_or in Hin.
    destruct Hin as [Hin | [Hin | []]]; [| discriminate].
    now apply warnings_no_pyplot in Hin.
  - split; reflexivity.
  - intros t Ht. apply in_or_app. left.
    apply (in_map (fun t => SidebarWarning (warning_text t))). exact Ht.
  - specialize (Hns (l :: ls)). specialize (Hev (l :: ls)).
    destruct (foldM (plot_momentum inp r_over_GM r r_min r_max) (l :: ls) [])
      as [evs [info | e |]]; cbn [fst snd] in *.
    + split; [reflexivity |]. intros _.
      apply in_or_app. right. apply in_or_app. right.
      apply in_or_app. right. apply in_or_app. right. now left.
    + split; [| discriminate]. intros Hin. apply in_app_or in Hin.
      destruct Hin as [Hin | Hin]; [now apply warnings_no_pyplot in Hin |].
      rewrite app_nil_r in Hin. apply Hev in Hin.
      destruct Hin as [[c [xs [ys E]]] | [k [x [y E]]]]; discriminate.
    + now contradiction Hns.
  - specialize (Hns (l :: ls)).
    destruct (snd (foldM (plot_momentum inp r_over_GM r r_min r_max) (l :: ls) []));
      split; try discriminate; try reflexivity.
    now contradiction Hns.
Qed.

Lemma photon_run_outcome (inp : Inputs F) :
  (forall t, In t (rejected py_float (tokens (text inp))) ->
     In (SidebarWarning (warning_text t)) (fst (photon_script py_float inp))) /\
  (In Pyplot (fst (photon_script py_float inp))
   <-> snd (photon_script py_float inp) = Done tt) /\
  (snd (photon_script py_float inp) = Stopped
   <-> converted py_float (tokens (text inp)) = []).
Proof.
  rewrite photon_script_run. cbv zeta.
  pose proof (fun b_list =>
                @foldM_not_stopped F _ _ (fun _ b => plot_energy_level b)
                  b_list tt plot_energy_level_not_stopped) as Hns.
  destruct (converted py_float (tokens (text inp))) as [| b bs];
    cbn [fst snd]; (split; [| split]).
  - intros t Ht. apply in_or_app. left.
    apply (in_map (fun t => SidebarWarning (warning_text t))). exact Ht.
  - split; [| discriminate]. intros Hin. apply in_app_or in Hin.
    destruct Hin as [Hin | [Hin | []]]; [| discriminate].
    now apply warnings_no_pyplot in Hin.
  - split; reflexivity.
  - intros t Ht. apply in_or_app. left.
    apply (in_map (fun t => SidebarWarning (warning_text t))). exact Ht.
  - specialize (Hns (b :: bs)). fold (for_each (b :: bs) plot_energy_level) in Hns.
    pose proof (energy_levels_events (b :: bs)) as Hev.
    rewrite photon_landmarks_run. cbn [fst].
    destruct (for_each (b :: bs) plot_energy_level) as [evs [[] | e |]];
      cbn [fst snd] in *.
    + split; [reflexivity |]. intros _.
      apply in_or_app. right. right. apply in_or_app. right.
      apply in_or_app. right. apply in_or_app. right.
      apply in_or_app. right. now left.
    + split; [| discriminate]. intros Hin. apply in_app_or in Hin.
      destruct Hin as [Hin | [Hin | Hin]];
        [now apply warnings_no_pyplot in Hin | discriminate |].
      apply in_app_or in Hin. destruct Hin as [Hin | Hin].
      { destruct (show_newtonian inp); [destruct Hin as [E | []] | contradiction].
        discriminate. }
      apply in_app_or in Hin. destruct Hin as [Hin | Hin].
      { apply in_app_or in Hin. destruct Hin as [Hin | Hin].
        - destruct (between _ (#3 * GM) _); [| contradiction].
          destruct Hin as [E | [E | []]]; discriminate.
        - destruct (between _ (#2 * GM) _); [| contradiction].
          destruct Hin as [E | []]; discriminate. }
      rewrite app_nil_r in Hin. apply Hev in Hin. destruct Hin as [c E]. discriminate.
    + now contradiction Hns.
  - specialize (Hns (b :: bs)). fold (for_each (b :: bs) plot_energy_level) in Hns.
    destruct (snd (for_each (b :: bs) plot_energy_level));
      split; try discriminate; try reflexivity.
    now contradiction Hns.
Qed.

(** When the loop over [b_list] raises, the run ends with that exception and
    [st.pyplot] is never reached. *)
Lemma photon_crash_no_plot (inp : Inputs F) (e : exn) :
  snd (for_each (converted py_float (tokens (text inp))) plot_energy_level) = Crashed e ->
  snd (photon_script py_float inp) = Crashed e /\
  ~ In Pyplot (fst (photon_script py_float inp)).
Proof.
  intros Hc.
  assert (Hs : snd (photon_script py_float inp) = Crashed e).
  { rewrite photon_script_run. cbv zeta. rewrite Hc.
    destruct (converted py_float (tokens (text inp))) as [| b bs] eqn:Eb;
      [discriminate | reflexivity]. }
  split; [exact Hs |].
  intros Hin. apply (proj1 (proj2 (photon_run_outcome inp))) in Hin. congruence.
Qed.

(** A marker or a vertical line in a run of the photon script is one of the
    two landmarks. *)
Lemma photon_landmark_only (inp : Inputs F) (ev : Event F) :
  In ev (fst (photon_script py_float inp)) ->
  (exists k x y, ev = PlotMarker k x y) \/ (exists lm x, ev = AxVLine lm x) ->
  In ev (fst (photon_landmarks (r_min_slider inp * GM) (r_max_slider inp * GM))).
Proof.
  rewrite photon_script_run. cbv zeta.
  destruct (converted py_float (tokens (text inp))) as [| b bs] eqn:Eb;
    rewrite <- ?Eb; cbn [fst]; intros Hin Hev.
  - apply in_app_or in Hin. destruct Hin as [Hin | [<- | []]].
    + apply in_map_iff in Hin. destruct Hin as [t [<- _]].
      destruct Hev as [[k [x [y E]]] | [lm [x E]]]; discriminate.
    + destruct Hev as [[k [x [y E]]] | [lm [x E]]]; discriminate.
  - apply in_app_or in Hin. destruct Hin as [Hin | [<- | Hin]].
    + apply in_map_iff in Hin. destruct Hin as [t [<- _]].
      destruct Hev as [[k [x [y E]]] | [lm [x E]]]; discriminate.
    + destruct Hev as [[k [x [y E]]] | [lm [x E]]]; discriminate.
    + apply in_app_or in Hin. destruct Hin as [Hin | Hin].
      { destruct (show_newtonian inp); [destruct Hin as [<- | []] | contradiction].
        destruct Hev as [[k [x [y E]]] | [lm [x E]]]; discriminate. }
      apply in_app_or in Hin. destruct Hin as [Hin | Hin]; [exact Hin |].
      apply in_app_or in Hin. destruct Hin as [Hin | Hin].
      { apply energy_levels_events in Hin. destruct Hin as [c ->].
        destruct Hev as [[k [x [y E]]] | [lm [x E]]]; discriminate. }
      destruct (snd (for_each _ plot_energy_level)); try contradiction.
      apply in_app_or in Hin. destruct Hin as [Hin | [<- | []]].
      * apply set_ylim_events in Hin. destruct Hin as [lo [hi ->]].
        destruct Hev as [[k [x [y E]]] | [lm [x E]]]; discriminate.
      * destruct Hev as [[k [x [y E]]] | [lm [x E]]]; discriminate.
Qed.

(** Once a value has converted, the landmarks inside the window are drawn. *)
Lemma photon_landmark_shown (inp : Inputs F) (ev : Event F) :
  converted py_float (tokens (text inp)) <> [] ->
  In ev (fst (photon_landmarks (r_min_slider inp * GM) (r_max_slider inp * GM))) ->
  In ev (fst (photon_script py_float inp)).
Proof.
  intros Hne Hin. rewrite photon_script_run. cbv zeta.
  destruct (converted py_float (tokens (text inp))) as [| b bs] eqn:Eb;
    [contradiction |].
  cbn [fst]. apply in_or_app. right. right.
  apply in_or_app. right. apply in_or_app. now left.
Qed.

End RunOutcomes.

Section ExactRuns.
Variable py_float : string -> option R.
Local Open Scope R_scope.

Lemma GM_exact : GM = 1.
Proof. reflexivity. Qed.

(** In exact arithmetic the search for extrema never raises. *)
Lemma find_extrema_total (gm l r_min r_max : R) :
  0 < gm -> exists points, find_extrema gm l r_min r_max = Ok points.
Proof.
  intros Hgm. destruct (Rle_or_lt l (2 * sqrt 3 * gm)) as [Hl | Hl].
  - exists []. apply find_extrema_guard. exact_arith. now apply Rltb_false.
  - eexists. apply (find_extrema_exact r_min r_max Hgm Hl).
Qed.

Lemma momenta_loop_done (inp : Inputs R) (r_over_GM r : list R) (r_min r_max : R)
    (l_list : list R) (info : list (R * ExtremumPoint R)) :
  exists extrema_info,
    snd (foldM (plot_momentum inp r_over_GM r r_min r_max) l_list info)
      = Done extrema_info.
Proof.
  revert info. induction l_list as [| l ls IH]; intros info.
  - now exists info.
  - cbn [foldM]. rewrite plot_momentum_run.
    destruct (V_eff_grid_value r GM l (py_pow_exact l)) as [-> ->].
    destruct (@find_extrema_total GM l r_min r_max) as [points ->];
      [rewrite GM_exact; lra |].
    rewrite sbind_done. cbn [snd]. apply IH.
Qed.

(** The loop over [b_list]: it draws the levels of the values before the
    first zero, and raises there. *)
Lemma energy_levels_done (b_list : list R) :
  Forall (fun b => b <> 0) b_list ->
  snd (for_each b_list plot_energy_level) = Done tt.
Proof.
  unfold for_each. induction 1 as [| b bs Hb Hbs IH]; [reflexivity |].
  cbn [foldM]. rewrite plot_energy_level_run, classify_exact
    by (rewrite GM_exact; lra).
  rewrite sbind_done. exact IH.
Qed.

Lemma energy_levels_crash (b_list : list R) :
  In 0 b_list ->
  snd (for_each b_list plot_energy_level) = Crashed ZeroDivisionError.
Proof.
  unfold for_each. induction b_list as [| b bs IH]; [contradiction |].
  intros Hin. cbn [foldM]. rewrite plot_energy_level_run.
  destruct (Req_dec_T b 0) as [-> | Hb].
  - now rewrite classify_zero_exact.
  - rewrite classify_exact by (rewrite GM_exact; lra).
    rewrite sbind_done. cbn [snd]. apply IH.
    destruct Hin as [E | Hin]; [congruence | exact Hin].
Qed.

Lemma massive_script_completes (inp : Inputs R) :
  converted py_float (tokens (text inp)) <> [] ->
  snd (massive_script py_float inp) = Done tt /\
  In Pyplot (fst (massive_script py_float inp)) /\
  (forall t, In t (rejected py_float (tokens (text inp))) ->
     In (SidebarWarning (warning_text t)) (fst (massive_script py_float inp))).
Proof.
  intros Hne.
  destruct (massive_run_outcome py_float inp) as [Hw [Hp _]].
  assert (Hd : snd (massive_script py_float inp) = Done tt).
  { rewrite massive_script_run. cbv zeta.
    destruct (converted py_float (tokens (text inp))) as [| l ls] eqn:El;
      [contradiction |].
    destruct (momenta_loop_done inp
                (linspace (r_min_slider inp * GM)%py (r_max_slider inp * GM)%py num_points)
                (map (fun x => x * GM)%py
                   (linspace (r_min_slider inp * GM)%py (r_max_slider inp * GM)%py
                      num_points))
                (r_min_slider inp * GM)%py (r_max_slider inp * GM)%py (l :: ls) [])
      as [info Hinfo].
    rewrite Hinfo. reflexivity. }
  split; [exact Hd | split; [now apply Hp | exact Hw]].
Qed.

Lemma photon_script_completes (inp : Inputs R) :
  converted py_float (tokens (text inp)) <> [] ->
  Forall (fun b => b <> 0) (converted py_float (tokens (text inp))) ->
  snd (photon_script py_float inp) = Done tt /\
  In Pyplot (fst (photon_script py_float inp)) /\
  (forall t, In t (rejected py_float (tokens (text inp))) ->
     In (SidebarWarning (warning_text t)) (fst (photon_script py_float inp))).
Proof.
  intros Hne Hnz.
  destruct (photon_run_outcome py_float inp) as [Hw [Hp _]].
  assert (Hd : snd (photon_script py_float inp) = Done tt).
  { rewrite photon_script_run. cbv zeta. rewrite (energy_levels_done Hnz).
    destruct (converted py_float (tokens (text inp))) as [| b bs] eqn:Eb;
      [contradiction | reflexivity]. }
  split; [exact Hd | split; [now apply Hp | exact Hw]].
Qed.

End ExactRuns.

Lemma run_examples_binary64 :
  massive_script float_of_string (massive_defaults "abc, ,") =
    ([SidebarWarning (warning_text "abc");
      StError "Por favor ingresa al menos un valor válido para $\ell$."],
     Stopped)
  /\ photon_script float_of_string (photon_defaults "abc, ,") =
       ([SidebarWarning (warning_text "abc");
         StError "Por favor ingresa al menos un valor válido para $b$."],
        Stopped)
  /\ (let g := linspace 2.5%float 500%float num_points in
      exists curve : list float,
        massive_script float_of_string (massive_defaults "4, abc") =
          ([SidebarWarning (warning_text "abc");
            PlotCurve (Relativistic 4%float) g curve;
            PlotMarker KMax 4%float 0%float;
            PlotMarker KMin 12%float (- 1 / 12 + 0.5 * 16 / 144 - 1 * 16 / 1728)%float;
            SetYLim (-0.05)%float 0.02%float;
            Pyplot;
            CriticalPointInfo 4%float KMax 4%float;
            CriticalPointInfo 4%float KMin 12%float],
           Done tt))
  /\ massive_script float_of_string (massive_defaults "abc, 1e200") =
       ([SidebarWarning (warning_text "abc")], Crashed OverflowError).
Proof.
  split; [vm_compute; reflexivity |].
  split; [vm_compute; reflexivity |].
  split; [| vm_compute; reflexivity].
  cbv zeta.
  exists (match V_eff_grid (linspace 2.5%float 500%float num_points) 1%float 4%float with
          | Ok V => V
          | Raise _ => []
          end).
  vm_compute. reflexivity.
Qed.

(** C5: a text none of whose tokens converts is fatal for the render cycle:
    both scripts show the warnings and one explicit error message and stop
    before any grid is built or potential evaluated, so nothing is plotted.
    When a value converts the script does not stop there: it goes on to the
    grid and the curves, and the warnings stand beside whatever follows.
    This holds whatever the arithmetic: each warning is in the trace of every
    run, a run stops exactly when no value converted, and it reaches
    [st.pyplot] exactly when it ends without an exception.  In exact
    arithmetic the massive-particle script always ends so, and the photon
    script does when no impact parameter is zero. *)
Theorem empty_input_halts_render :
  (forall (F : Type) (PF : PyFloat F) (py_float : string -> option F) (inp : Inputs F),
     let r_min := (r_min_slider inp * GM)%py in
     let r_max := (r_max_slider inp * GM)%py in
     let r_over_GM := linspace r_min r_max num_points in
     let r := map (fun x => x * GM)%py r_over_GM in
     let warnings :=
       map (fun t => SidebarWarning (warning_text t))
           (rejected py_float (tokens (text inp))) in
     match converted py_float (tokens (text inp)) with
     | [] =>
         massive_script py_float inp =
           (warnings ++ [StError "Por favor ingresa al menos un valor válido para $\ell$."],
            Stopped) /\
         photon_script py_float inp =
           (warnings ++ [StError "Por favor ingresa al menos un valor válido para $b$."],
            Stopped)
     | x :: _ =>
         (exists evs e,
            massive_script py_float inp = (warnings ++ evs, e) /\ e <> Stopped /\
            match V_eff_grid r GM x with
            | Ok V => exists evs', evs = PlotCurve (Relativistic x) r_over_GM V :: evs'
            | Raise ex => evs = [] /\ e = Crashed ex
            end) /\
         (exists evs e,
            photon_script py_float inp =
              (warnings
                 ++ PlotCurve PhotonRelativistic r_over_GM (V_eff_photon_grid r GM)
                 :: evs, e) /\ e <> Stopped)
     end)
  /\ (forall (F : Type) (PF : PyFloat F) (py_float : string -> option F) (inp : Inputs F),
        ((forall t, In t (rejected py_float (tokens (text inp))) ->
            In (SidebarWarning (warning_text t)) (fst (massive_script py_float inp))) /\
         (In Pyplot (fst (massive_script py_float inp))
          <-> snd (massive_script py_float inp) = Done tt) /\
         (snd (massive_script py_float inp) = Stopped
          <-> converted py_float (tokens (text inp)) = [])) /\
        ((forall t, In t (rejected py_float (tokens (text inp))) ->
            In (SidebarWarning (warning_text t)) (fst (photon_script py_float inp))) /\
         (In Pyplot (fst (photon_script py_float inp))
          <-> snd (photon_script py_float inp) = Done tt) /\
         (snd (photon_script py_float inp) = Stopped
          <-> converted py_float (tokens (text inp)) = [])))
  /\ (forall (py_float : string -> option R) (inp : Inputs R),
        converted py_float (tokens (text inp)) <> [] ->
        snd (massive_script py_float inp) = Done tt /\
        In Pyplot (fst (massive_script py_float inp)) /\
        (forall t, In t (rejected py_float (tokens (text inp))) ->
           In (SidebarWarning (warning_text t)) (fst (massive_script py_float inp))))
  /\ (forall (py_float : string -> option R) (inp : Inputs R),
        converted py_float (tokens (text inp)) <> [] ->
        Forall (fun b => b <> 0%R) (converted py_float (tokens (text inp))) ->
        snd (photon_script py_float inp) = Done tt /\
        In Pyplot (fst (photon_script py_float inp)) /\
        (forall t, In t (rejected py_float (tokens (text inp))) ->
           In (SidebarWarning (warning_text t)) (fst (photon_script py_float inp))))
  /\ (massive_script float_of_string (massive_defaults "abc, ,") =
        ([SidebarWarning (warning_text "abc");
          StError "Por favor ingresa al menos un valor válido para $\ell$."],
         Stopped)
      /\ photon_script float_of_string (photon_defaults "abc, ,") =
           ([SidebarWarning (warning_text "abc");
             StError "Por favor ingresa al menos un valor válido para $b$."],
            Stopped)
      /\ (let g := linspace 2.5%float 500%float num_points in
          exists curve : list float,
            massive_script float_of_string (massive_defaults "4, abc") =
              ([SidebarWarning (warning_text "abc");
                PlotCurve (Relativistic 4%float) g curve;
                PlotMarker KMax 4%float 0%float;
                PlotMarker KMin 12%float (- 1 / 12 + 0.5 * 16 / 144 - 1 * 16 / 1728)%float;
                SetYLim (-0.05)%float 0.02%float;
                Pyplot;
                CriticalPointInfo 4%float KMax 4%float;
                CriticalPointInfo 4%float KMin 12%float],
               Done tt))
      /\ massive_script float_of_string (massive_defaults "abc, 1e200") =
           ([SidebarWarning (warning_text "abc")], Crashed OverflowError)).
Proof.
  split; [| split; [| split; [| split]]].
  - exact render_cycle_branches.
  - intros F PF py_float inp. split.
    + apply massive_run_outcome.
    + apply photon_run_outcome.
  - exact massive_script_completes.
  - exact photon_script_completes.
  - exact run_examples_binary64.
Qed.

Lemma empty_input_halts_render_witness :
  converted (fun _ : string => Some 1%R) (tokens "1") <> [] /\
  snd (massive_script (fun _ : string => Some 1%R)
         {| text := "1"; show_newtonian := false; r_min_slider := 2%R;
            r_max_slider := 10%R; y_limits := None |}) = Done tt.
Proof.
  assert (Hne : converted (fun _ : string => Some 1%R) (tokens "1") <> [])
    by discriminate.
  split; [exact Hne |].
  exact (proj1 (proj1 (proj2 (proj2 empty_input_halts_render))
                 (fun _ : string => Some 1%R)
                 {| text := "1"; show_newtonian := false; r_min_slider := 2%R;
                    r_max_slider := 10%R; y_limits := None |} Hne)).
Defined.

(** ** Landmarks *)

Section ExactLandmarks.
Local Open Scope R_scope.

Lemma photon_peak : forall gm : R, 0 < gm -> V_eff_photon (3 * gm) gm = 1 / (27 * gm ^ 2).
Proof. intros gm Hgm. rewrite V_eff_photon_exact. field. lra. Qed.

(** The photon potential is nowhere above its value at r = 3GM. *)
Lemma photon_peak_is_maximum (r gm : R) :
  0 < gm -> 0 < r -> V_eff_photon r gm <= V_eff_photon (3 * gm) gm.
Proof.
  intros Hgm Hr. rewrite photon_peak by exact Hgm. rewrite V_eff_photon_exact.
  assert (Hr3 : 0 < r * r * r) by (apply Rmult_lt_0_compat; nra).
  assert (Hg2 : 0 < 27 * gm ^ 2) by nra.
  assert (E : 1 / (27 * gm ^ 2) - 1 / (r * r) * (1 - 2 * gm / r)
              = (r - 3 * gm) ^ 2 * (r + 6 * gm) / (27 * gm ^ 2 * (r * r * r))).
  { field. split; lra. }
  assert (Hq : 0 <= (r - 3 * gm) ^ 2 * (r + 6 * gm) / (27 * gm ^ 2 * (r * r * r))).
  { apply Rmult_le_pos.
    - apply Rmult_le_pos; [apply pow2_ge_0 | lra].
    - left. apply Rinv_0_lt_compat. nra. }
  lra.
Qed.

(** The landmarks of the photon script, in exact arithmetic. *)
Lemma photon_landmarks_exact (r_min r_max : R) :
  fst (photon_landmarks r_min r_max) =
    (if between r_min 3 r_max
     then [PlotMarker KMax 3 (1 / 27); AxVLine PhotonOrbit 3] else [])
    ++ (if between r_min 2 r_max then [AxVLine Horizon 2] else []).
Proof.
  rewrite photon_landmarks_run. cbn [fst]. rewrite GM_exact. exact_arith.
  replace (3 * 1) with 3 by ring. replace (2 * 1) with 2 by ring.
  replace (3 / 1) with 3 by field. replace (2 / 1) with 2 by field.
  replace (V_eff_photon 3 1) with (1 / 27) by (rewrite V_eff_photon_exact; field).
  reflexivity.
Qed.

End ExactLandmarks.

Section ExactPhotonScript.
Variable py_float : string -> option R.
Local Open Scope R_scope.

Lemma photon_landmark_cases (inp : Inputs R) (ev : Event R) :
  In ev (fst (photon_landmarks (r_min_slider inp * GM)%py (r_max_slider inp * GM)%py)) ->
  (r_min_slider inp <= 3 <= r_max_slider inp /\
     (ev = PlotMarker KMax 3 (1 / 27) \/ ev = AxVLine PhotonOrbit 3)) \/
  (r_min_slider inp <= 2 <= r_max_slider inp /\ ev = AxVLine Horizon 2).
Proof.
  rewrite photon_landmarks_exact, GM_exact. exact_arith. intros Hin.
  apply in_app_or in Hin. destruct Hin as [Hin | Hin].
  - destruct (between (r_min_slider inp * 1) 3 (r_max_slider inp * 1)) eqn:B;
      [| contradiction].
    apply between_true in B. left. split; [lra |].
    destruct Hin as [<- | [<- | []]]; auto.
  - destruct (between (r_min_slider inp * 1) 2 (r_max_slider inp * 1)) eqn:B;
      [| contradiction].
    apply between_true in B. right. split; [lra |].
    destruct Hin as [<- | []]; auto.
Qed.

Lemma photon_landmarks_gated (inp : Inputs R) :
  (forall k x y, In (PlotMarker k x y) (fst (photon_script py_float inp)) ->
     k = KMax /\ x = 3 /\ y = 1 / 27 /\ r_min_slider inp <= 3 <= r_max_slider inp) /\
  (forall x, In (AxVLine PhotonOrbit x) (fst (photon_script py_float inp)) ->
     x = 3 /\ r_min_slider inp <= 3 <= r_max_slider inp) /\
  (forall x, In (AxVLine Horizon x) (fst (photon_script py_float inp)) ->
     x = 2 /\ r_min_slider inp <= 2 <= r_max_slider inp) /\
  (converted py_float (tokens (text inp)) <> [] ->
   r_min_slider inp <= 3 <= r_max_slider inp ->
     In (PlotMarker KMax 3 (1 / 27)) (fst (photon_script py_float inp)) /\
     In (AxVLine PhotonOrbit 3) (fst (photon_script py_float inp))) /\
  (converted py_float (tokens (text inp)) <> [] ->
   r_min_slider inp <= 2 <= r_max_slider inp ->
     In (AxVLine Horizon 2) (fst (photon_script py_float inp))).
Proof.
  split; [| split; [| split; [| split]]].
  - intros k x y Hin.
    apply photon_landmark_only in Hin; [| left; eauto].
    apply photon_landmark_cases in Hin.
    destruct Hin as [[Hw [E | E]] | [Hw E]]; try discriminate.
    injection E as -> -> ->. auto.
  - intros x Hin.
    apply photon_landmark_only in Hin; [| right; eauto].
    apply photon_landmark_cases in Hin.
    destruct Hin as [[Hw [E | E]] | [Hw E]]; try discriminate.
    injection E as ->. auto.
  - intros x Hin.
    apply photon_landmark_only in Hin; [| right; eauto].
    apply photon_landmark_cases in Hin.
    destruct Hin as [[Hw [E | E]] | [Hw E]]; try discriminate.
    injection E as ->. auto.
  - intros Hne Hw.
    assert (B : between (r_min_slider inp * 1) 3 (r_max_slider inp * 1) = true)
      by (apply between_true; lra).
    split; apply (@photon_landmark_shown _ _ py_float inp _ Hne);
      rewrite photon_landmarks_exact, GM_exact; exact_arith; rewrite B;
      apply in_or_app; left; cbn; auto.
  - intros Hne Hw.
    assert (B : between (r_min_slider inp * 1) 2 (r_max_slider inp * 1) = true)
      by (apply between_true; lra).
    apply (@photon_landmark_shown _ _ py_float inp _ Hne).
    rewrite photon_landmarks_exact, GM_exact. exact_arith. rewrite B.
    apply in_or_app. right. cbn. auto.
Qed.

End ExactPhotonScript.

Lemma photon_run_example_binary64 :
  let g := linspace 1.5%float 15%float num_points in
  photon_script float_of_string (photon_defaults "6") =
    ([PlotCurve PhotonRelativistic g (map (fun x => V_eff_photon x 1%float) g);
      PlotMarker KMax 3%float (V_eff_photon 3%float 1%float);
      AxVLine PhotonOrbit 3%float;
      AxVLine Horizon 2%float;
      AxHLine {| impact := 6%float; E_eff := (1 / 36)%float; regime := Escapes |};
      SetYLim 0%float 0.07%float;
      Pyplot],
     Done tt).
Proof. vm_compute. reflexivity. Qed.

(** C8: the photon evaluator computes V(r) = (1/r^2)(1 - 2GM/r) for every
    r > 0 (and 1/r^2 for its Newtonian counterpart); at the photon sphere
    r = 3GM it takes the value 1/(27 GM^2), which is its maximum over r > 0.
    In a run of the photon script the photon-sphere marker and line appear
    only when 3GM lies inside [r_min, r_max], the horizon line only when 2GM
    does, and they do appear then once a value has converted. *)
Theorem photon_potential_and_landmarks :
  (forall r gm : R, (0 < r)%R ->
     (V_eff_photon r gm = 1 / r ^ 2 * (1 - 2 * gm / r))%R /\
     (V_eff_newton_photon r = 1 / r ^ 2)%R)
  /\ (forall gm : R, (0 < gm)%R ->
        (V_eff_photon (3 * gm) gm = 1 / (27 * gm ^ 2))%R /\
        (forall r : R, (0 < r)%R -> (V_eff_photon r gm <= V_eff_photon (3 * gm) gm)%R))
  /\ (forall (py_float : string -> option R) (inp : Inputs R),
        (forall k x y, In (PlotMarker k x y) (fst (photon_script py_float inp)) ->
           k = KMax /\ x = 3%R /\ y = (1 / 27)%R /\
           (r_min_slider inp <= 3 <= r_max_slider inp)%R) /\
        (forall x, In (AxVLine PhotonOrbit x) (fst (photon_script py_float inp)) ->
           x = 3%R /\ (r_min_slider inp <= 3 <= r_max_slider inp)%R) /\
        (forall x, In (AxVLine Horizon x) (fst (photon_script py_float inp)) ->
           x = 2%R /\ (r_min_slider inp <= 2 <= r_max_slider inp)%R) /\
        (converted py_float (tokens (text inp)) <> [] ->
         (r_min_slider inp <= 3 <= r_max_slider inp)%R ->
           In (PlotMarker KMax 3%R (1 / 27)%R) (fst (photon_script py_float inp)) /\
           In (AxVLine PhotonOrbit 3%R) (fst (photon_script py_float inp))) /\
        (converted py_float (tokens (text inp)) <> [] ->
         (r_min_slider inp <= 2 <= r_max_slider inp)%R ->
           In (AxVLine Horizon 2%R) (fst (photon_script py_float inp))))
  /\ (let g := linspace 1.5%float 15%float num_points in
      photon_script float_of_string (photon_defaults "6") =
        ([PlotCurve PhotonRelativistic g (map (fun x => V_eff_photon x 1%float) g);
          PlotMarker KMax 3%float (V_eff_photon 3%float 1%float);
          AxVLine PhotonOrbit 3%float;
          AxVLine Horizon 2%float;
          AxHLine {| impact := 6%float; E_eff := (1 / 36)%float; regime := Escapes |};
          SetYLim 0%float 0.07%float;
          Pyplot],
         Done tt)).
Proof.
  split; [| split; [| split]].
  - intros r gm Hr. split.
    + rewrite V_eff_photon_exact. field. lra.
    + unfold V_eff_newton_photon. exact_arith. field. lra.
  - intros gm Hgm. split; [now apply photon_peak |].
    intros r Hr. now apply photon_peak_is_maximum.
  - exact photon_landmarks_gated.
  - exact photon_run_example_binary64.
Qed.

Lemma photon_potential_and_landmarks_witness :
  (0 < 1)%R /\ (V_eff_photon (F:=R) (3 * 1) 1 = 1 / (27 * 1 ^ 2))%R.
Proof.
  split; [lra |].
  apply (proj1 (proj2 photon_potential_and_landmarks) 1%R). lra.
Defined.

(** ** The unguarded division of the photon script *)

Lemma zero_impact_binary64 :
  float_of_string "0" = Some 0%float
  /\ parse_numbers float_of_string "0" = ([], Done [0%float])
  /\ classify_impact_parameter 0%float 1%float = Raise ZeroDivisionError
  /\ (let g := linspace 1.5%float 15%float num_points in
      photon_script float_of_string (photon_defaults "6, 0, 4") =
        ([PlotCurve PhotonRelativistic g (map (fun x => V_eff_photon x 1%float) g);
          PlotMarker KMax 3%float (V_eff_photon 3%float 1%float);
          AxVLine PhotonOrbit 3%float;
          AxVLine Horizon 2%float;
          AxHLine {| impact := 6%float; E_eff := (1 / 36)%float; regime := Escapes |}],
         Crashed ZeroDivisionError)).
Proof.
  split; [| split; [| split]]; vm_compute; reflexivity.
Qed.

(** C10: the parser accepts the token "0" as the float 0.0, and for b = 0
    the effective energy 1/(b GM)^2 of the photon script divides by zero:
    the loop body raises ZeroDivisionError.  Nothing between parsing and the
    loop checks b, so every run in which a zero impact parameter was parsed
    ends with that exception, before [st.pyplot]. *)
Theorem zero_impact_parameter_raises :
  (float_of_string "0" = Some 0%float
   /\ parse_numbers float_of_string "0" = ([], Done [0%float]))
  /\ (forall gm : R, classify_impact_parameter 0%R gm = Raise ZeroDivisionError)
  /\ classify_impact_parameter 0%float 1%float = Raise ZeroDivisionError
  /\ (forall (py_float : string -> option R) (inp : Inputs R),
        In 0%R (converted py_float (tokens (text inp))) ->
        snd (photon_script py_float inp) = Crashed ZeroDivisionError /\
        ~ In Pyplot (fst (photon_script py_float inp)))
  /\ (let g := linspace 1.5%float 15%float num_points in
      photon_script float_of_string (photon_defaults "6, 0, 4") =
        ([PlotCurve PhotonRelativistic g (map (fun x => V_eff_photon x 1%float) g);
          PlotMarker KMax 3%float (V_eff_photon 3%float 1%float);
          AxVLine PhotonOrbit 3%float;
          AxVLine Horizon 2%float;
          AxHLine {| impact := 6%float; E_eff := (1 / 36)%float; regime := Escapes |}],
         Crashed ZeroDivisionError)).
Proof.
  destruct zero_impact_binary64 as [H1 [H2 [H3 H4]]].
  split; [now split | split; [| split; [| split]]].
  - exact classify_zero_exact.
  - exact H3.
  - intros py_float inp Hin. apply photon_crash_no_plot.
    now apply energy_levels_crash.
  - exact H4.
Qed.

Lemma zero_impact_parameter_raises_witness :
  In 0%R (converted (fun _ : string => Some 0%R) (tokens "0")) /\
  snd (photon_script (fun _ : string => Some 0%R)
         {| text := "0"; show_newtonian := false; r_min_slider := 1.5%R;
            r_max_slider := 15%R; y_limits := None |}) = Crashed ZeroDivisionError.
Proof.
  assert (Hin : In 0%R (converted (fun _ : string => Some 0%R) (tokens "0")))
    by (left; reflexivity).
  split; [exact Hin |].
  exact (proj1 (proj1 (proj2 (proj2 (proj2 zero_impact_parameter_raises)))
                 (fun _ : string => Some 0%R)
                 {| text := "0"; show_newtonian := false; r_min_slider := 1.5%R;
                    r_max_slider := 15%R; y_limits := None |} Hin)).
Defined.

(** * Part III: further properties of the scripts *)

(** ** The potentials *)

Section PotentialFacts.
Local Open Scope R_scope.

(** For photons too the Newtonian potential exceeds the relativistic one:
    the difference is 2GM/r^3 > 0. *)
Theorem newton_exceeds_relativistic_photon (r gm : R) :
  0 < r -> 0 < gm ->
  V_eff_newton_photon r - V_eff_photon r gm = 2 * gm / r ^ 3 /\
  V_eff_photon r gm < V_eff_newton_photon r.
Proof.
  intros Hr Hgm.
  assert (Hd : V_eff_newton_photon r - V_eff_photon r gm = 2 * gm / r ^ 3).
  { rewrite V_eff_photon_exact. unfold V_eff_newton_photon. exact_arith.
    field. lra. }
  assert (Hp : 0 < 2 * gm / r ^ 3).
  { apply Rdiv_lt_0_compat; [lra | apply pow_lt; lra]. }
  split; [exact Hd | lra].
Qed.

Lemma newton_exceeds_relativistic_photon_witness :
  V_eff_photon 3 1 < V_eff_newton_photon 3.
Proof.
  apply (@newton_exceeds_relativistic_photon 3 1); lra.
Defined.

(** The Newtonian massive-particle potential is bounded below by
    -GM^2/(2 l^2), its value at r = l^2/GM. *)
Theorem newtonian_minimum (gm l : R) :
  0 < gm -> l <> 0 ->
  V_eff_newton (l ^ 2 / gm) gm l = Ok (- gm ^ 2 / (2 * l ^ 2)) /\
  (forall r, 0 < r ->
     exists v, V_eff_newton r gm l = Ok v /\ - gm ^ 2 / (2 * l ^ 2) <= v).
Proof.
  intros Hgm Hl.
  assert (Hl2 : 0 < l ^ 2) by (destruct (Rdichotomy _ _ Hl); nra).
  split.
  - rewrite V_eff_newton_exact. f_equal. field. split; lra.
  - intros r Hr. rewrite V_eff_newton_exact. eexists. split; [reflexivity |].
    assert (E : - gm / r + / 2 * (l * l) / (r * r) - - gm ^ 2 / (2 * l ^ 2)
                = (l ^ 2 / r - gm) ^ 2 / (2 * l ^ 2)).
    { field. split; lra. }
    assert (Hq : 0 <= (l ^ 2 / r - gm) ^ 2 / (2 * l ^ 2)).
    { apply Rmult_le_pos; [apply pow2_ge_0 |]. left. apply Rinv_0_lt_compat. lra. }
    lra.
Qed.

Lemma newtonian_minimum_witness :
  0 < 1 /\ 4 <> 0 /\ V_eff_newton (4 ^ 2 / 1) 1 4 = Ok (- 1 ^ 2 / (2 * 4 ^ 2)).
Proof.
  assert (H1 : 0 < 1) by lra. assert (H4 : 4 <> 0) by lra.
  split; [exact H1 | split; [exact H4 |]].
  exact (proj1 (@newtonian_minimum 1 4 H1 H4)).
Defined.

End PotentialFacts.

(** ** Negative impact parameters *)

Lemma inv_lt_iff (x y : R) : (0 < x -> 0 < y -> (1 / x < 1 / y <-> y < x))%R.
Proof.
  intros Hx Hy. unfold Rdiv. rewrite !Rmult_1_l. split; intros H.
  - destruct (Rlt_or_le y x) as [Hlt | Hle]; [exact Hlt |].
    pose proof (Rinv_le_contravar x y Hx Hle). lra.
  - apply Rinv_lt_contravar; [nra | exact H].
Qed.

(** In binary64 the product of a negative number and a positive one is a
    number with the sign bit set: negative, or the zero -0.0. *)
Lemma negative_product (b GM : float) :
  PrimFloat.ltb b 0 = true -> PrimFloat.ltb 0 GM = true ->
  match Prim2SF (b * GM)%float with
  | S754_nan => False
  | S754_zero s | S754_infinity s | S754_finite s _ _ => s = true
  end.
Proof.
  rewrite !ltb_spec, mul_spec. unfold SFltb, SF64mul.
  change (Prim2SF 0) with (S754_zero false).
  destruct (Prim2SF b) as [sb | sb | | sb mb eb], (Prim2SF GM) as [sg | sg | | sg mg eg];
    cbn [SFcompare]; intros Hb Hg; try discriminate;
    try (destruct sb; [| discriminate]); try (destruct sg; [discriminate |]);
    cbn [SFmul xorb]; try reflexivity.
  pose proof (binary_round_aux_sign true (Z.pos (mb * mg)) (eb + eg) loc_Exact) as Hs.
  pose proof (@binary_round_aux_not_nan true (Z.pos (mb * mg)) (eb + eg) loc_Exact
                ltac:(lia)) as Hn.
  destruct (binary_round_aux prec emax true (Z.pos (mb * mg)) (eb + eg) loc_Exact);
    [exact Hs | exact Hs | now apply Hn | exact Hs].
Qed.

(** Such a number is below every positive one. *)
Lemma below_positive (x y : float) :
  match Prim2SF x with
  | S754_nan => False
  | S754_zero s | S754_infinity s | S754_finite s _ _ => s = true
  end ->
  PrimFloat.ltb 0 y = true -> PrimFloat.ltb x y = true.
Proof.
  rewrite !ltb_spec. unfold SFltb. change (Prim2SF 0) with (S754_zero false).
  destruct (Prim2SF x) as [sx | sx | | sx mx ex], (Prim2SF y) as [sy | sy | | sy my ey];
    cbn [SFcompare]; intros Hx Hy; try discriminate; try contradiction; subst;
    try (destruct sy; [discriminate |]); reflexivity.
Qed.

Lemma negative_impact_binary64 :
  classify_impact_parameter (-6)%float 1%float =
    Ok {| impact := (-6)%float; E_eff := (1 / 36)%float; regime := Captured |}
  /\ PrimFloat.ltb (1 / 36)%float (V_eff_photon 3%float 1%float) = true
  /\ float_of_string "-1e-200" = Some (-1e-200)%float
  /\ PrimFloat.ltb (-1e-200)%float 0 = true
  /\ classify_impact_parameter (-1e-200)%float 1%float = Raise ZeroDivisionError.
Proof.
  split; [| split; [| split; [| split]]]; vm_compute; reflexivity.
Qed.

(** A negative impact parameter is never labelled as escaping or critical:
    the comparison is on the signed product b GM, so whenever the loop body
    returns a classification for it, the label is "captured".  This holds in
    binary64 for every b < 0 and GM > 0 with sqrt(27) GM > 0, as for the
    GM = 1 of the script, and in exact arithmetic, where below -sqrt(27) the
    level 1/(b GM)^2 nevertheless lies under the peak of the potential, as
    the level of b = -6 does in binary64.  A negative b need not get a label
    at all: for b = -1e-200 the loop body raises ZeroDivisionError. *)
Theorem negative_impact_is_captured :
  (forall (libm_pow array_pow : float -> nat -> float) (b GM : float),
     PrimFloat.ltb b 0 = true -> PrimFloat.ltb 0 GM = true ->
     PrimFloat.ltb 0 (PrimFloat.sqrt 27 * GM)%float = true ->
     regime_of (PF := ieee libm_pow array_pow) b GM = Captured /\
     (forall c, classify_impact_parameter (PF := ieee libm_pow array_pow) b GM = Ok c ->
                regime c = Captured))
  /\ (forall b gm : R, (0 < gm)%R -> (b < 0)%R ->
        classify_impact_parameter b gm =
          Ok {| impact := b; E_eff := (1 / (b * gm) ^ 2)%R; regime := Captured |} /\
        ((b < - sqrt 27)%R -> (1 / (b * gm) ^ 2 < V_eff_photon (3 * gm) gm)%R))
  /\ (classify_impact_parameter (-6)%float 1%float =
        Ok {| impact := (-6)%float; E_eff := (1 / 36)%float; regime := Captured |}
      /\ PrimFloat.ltb (1 / 36)%float (V_eff_photon 3%float 1%float) = true
      /\ float_of_string "-1e-200" = Some (-1e-200)%float
      /\ PrimFloat.ltb (-1e-200)%float 0 = true
      /\ classify_impact_parameter (-1e-200)%float 1%float = Raise ZeroDivisionError).
Proof.
  split; [| split; [| exact negative_impact_binary64]].
  - intros libm_pow array_pow b GM Hb HGM Hc.
    assert (Hlt : PrimFloat.ltb (b * GM)%float (PrimFloat.sqrt 27 * GM)%float = true).
    { apply below_positive; [now apply negative_product | exact Hc]. }
    assert (Hr : regime_of (PF := ieee libm_pow array_pow) b GM = Captured).
    { unfold regime_of.
      change (fltb (fmul b GM) (fmul (fsqrt (of_Z 27)) GM))
        with (PrimFloat.ltb (b * GM)%float (PrimFloat.sqrt 27 * GM)%float).
      now rewrite Hlt. }
    split; [exact Hr |]. intros c Hok.
    apply classify_ok in Hok. destruct Hok as [_ [-> _]]. exact Hr.
  - intros b gm Hgm Hb.
    pose proof sqrt27_bounds as [H5 H6].
    assert (HB : (b * gm < 0)%R) by nra.
    split.
    + rewrite classify_exact by lra. do 2 f_equal.
      apply regime_of_exact. nra.
    + intros Hlt. rewrite photon_peak by exact Hgm.
      assert (Hs : (sqrt 27 * sqrt 27 = 27)%R) by (apply sqrt_sqrt; lra).
      assert (HB2 : (27 * gm ^ 2 < (b * gm) ^ 2)%R).
      { replace ((b * gm) ^ 2)%R with (b * b * gm ^ 2)%R by ring.
        assert (Hp : (0 < (- b - sqrt 27) * (- b + sqrt 27))%R)
          by (apply Rmult_lt_0_compat; lra).
        assert (Hbb : (27 < b * b)%R) by nra.
        assert (Hg2 : (0 < gm ^ 2)%R) by nra.
        apply Rmult_lt_compat_r; assumption. }
      apply inv_lt_iff; nra.
Qed.

Lemma negative_impact_is_captured_witness :
  PrimFloat.ltb (-6)%float 0 = true /\ PrimFloat.ltb 0 1%float = true /\
  PrimFloat.ltb 0 (PrimFloat.sqrt 27 * 1)%float = true /\
  regime_of (PF := b64_float) (-6)%float 1%float = Captured.
Proof.
  assert (H1 : PrimFloat.ltb (-6)%float 0 = true) by reflexivity.
  assert (H2 : PrimFloat.ltb 0 1%float = true) by reflexivity.
  assert (H3 : PrimFloat.ltb 0 (PrimFloat.sqrt 27 * 1)%float = true) by reflexivity.
  split; [exact H1 | split; [exact H2 | split; [exact H3 |]]].
  exact (proj1 (proj1 negative_impact_is_captured product_pow product_pow
                  (-6)%float 1%float H1 H2 H3)).
Defined.

(** ** More on the parser *)

Section ParserComposition.
Context {F : Type}.
Variable py_float : string -> option F.

(** Parsing two texts joined by a comma is parsing the first, then the
    second: the warnings follow each other and so do the values. *)
Theorem parse_numbers_concat (s1 s2 : string) :
  parse_numbers py_float (s1 ++ String "," s2) =
    (v1 <~ parse_numbers py_float s1 ;;
     v2 <~ parse_numbers py_float s2 ;;
     ret (v1 ++ v2)).
Proof.
  rewrite !parse_numbers_run, !sbind_done. cbn [fst snd ret].
  rewrite tokens_app. unfold converted, rejected.
  now rewrite flat_map_app, filter_app, map_app, app_nil_r.
Qed.

End ParserComposition.

Lemma blank_examples :
  tokens (" ," ++ nbsp ++ ", ") = []
  /\ massive_script float_of_string (massive_defaults (" ," ++ nbsp ++ ", ")) =
       ([StError "Por favor ingresa al menos un valor válido para $\ell$."], Stopped)
  /\ photon_script float_of_string (photon_defaults EmptyString) =
       ([StError "Por favor ingresa al menos un valor válido para $b$."], Stopped).
Proof. split; [| split]; vm_compute; reflexivity. Qed.

(** A text has no token exactly when each of its comma-separated parts
    consists of white space only (the empty text and the no-break space
    included).  For such a text both scripts, whatever the arithmetic and the
    conversion, show just the error message, with no warning, and stop. *)
Theorem blank_text_is_empty_input :
  (forall s : string, tokens s = [] <-> Forall spaces (split_on "," s))
  /\ (forall (F : Type) (PF : PyFloat F) (py_float : string -> option F)
             (inp : Inputs F),
        Forall spaces (split_on "," (text inp)) ->
        parse_numbers py_float (text inp) = ([], Done []) /\
        massive_script py_float inp =
          ([StError "Por favor ingresa al menos un valor válido para $\ell$."],
           Stopped) /\
        photon_script py_float inp =
          ([StError "Por favor ingresa al menos un valor válido para $b$."],
           Stopped))
  /\ (tokens (" ," ++ nbsp ++ ", ") = []
      /\ massive_script float_of_string (massive_defaults (" ," ++ nbsp ++ ", ")) =
           ([StError "Por favor ingresa al menos un valor válido para $\ell$."], Stopped)
      /\ photon_script float_of_string (photon_defaults EmptyString) =
           ([StError "Por favor ingresa al menos un valor válido para $b$."], Stopped)).
Proof.
  split; [| split; [| exact blank_examples]].
  - intros s. unfold tokens. apply tokens_of_nil.
  - intros F PF py_float inp Hb.
    assert (Ht : tokens (text inp) = []) by (unfold tokens; now apply tokens_of_nil).
    rewrite parse_numbers_run, massive_script_run, photon_script_run. cbv zeta.
    rewrite Ht. repeat split.
Qed.

Lemma blank_text_is_empty_input_witness :
  Forall spaces (split_on "," " , ,") /\
  massive_script float_of_string (massive_defaults " , ,") =
    ([StError "Por favor ingresa al menos un valor válido para $\ell$."], Stopped).
Proof.
  assert (Hb : Forall spaces (split_on "," " , ,")).
  { apply (proj1 (proj1 blank_text_is_empty_input " , ,"%string)). reflexivity. }
  split; [exact Hb |].
  exact (proj1 (proj2 (proj1 (proj2 blank_text_is_empty_input) _ _ float_of_string
                         (massive_defaults " , ,") Hb))).
Defined.

Lemma converted_all (ts : list string) : converted (fun t => Some t) ts = ts.
Proof.
  unfold converted. induction ts as [| t ts IH]; [reflexivity |].
  cbn [flat_map app]. now rewrite IH.
Qed.

Lemma rejected_none (ts : list string) : rejected (fun t => Some t) ts = [].
Proof.
  unfold rejected. induction ts as [| t ts IH]; [reflexivity | exact IH].
Qed.

(** The tokens handed to [float], which the parser returns when the
    conversion is the identity, are never empty, carry no white space at
    either end and contain no comma. *)
Theorem tokens_are_clean (s : string) :
  parse_numbers (fun t : string => Some t) s = ([], Done (tokens s)) /\
  Forall (fun t => t <> EmptyString /\ strip t = t /\
                   all_chars (fun c => negb (Ascii.eqb c ",")) t = true)
         (tokens s).
Proof.
  split; [| apply tokens_clean].
  now rewrite parse_numbers_run, converted_all, rejected_none.
Qed.

(** ** More on the radial grid *)

Section GenericGrid.
Context {F : Type} {PF : PyFloat F}.

Lemma set_last_length (y : list F) (stop : F) :
  List.length (set_last y stop) = List.length y.
Proof.
  destruct y as [| a y]; [reflexivity |]. unfold set_last.
  rewrite length_app, removelast_firstn_len, length_firstn. cbn. lia.
Qed.

End GenericGrid.

(** Whatever the arithmetic, rounding included, the grid has exactly [num]
    points and, from two points on, its last point is [stop] itself. *)
Theorem grid_size_and_endpoint :
  forall (F : Type) (PF : PyFloat F) (start stop : F) (num : nat),
    List.length (linspace start stop num) = num /\
    ((2 <= num)%nat -> forall d, last (linspace start stop num) d = stop).
Proof.
  intros F PF start stop num. unfold linspace.
  set (y := map (fun yi => fadd yi start) _).
  assert (Hy : List.length y = num).
  { unfold y. rewrite length_map.
    destruct (0 <? num - 1)%nat; [destruct (feqb _ _) |];
      now rewrite !length_map, length_seq. }
  split.
  - destruct (1 <? num)%nat; [rewrite set_last_length |]; exact Hy.
  - intros Hn d.
    assert (Hlt : (1 <? num)%nat = true) by (apply Nat.ltb_lt; lia).
    rewrite Hlt. unfold set_last.
    destruct y as [| a y']; [cbn in Hy; lia |]. apply last_last.
Qed.

Lemma grid_size_and_endpoint_witness :
  (2 <= 5)%nat /\ last (linspace 0.1%float 0.7%float 5) 0%float = 0.7%float.
Proof.
  assert (H5 : (2 <= 5)%nat) by lia.
  split; [exact H5 |].
  exact (proj2 (grid_size_and_endpoint b64_float 0.1%float 0.7%float 5) H5 0%float).
Defined.

Section ExactGridFacts.
Local Open Scope R_scope.

Lemma map_const_seq (a : R) (f : nat -> R) (s n : nat) :
  (forall i, f i = a) -> map f (seq s n) = repeat a n.
Proof.
  intros Hf. revert s. induction n as [| n IH]; intros s; [reflexivity |].
  cbn. now rewrite Hf, IH.
Qed.

(** A window of no width gives a constant grid: every point is the common
    end point. *)
Theorem degenerate_window_grid (a : R) (num : nat) :
  (2 <= num)%nat -> linspace a a num = repeat a num.
Proof.
  intros Hn. rewrite linspace_exact by exact Hn.
  apply map_const_seq. intros i.
  replace (a - a) with 0 by ring. unfold Rdiv. ring.
Qed.

Lemma degenerate_window_grid_witness :
  (2 <= num_points)%nat /\ linspace 5 5 num_points = repeat 5 num_points.
Proof.
  split; [exact num_points_ge_2 |].
  exact (@degenerate_window_grid 5 num_points num_points_ge_2).
Defined.

(** The grid stays inside the window. *)
Lemma grid_within (r_min r_max : R) :
  r_min <= r_max ->
  Forall (fun x => r_min <= x <= r_max) (linspace r_min r_max num_points).
Proof.
  intros Hle. apply Forall_forall. intros x Hx.
  destruct (In_nth _ _ 0 Hx) as [i [Hi <-]].
  rewrite linspace_length in Hi by apply num_points_ge_2.
  unfold num_points in Hi. rewrite grid_nth by exact Hi.
  assert (H0 : 0 <= INR i) by apply pos_INR.
  assert (H1 : INR i <= 2999).
  { replace 2999 with (INR 2999) by (rewrite INR_IZR_INZ; reflexivity).
    apply le_INR. lia. }
  assert (Hs : 0 <= (r_max - r_min) / 2999) by (apply Rle_mult_inv_pos; lra).
  assert (Hstep : (r_max - r_min) / 2999 * 2999 = r_max - r_min) by (field; lra).
  nra.
Qed.

(** Whatever the sliders are set to within their ranges, every point of the
    radial grid [r] on which the curves are evaluated lies in the slider
    ranges, so it is positive: between 0.01 and 1000 in the massive-particle
    script, between 0.1 and 50 in the photon script (exact arithmetic). *)
Theorem slider_ranges_keep_radii_positive :
  (forall inp : Inputs R, massive_slider_ranges inp ->
     Forall (fun x => 0.01 <= x <= 1000)
       (map (fun x => x * GM)%py
          (linspace (r_min_slider inp * GM)%py (r_max_slider inp * GM)%py
             num_points)))
  /\ (forall inp : Inputs R, photon_slider_ranges inp ->
        Forall (fun x => 0.1 <= x <= 50)
          (map (fun x => x * GM)%py
             (linspace (r_min_slider inp * GM)%py (r_max_slider inp * GM)%py
                num_points))).
Proof.
  split; intros inp [[Hlo Hmid] [Hmid' Hhi]]; rewrite GM_exact; exact_arith;
    apply Forall_map;
    (eapply Forall_impl; [| apply grid_within; lra]);
    intros x Hx; cbn beta in *; lra.
Qed.

Lemma slider_ranges_keep_radii_positive_witness :
  massive_slider_ranges
    {| text := "4"; show_newtonian := false; r_min_slider := 2.5;
       r_max_slider := 500; y_limits := None |} /\
  Forall (fun x => 0.01 <= x <= 1000)
    (map (fun x => x * GM)%py
       (linspace (2.5 * GM)%py (500 * GM)%py num_points)).
Proof.
  assert (Hr : massive_slider_ranges
                 {| text := "4"; show_newtonian := false; r_min_slider := 2.5;
                    r_max_slider := 500; y_limits := None |})
    by (unfold massive_slider_ranges; cbn; lra).
  split; [exact Hr |].
  exact (proj1 slider_ranges_keep_radii_positive _ Hr).
Defined.

End ExactGridFacts.

(** ** What a run draws, and in which order *)

Lemma flat_map_none {A B : Type} (f : A -> list B) (l : list A) :
  (forall x, In x l -> f x = []) -> flat_map f l = [].
Proof.
  induction l as [| a l IH]; intros Hf; [reflexivity |].
  cbn. rewrite (Hf a) by now left. apply IH. intros x Hx. apply Hf. now right.
Qed.

Section TracePieces.
Context {F : Type} {PF : PyFloat F}.
Local Open Scope py_scope.

Lemma no_warning_projects {A : Type} (g : Event F -> list A) (ws : list string) :
  (forall w, g (SidebarWarning w) = []) ->
  flat_map g (map (fun t => SidebarWarning (warning_text t)) ws) = [].
Proof.
  intros Hg. apply flat_map_none. intros x Hx.
  apply in_map_iff in Hx. destruct Hx as [t [<- _]]. apply Hg.
Qed.

Lemma no_ylim_projects {A : Type} (g : Event F -> list A) (inp : Inputs F) :
  (forall lo hi, g (SetYLim lo hi) = []) -> flat_map g (fst (set_ylim inp)) = [].
Proof.
  intros Hg. unfold set_ylim. destruct (y_limits inp) as [[lo hi] |]; cbn;
    [now rewrite Hg | reflexivity].
Qed.

Lemma info_lines_of_infos (infos : list (F * ExtremumPoint F)) :
  info_lines (map (fun i => CriticalPointInfo (fst i) (kind (snd i))
                              (radius (snd i) / GM)) infos)
  = map (fun i => (kind (snd i), radius (snd i) / GM)) infos.
Proof.
  unfold info_lines. induction infos as [| i infos IH]; [reflexivity |].
  cbn. now rewrite IH.
Qed.

Lemma no_info_projects {A : Type} (g : Event F -> list A)
    (infos : list (F * ExtremumPoint F)) :
  (forall l k x, g (CriticalPointInfo l k x) = []) ->
  flat_map g (map (fun i => CriticalPointInfo (fst i) (kind (snd i))
                              (radius (snd i) / GM)) infos) = [].
Proof.
  intros Hg. apply flat_map_none. intros x Hx.
  apply in_map_iff in Hx. destruct Hx as [i [<- _]]. apply Hg.
Qed.

Lemma markers_of_points (points : list (ExtremumPoint F)) :
  markers (map (fun p => PlotMarker (kind p) (radius p / GM) (potential p)) points)
  = map (fun p => (kind p, radius p / GM)) points.
Proof.
  unfold markers. induction points as [| p ps IH]; [reflexivity |].
  cbn. now rewrite IH.
Qed.

Lemma no_marker_projects {A : Type} (g : Event F -> list A)
    (points : list (ExtremumPoint F)) :
  (forall k x y, g (PlotMarker k x y) = []) ->
  flat_map g (map (fun p => PlotMarker (kind p) (radius p / GM) (potential p)) points)
  = [].
Proof.
  intros Hg. apply flat_map_none. intros x Hx.
  apply in_map_iff in Hx. destruct Hx as [p [<- _]]. apply Hg.
Qed.

(** What the loop over [l_list] has drawn when it ends, normally or not: the
    curves of the values up to the one at which it raised, in order; the
    Newtonian curves beside them when the comparison is ticked; no line; and,
    when it ends normally, one marker for each critical point recorded. *)
Lemma momenta_loop_trace (inp : Inputs F) (r_over_GM r : list F) (r_min r_max : F)
    (l_list : list F) (info : list (F * ExtremumPoint F)) :
  let run := foldM (plot_momentum inp r_over_GM r r_min r_max) l_list info in
  (exists rest, l_list = relativistic_curves (fst run) ++ rest /\
                (forall info', snd run = Done info' -> rest = [])) /\
  newtonian_curves (fst run) =
    (if show_newtonian inp then relativistic_curves (fst run) else []) /\
  vertical_lines (fst run) = [] /\
  info_lines (fst run) = [] /\
  (forall info', snd run = Done info' ->
     exists extra,
       info' = info ++ extra /\
       markers (fst run) = map (fun i => (kind (snd i), radius (snd i) / GM)) extra).
Proof.
  revert info. induction l_list as [| l ls IH]; intros info; cbv zeta.
  - cbn [foldM ret fst snd]. split; [| split; [| split; [| split]]].
    + exists []. now split.
    + now destruct (show_newtonian inp).
    + reflexivity.
    + reflexivity.
    + intros info' [= <-]. exists []. now rewrite app_nil_r.
  - cbn [foldM]. rewrite plot_momentum_run.
    pose proof (grids_raise_together r GM l) as Hg.
    destruct (V_eff_grid r GM l) as [V | e],
      (V_eff_newton_grid r GM l) as [V_newt | e']; try contradiction.
    + destruct (find_extrema GM l r_min r_max) as [points | e].
      * rewrite sbind_done. cbn [fst snd].
        specialize (IH (info ++ map (fun p => (l, p)) points)). cbv zeta in IH.
        destruct IH as [[rest [Hl Hrest]] [Hn [Hv [Hi Hm]]]].
        set (tail := foldM (plot_momentum inp r_over_GM r r_min r_max) ls
                       (info ++ map (fun p => (l, p)) points)) in *.
        assert (Hrel : relativistic_curves
                         ((PlotCurve (Relativistic l) r_over_GM V
                             :: (if show_newtonian inp
                                 then [PlotCurve (Newtonian l) r_over_GM V_newt]
                                 else [])
                             ++ map (fun p => PlotMarker (kind p) (radius p / GM)
                                                (potential p)) points)
                            ++ fst tail)
                       = l :: relativistic_curves (fst tail)).
        { unfold relativistic_curves. rewrite flat_map_app. cbn [flat_map app].
          rewrite flat_map_app, no_marker_projects by reflexivity.
          now destruct (show_newtonian inp). }
        assert (Hnew : newtonian_curves
                         ((PlotCurve (Relativistic l) r_over_GM V
                             :: (if show_newtonian inp
                                 then [PlotCurve (Newtonian l) r_over_GM V_newt]
                                 else [])
                             ++ map (fun p => PlotMarker (kind p) (radius p / GM)
                                                (potential p)) points)
                            ++ fst tail)
                       = (if show_newtonian inp then [l] else [])
                         ++ newtonian_curves (fst tail)).
        { unfold newtonian_curves. rewrite flat_map_app. cbn [flat_map app].
          rewrite flat_map_app, no_marker_projects by reflexivity.
          now destruct (show_newtonian inp). }
        split; [| split; [| split; [| split]]].
        -- exists rest. rewrite Hrel. split; [cbn [app]; now f_equal | exact Hrest].
        -- rewrite Hnew, Hrel, Hn. now destruct (show_newtonian inp).
        -- unfold vertical_lines in *. rewrite flat_map_app, Hv. cbn [flat_map app].
           rewrite flat_map_app, no_marker_projects by reflexivity.
           now destruct (show_newtonian inp).
        -- unfold info_lines in *. rewrite flat_map_app, Hi. cbn [flat_map app].
           rewrite flat_map_app, no_marker_projects by reflexivity.
           now destruct (show_newtonian inp).
        -- intros info' Hd. destruct (Hm info' Hd) as [extra [E Hmk]].
           exists (map (fun p => (l, p)) points ++ extra). split.
           ++ now rewrite E, app_assoc.
           ++ pose proof (markers_of_points points) as HP.
              unfold markers in *. rewrite flat_map_app, Hmk. cbn [flat_map app].
              rewrite flat_map_app, HP, map_app, map_map. cbn [fst snd].
              now destruct (show_newtonian inp).
      * rewrite sbind_crashed. cbn [fst snd].
        split; [| split; [| split; [| split]]].
        -- exists ls. split; [| discriminate].
           unfold relativistic_curves. cbn [flat_map app].
           rewrite flat_map_app.
           now destruct (show_newtonian inp).
        -- unfold newtonian_curves, relativistic_curves. cbn [flat_map app].
           rewrite !flat_map_app.
           now destruct (show_newtonian inp).
        -- unfold vertical_lines. cbn [flat_map app]. rewrite flat_map_app.
           now destruct (show_newtonian inp).
        -- unfold info_lines. cbn [flat_map app]. rewrite flat_map_app.
           now destruct (show_newtonian inp).
        -- discriminate.
    + rewrite sbind_crashed. cbn [fst snd].
      split; [| split; [| split; [| split]]]; try reflexivity.
      * exists (l :: ls). split; [reflexivity | discriminate].
      * now destruct (show_newtonian inp).
      * discriminate.
Qed.

End TracePieces.

Section MassiveTrace.
Context {F : Type} {PF : PyFloat F}.
Variable py_float : string -> option F.
Local Open Scope py_scope.

(** The projections of a run of the massive-particle script, whatever the
    arithmetic and however the run ends. *)
Lemma massive_trace (inp : Inputs F) :
  let run := massive_script py_float inp in
  let r_min := r_min_slider inp * GM in
  let r_max := r_max_slider inp * GM in
  (exists rest, converted py_float (tokens (text inp))
                = relativistic_curves (fst run) ++ rest /\
                (snd run = Done tt -> rest = [])) /\
  newtonian_curves (fst run) =
    (if show_newtonian inp then relativistic_curves (fst run) else []) /\
  info_lines (fst run) =
    match snd run with
    | Done _ => markers (fst run)
    | _ => []
    end /\
  vertical_lines (fst run) =
    match snd run with
    | Done _ => if between r_min (#2 * GM) r_max then [(Horizon, #2)] else []
    | _ => []
    end.
Proof.
  cbv zeta. rewrite massive_script_run. cbv zeta.
  set (r_min := r_min_slider inp * GM). set (r_max := r_max_slider inp * GM).
  set (r_over_GM := linspace r_min r_max num_points).
  set (r := map (fun x => x * GM) r_over_GM).
  destruct (converted py_float (tokens (text inp))) as [| l ls] eqn:El.
  - cbn [fst snd].
    unfold relativistic_curves, newtonian_curves, info_lines, vertical_lines.
    rewrite !flat_map_app, !no_warning_projects by reflexivity. cbn [flat_map app].
    split; [| split; [| split]]; try reflexivity.
    + exists []. split; [reflexivity | discriminate].
    + now destruct (show_newtonian inp).
  - pose proof (momenta_loop_trace inp r_over_GM r r_min r_max (l :: ls) []) as HT.
    cbv zeta in HT. destruct HT as [[rest [Hl Hrest]] [Hn [Hv [Hi Hm]]]].
    destruct (foldM (plot_momentum inp r_over_GM r r_min r_max) (l :: ls) [])
      as [evs [info' | e |]]; cbn [fst snd] in *.
    + destruct (Hm info' eq_refl) as [extra [E Hmk]]. cbn [app] in E. subst extra.
      pose proof (info_lines_of_infos info') as HI.
      unfold relativistic_curves, newtonian_curves, info_lines, vertical_lines,
        markers in *.
      rewrite !flat_map_app, !no_warning_projects, !no_ylim_projects by reflexivity.
      cbn [flat_map]. rewrite HI. rewrite !no_info_projects by reflexivity.
      rewrite Hv, Hi, Hmk, Hn. cbn [app].
      split; [| split; [| split]].
      * exists rest. split; [| intros _; now apply (Hrest info')].
        rewrite Hl. f_equal.
        destruct (between r_min (#2 * GM) r_max); cbn; now rewrite ?app_nil_r.
      * destruct (between r_min (#2 * GM) r_max), (show_newtonian inp);
          cbn; now rewrite ?app_nil_r.
      * destruct (between r_min (#2 * GM) r_max); cbn; now rewrite ?app_nil_r.
      * destruct (between r_min (#2 * GM) r_max); cbn; now rewrite ?app_nil_r.
    + unfold relativistic_curves, newtonian_curves, info_lines, vertical_lines in *.
      rewrite !flat_map_app, !no_warning_projects by reflexivity.
      cbn [flat_map app]. rewrite !app_nil_r, Hv, Hi, Hn.
      split; [| split; [| split]]; try reflexivity.
      exists rest. split; [exact Hl | discriminate].
    + unfold relativistic_curves, newtonian_curves, info_lines, vertical_lines in *.
      rewrite !flat_map_app, !no_warning_projects by reflexivity.
      cbn [flat_map app]. rewrite !app_nil_r, Hv, Hi, Hn.
      split; [| split; [| split]]; try reflexivity.
      exists rest. split; [exact Hl | discriminate].
Qed.

End MassiveTrace.

Lemma curves_examples_binary64 :
  (let run := massive_script float_of_string (massive_defaults "3, 4, 3") in
   relativistic_curves (fst run) = [3%float; 4%float; 3%float] /\
   newtonian_curves (fst run) = [] /\ snd run = Done tt)
  /\ (let run := massive_script float_of_string
                   {| text := "3, 4, 3"; show_newtonian := true;
                      r_min_slider := 1.5%float; r_max_slider := 500%float;
                      y_limits := None |} in
      relativistic_curves (fst run) = [3%float; 4%float; 3%float] /\
      newtonian_curves (fst run) = [3%float; 4%float; 3%float] /\
      snd run = Done tt)
  /\ (let run := massive_script float_of_string (massive_defaults "4, 1e200, 3") in
      relativistic_curves (fst run) = [4%float] /\
      snd run = Crashed OverflowError)
  /\ (let run := massive_script float_of_string (massive_defaults "1e200") in
      relativistic_curves (fst run) = [] /\ snd run = Crashed OverflowError).
Proof.
  split; [| split; [| split]]; cbv zeta; vm_compute; repeat split.
Qed.

(** The curves follow the order of the text.  Whatever the arithmetic, the
    relativistic curves of a run are those of the first values that
    converted, in the order of the tokens and with duplicates kept: of all
    of them when the run ends normally, of those in front of the value at
    which an exception was raised otherwise (that value included when its
    own curve was already drawn).  The Newtonian curves are the same list
    when the comparison is ticked, and there is none otherwise. *)
Theorem curves_follow_input_order :
  (forall (F : Type) (PF : PyFloat F) (py_float : string -> option F)
          (inp : Inputs F),
     let run := massive_script py_float inp in
     (exists rest, converted py_float (tokens (text inp))
                   = relativistic_curves (fst run) ++ rest /\
                   (snd run = Done tt -> rest = [])) /\
     newtonian_curves (fst run) =
       (if show_newtonian inp then relativistic_curves (fst run) else []))
  /\ ((let run := massive_script float_of_string (massive_defaults "3, 4, 3") in
       relativistic_curves (fst run) = [3%float; 4%float; 3%float] /\
       newtonian_curves (fst run) = [] /\ snd run = Done tt)
      /\ (let run := massive_script float_of_string
                       {| text := "3, 4, 3"; show_newtonian := true;
                          r_min_slider := 1.5%float; r_max_slider := 500%float;
                          y_limits := None |} in
          relativistic_curves (fst run) = [3%float; 4%float; 3%float] /\
          newtonian_curves (fst run) = [3%float; 4%float; 3%float] /\
          snd run = Done tt)
      /\ (let run := massive_script float_of_string (massive_defaults "4, 1e200, 3") in
          relativistic_curves (fst run) = [4%float] /\
          snd run = Crashed OverflowError)
      /\ (let run := massive_script float_of_string (massive_defaults "1e200") in
          relativistic_curves (fst run) = [] /\ snd run = Crashed OverflowError)).
Proof.
  split; [| exact curves_examples_binary64].
  intros F PF py_float inp. cbv zeta.
  destruct (massive_trace py_float inp) as [H1 [H2 _]]. now split.
Qed.

Lemma markers_examples_binary64 :
  (let run := massive_script float_of_string (massive_defaults "4") in
   markers (fst run) = [(KMax, 4%float); (KMin, 12%float)] /\
   info_lines (fst run) = [(KMax, 4%float); (KMin, 12%float)] /\
   snd run = Done tt)
  /\ (let run := massive_script float_of_string (massive_defaults "4, 1e200") in
      markers (fst run) = [(KMax, 4%float); (KMin, 12%float)] /\
      info_lines (fst run) = [] /\
      snd run = Crashed OverflowError).
Proof.
  split; cbv zeta; vm_compute; repeat split.
Qed.

(** Whatever the arithmetic, a run of the massive-particle script that ends
    normally lists under "Puntos Criticos" exactly the markers it has drawn:
    same kinds, same abscissas, same order.  A run that ends in an exception
    or stops lists nothing, whatever markers it has drawn before: on
    "4, 1e200" two markers are drawn and none is listed. *)
Theorem every_marker_is_listed :
  (forall (F : Type) (PF : PyFloat F) (py_float : string -> option F)
          (inp : Inputs F),
     info_lines (fst (massive_script py_float inp)) =
       match snd (massive_script py_float inp) with
       | Done _ => markers (fst (massive_script py_float inp))
       | _ => []
       end)
  /\ ((let run := massive_script float_of_string (massive_defaults "4") in
       markers (fst run) = [(KMax, 4%float); (KMin, 12%float)] /\
       info_lines (fst run) = [(KMax, 4%float); (KMin, 12%float)] /\
       snd run = Done tt)
      /\ (let run := massive_script float_of_string (massive_defaults "4, 1e200") in
          markers (fst run) = [(KMax, 4%float); (KMin, 12%float)] /\
          info_lines (fst run) = [] /\
          snd run = Crashed OverflowError)).
Proof.
  split; [| exact markers_examples_binary64].
  intros F PF py_float inp.
  exact (proj1 (proj2 (proj2 (massive_trace py_float inp)))).
Qed.

Lemma horizon_examples_binary64 :
  (let run := massive_script float_of_string
                {| text := "4"; show_newtonian := false; r_min_slider := 1.5%float;
                   r_max_slider := 500%float; y_limits := None |} in
   vertical_lines (fst run) = [(Horizon, 2%float)] /\ snd run = Done tt)
  /\ (let run := massive_script float_of_string
                   {| text := "1e200"; show_newtonian := false;
                      r_min_slider := 1.5%float; r_max_slider := 500%float;
                      y_limits := None |} in
      vertical_lines (fst run) = [] /\ snd run = Crashed OverflowError)
  /\ (let run := massive_script float_of_string (massive_defaults "4") in
      vertical_lines (fst run) = [] /\ snd run = Done tt).
Proof.
  split; [| split]; cbv zeta; vm_compute; repeat split.
Qed.

(** Whatever the arithmetic, the only vertical line of the massive-particle
    script is the horizon, at r/GM = 2: it is drawn exactly when the run ends
    normally and r_min <= 2GM <= r_max.  A run that ends in an exception has
    no line even when 2 lies in the window, as on "1e200". *)
Theorem massive_horizon_line :
  (forall (F : Type) (PF : PyFloat F) (py_float : string -> option F)
          (inp : Inputs F),
     vertical_lines (fst (massive_script py_float inp)) =
       match snd (massive_script py_float inp) with
       | Done _ =>
           if between (r_min_slider inp * GM)%py (#2 * GM)%py (r_max_slider inp * GM)%py
           then [(Horizon, (#2)%py)] else []
       | _ => []
       end)
  /\ ((let run := massive_script float_of_string
                    {| text := "4"; show_newtonian := false; r_min_slider := 1.5%float;
                       r_max_slider := 500%float; y_limits := None |} in
       vertical_lines (fst run) = [(Horizon, 2%float)] /\ snd run = Done tt)
      /\ (let run := massive_script float_of_string
                       {| text := "1e200"; show_newtonian := false;
                          r_min_slider := 1.5%float; r_max_slider := 500%float;
                          y_limits := None |} in
          vertical_lines (fst run) = [] /\ snd run = Crashed OverflowError)
      /\ (let run := massive_script float_of_string (massive_defaults "4") in
          vertical_lines (fst run) = [] /\ snd run = Done tt)).
Proof.
  split; [| exact horizon_examples_binary64].
  intros F PF py_float inp.
  exact (proj2 (proj2 (proj2 (massive_trace py_float inp)))).
Qed.

(** ** The energy levels of the photon script *)

Section PhotonLevels.
Context {F : Type} {PF : PyFloat F}.
Variable py_float : string -> option F.
Local Open Scope py_scope.

Lemma energy_levels_loop (b_list : list F) :
  energy_levels (fst (for_each b_list plot_energy_level)) = classified b_list /\
  snd (for_each b_list plot_energy_level) =
    match first_failure b_list with
    | Some e => Crashed e
    | None => Done tt
    end.
Proof.
  unfold for_each. induction b_list as [| b bs [IH1 IH2]]; [now split |].
  cbn [foldM classified first_failure]. rewrite plot_energy_level_run.
  destruct (classify_impact_parameter b GM) as [c | e].
  - rewrite sbind_done. cbn [fst snd]. split; [| exact IH2].
    unfold energy_levels in *. cbn [flat_map app]. now rewrite IH1.
  - rewrite sbind_crashed. now split.
Qed.

Lemma photon_levels (inp : Inputs F) :
  energy_levels (fst (photon_script py_float inp))
    = classified (converted py_float (tokens (text inp))) /\
  snd (photon_script py_float inp) =
    match converted py_float (tokens (text inp)) with
    | [] => Stopped
    | _ :: _ =>
        match first_failure (converted py_float (tokens (text inp))) with
        | Some e => Crashed e
        | None => Done tt
        end
    end.
Proof.
  rewrite photon_script_run. cbv zeta.
  destruct (converted py_float (tokens (text inp))) as [| b bs] eqn:Eb.
  - cbn [fst snd classified]. split; [| reflexivity].
    unfold energy_levels.
    now rewrite flat_map_app, no_warning_projects by reflexivity.
  - destruct (energy_levels_loop (b :: bs)) as [H1 H2].
    cbn [fst snd]. rewrite H2. split.
    + rewrite photon_landmarks_run. cbn [fst].
      unfold energy_levels in *.
      rewrite !flat_map_app, no_warning_projects by reflexivity.
      cbn [flat_map]. rewrite !flat_map_app, H1.
      assert (Htail : flat_map (fun e : Event F => match e with
                                                   | AxHLine c => [c]
                                                   | _ => []
                                                   end)
                        match (match first_failure (b :: bs) with
                               | Some e => Crashed e
                               | None => Done tt
                               end : ending unit) with
                        | Done _ => fst (set_ylim inp) ++ [Pyplot]
                        | _ => []
                        end = []).
      { destruct (first_failure (b :: bs)); try reflexivity.
        now rewrite flat_map_app, no_ylim_projects by reflexivity. }
      rewrite Htail.
      destruct (show_newtonian inp),
        (between (r_min_slider inp * GM) (#3 * GM) (r_max_slider inp * GM)),
        (between (r_min_slider inp * GM) (#2 * GM) (r_max_slider inp * GM));
        cbn [flat_map app]; now rewrite ?app_nil_r.
    + destruct (first_failure (b :: bs)); reflexivity.
Qed.

End PhotonLevels.

Lemma levels_examples_binary64 :
  (let run := photon_script float_of_string (photon_defaults "6, 4") in
   energy_levels (fst run) =
     [{| impact := 6%float; E_eff := (1 / 36)%float; regime := Escapes |};
      {| impact := 4%float; E_eff := (1 / 16)%float; regime := Captured |}] /\
   snd run = Done tt)
  /\ (let run := photon_script float_of_string (photon_defaults "6, 0, 4") in
      energy_levels (fst run) =
        [{| impact := 6%float; E_eff := (1 / 36)%float; regime := Escapes |}] /\
      snd run = Crashed ZeroDivisionError)
  /\ (let run := photon_script float_of_string (photon_defaults "6, 1e-200, 4") in
      energy_levels (fst run) =
        [{| impact := 6%float; E_eff := (1 / 36)%float; regime := Escapes |}] /\
      snd run = Crashed ZeroDivisionError)
  /\ (let run := photon_script float_of_string (photon_defaults "6, 1e200, 0") in
      energy_levels (fst run) =
        [{| impact := 6%float; E_eff := (1 / 36)%float; regime := Escapes |}] /\
      snd run = Crashed OverflowError).
Proof.
  split; [| split; [| split]]; cbv zeta; vm_compute; repeat split.
Qed.

(** Whatever the arithmetic, the photon script draws the energy levels in
    the order of the parsed values and stops drawing at the first value
    whose energy 1/(b GM)^2 cannot be computed: the levels are those of the
    values in front of it, and the run ends in the exception of that value,
    or normally when there is none.  In binary64 that value need not be a
    zero: "6, 1e-200, 4" ends in ZeroDivisionError after one level, and
    "6, 1e200, 0" in OverflowError. *)
Theorem levels_until_first_failure :
  (forall (F : Type) (PF : PyFloat F) (py_float : string -> option F)
          (inp : Inputs F),
     energy_levels (fst (photon_script py_float inp))
       = classified (converted py_float (tokens (text inp))) /\
     snd (photon_script py_float inp) =
       match converted py_float (tokens (text inp)) with
       | [] => Stopped
       | _ :: _ =>
           match first_failure (converted py_float (tokens (text inp))) with
           | Some e => Crashed e
           | None => Done tt
           end
       end)
  /\ ((let run := photon_script float_of_string (photon_defaults "6, 4") in
       energy_levels (fst run) =
         [{| impact := 6%float; E_eff := (1 / 36)%float; regime := Escapes |};
          {| impact := 4%float; E_eff := (1 / 16)%float; regime := Captured |}] /\
       snd run = Done tt)
      /\ (let run := photon_script float_of_string (photon_defaults "6, 0, 4") in
          energy_levels (fst run) =
            [{| impact := 6%float; E_eff := (1 / 36)%float; regime := Escapes |}] /\
          snd run = Crashed ZeroDivisionError)
      /\ (let run := photon_script float_of_string (photon_defaults "6, 1e-200, 4") in
          energy_levels (fst run) =
            [{| impact := 6%float; E_eff := (1 / 36)%float; regime := Escapes |}] /\
          snd run = Crashed ZeroDivisionError)
      /\ (let run := photon_script float_of_string (photon_defaults "6, 1e200, 0") in
          energy_levels (fst run) =
            [{| impact := 6%float; E_eff := (1 / 36)%float; regime := Escapes |}] /\
          snd run = Crashed OverflowError)).
Proof.
  split; [| exact levels_examples_binary64].
  intros F PF py_float inp. apply photon_levels.
Qed.

Section PhotonSliders.
Variable py_float : string -> option R.
Local Open Scope R_scope.

(** With the sliders of the photon script in their ranges the upper limit
    never hides a landmark: once a value has converted, the photon sphere is
    marked exactly when the lower limit is at most 3, the horizon exactly
    when it is at most 2. *)
Theorem photon_landmarks_in_ranges (inp : Inputs R) :
  photon_slider_ranges inp ->
  converted py_float (tokens (text inp)) <> [] ->
  (In (PlotMarker KMax 3 (1 / 27)) (fst (photon_script py_float inp))
   <-> r_min_slider inp <= 3) /\
  (In (AxVLine Horizon 2) (fst (photon_script py_float inp))
   <-> r_min_slider inp <= 2).
Proof.
  intros [[Hlo Hmid] [Hmid' Hhi]] Hne.
  destruct (photon_landmarks_gated py_float inp) as [Hm [_ [Hh [Hm' Hh']]]].
  split; split.
  - intros Hin. apply Hm in Hin. lra.
  - intros Hle. apply Hm'; [exact Hne | lra].
  - intros Hin. apply Hh in Hin. lra.
  - intros Hle. apply Hh'; [exact Hne | lra].
Qed.

End PhotonSliders.

Lemma photon_landmarks_in_ranges_witness :
  photon_slider_ranges
    {| text := "6"; show_newtonian := false; r_min_slider := 1.5%R;
       r_max_slider := 15%R; y_limits := None |} /\
  converted (fun _ : string => Some 6%R) (tokens "6") <> [] /\
  In (AxVLine Horizon 2%R)
    (fst (photon_script (fun _ : string => Some 6%R)
            {| text := "6"; show_newtonian := false; r_min_slider := 1.5%R;
               r_max_slider := 15%R; y_limits := None |})).
Proof.
  assert (Hr : photon_slider_ranges
                 {| text := "6"; show_newtonian := false; r_min_slider := 1.5%R;
                    r_max_slider := 15%R; y_limits := None |})
    by (unfold photon_slider_ranges; cbn; lra).
  assert (Hne : converted (fun _ : string => Some 6%R) (tokens "6") <> [])
    by discriminate.
  split; [exact Hr | split; [exact Hne |]].
  apply (proj2 (photon_landmarks_in_ranges (fun _ : string => Some 6%R) Hr Hne)).
  cbn. lra.
Defined.

(** ** Parameters that are not numbers *)

(** NaN is neither below nor above anything. *)
Lemma nan_not_ltb (x y : float) :
  PrimFloat.is_nan x = true ->
  PrimFloat.ltb x y = false /\ PrimFloat.ltb y x = false.
Proof.
  intros Hn. apply is_nan_spec in Hn. rewrite !ltb_spec, Hn. unfold SFltb.
  split; [reflexivity |]. now destruct (Prim2SF y).
Qed.

(** The parser accepts the token "nan".  An impact parameter that is NaN is
    labelled critical, since both comparisons fail, and an angular momentum
    that is NaN has no extremum marked. *)
Theorem nan_parameters :
  float_of_string "nan" = Some nan
  /\ (forall b gm : float,
        PrimFloat.is_nan (b * gm)%float = true ->
        regime_of b gm = Critical)
  /\ (forall gm l r_min r_max : float,
        PrimFloat.is_nan l = true ->
        find_extrema gm l r_min r_max = Ok [])
  /\ classify_impact_parameter nan 1%float =
       Ok {| impact := nan; E_eff := nan; regime := Critical |}.
Proof.
  split; [vm_compute; reflexivity | split; [| split]].
  - intros b gm Hn. unfold regime_of.
    change (fltb (fmul b gm) (fmul (fsqrt (of_Z 27)) gm))
      with (PrimFloat.ltb (b * gm)%float (PrimFloat.sqrt (Z2F 27) * gm)%float).
    change (fltb (fmul (fsqrt (of_Z 27)) gm) (fmul b gm))
      with (PrimFloat.ltb (PrimFloat.sqrt (Z2F 27) * gm)%float (b * gm)%float).
    destruct (@nan_not_ltb _ (PrimFloat.sqrt (Z2F 27) * gm)%float Hn) as [H1 H2].
    now rewrite H1, H2.
  - intros gm l r_min r_max Hn. apply find_extrema_guard.
    change (PrimFloat.ltb (Z2F 2 * PrimFloat.sqrt (Z2F 3) * gm)%float l = false).
    now destruct (@nan_not_ltb _ (Z2F 2 * PrimFloat.sqrt (Z2F 3) * gm)%float Hn).
  - vm_compute. reflexivity.
Qed.

Lemma nan_parameters_witness :
  PrimFloat.is_nan (nan * 1)%float = true /\ regime_of nan 1%float = Critical.
Proof.
  assert (Hn : PrimFloat.is_nan (nan * 1)%float = true) by reflexivity.
  split; [exact Hn |].
  exact (proj1 (proj2 nan_parameters) nan 1%float Hn).
Defined.
